(** * Clipboard history manager: a shallow embedding of [clipboard_history.py]

    The development models the class [ClipboardHistory]: the bounded history
    (a [collections.deque] with [maxlen]), its durable JSON file, the image
    blob directory, and the retrieval view (filter, cursor, commit, delete).

    Conventions.
    - A Python [str] is a list of Unicode code points ([list N]); [len] and
      slicing count code points, as in Python.
    - A history entry is a Python [dict] with string keys and string values:
      a [gmap string (list N)].  Dict equality ([==]) is map equality.
    - The deque is a list, oldest entry first.
    - Every Python exception that the source catches is modelled explicitly
      with [result] and [try_except]; the outcome of an OS call is supplied
      by an environment record [Env].
    - [json.dump]/[json.load], [hashlib.md5], [str.lower] and the PIL
      thumbnailer are library code: the file is modelled by the document it
      denotes, the others are section variables.
    - A reading of [time.time()] is a rational number of seconds; the
      difference of two readings and the comparison with [0.5] are exact.
    - The object carries a log of the effects it issued (file writes and
      removals, saves, clipboard copies, the paste thread), so that "the
      object is unchanged" also says that nothing was written. *)

From stdpp Require Import gmap strings list fin_maps.
From Stdlib Require Import QArith Qminmax.

Local Open Scope Z_scope.
Local Open Scope nat_scope.

(** ** Python strings *)

Abbreviation pystr := (list N).
Abbreviation entry := (gmap string (list N)).
Abbreviation bytes := (list Byte.byte).

(** An ASCII literal as a Python string. *)
Definition str (s : string) : list N :=
  map Ascii.N_of_ascii (String.list_ascii_of_string s).

(** [str.isspace] on one code point (CPython's [_PyUnicode_IsWhitespace]). *)
Definition isspace (c : N) : bool :=
  ((9 <=? c) && (c <=? 13) || (28 <=? c) && (c <=? 32)
   || (c =? 133) || (c =? 160) || (c =? 5760)
   || (8192 <=? c) && (c <=? 8202)
   || (c =? 8232) || (c =? 8233) || (c =? 8239) || (c =? 8287)
   || (c =? 12288))%N.

Fixpoint lstrip (s : list N) : list N :=
  match s with
  | c :: s' => if isspace c then lstrip s' else s
  | [] => []
  end.

(** [s.strip()] *)
Definition strip (s : list N) : list N := rev (lstrip (rev (lstrip s))).

(** [a in b] on strings: [a] occurs as a contiguous slice of [b]. *)
Fixpoint startswith (a b : list N) : bool :=
  match a, b with
  | [], _ => true
  | x :: a', y :: b' => (x =? y)%N && startswith a' b'
  | _ :: _, [] => false
  end.

Fixpoint str_in (a b : list N) : bool :=
  match b with
  | [] => match a with [] => true | _ => false end
  | _ :: b' => startswith a b || str_in a b'
  end.

(** ** The deque with [maxlen] *)

(** [deque.append(x)]: CPython appends on the right and then, when the
    length exceeds [maxlen], pops one element on the left. *)
Definition deque_append {A} (maxlen : nat) (d : list A) (x : A) : list A :=
  let d' := d ++ [x] in
  if decide (maxlen < length d') then tail d' else d'.

(** [deque(iterable, maxlen)]: the elements are appended one by one. *)
Definition deque_of_list {A} (maxlen : nat) (l : list A) : list A :=
  fold_left (deque_append maxlen) l [].

(** ** Exceptions *)

Inductive exn :=
  OSError | ValueError | TypeError | AttributeError | PILError
| PyperclipException.

Inductive result (A : Type) :=
| Ok (a : A)
| Raise (e : exn).
Arguments Ok {A} a.
Arguments Raise {A} e.

(** [deque.remove(v)]: delete the first element equal to [v]; [ValueError]
    when there is none. *)
Fixpoint deque_remove `{EqDecision A} (v : A) (d : list A) : result (list A) :=
  match d with
  | [] => Raise ValueError
  | x :: d' =>
      if decide (x = v) then Ok d'
      else match deque_remove v d' with
           | Ok d'' => Ok (x :: d'')
           | Raise e => Raise e
           end
  end.

(** ** Entries *)

Definition image_placeholder : list N :=
  [91; 1048; 1079; 1086; 1073; 1088; 1072; 1078; 1077; 1085; 1080; 1077; 93]%N.

Definition image_keyword : list N :=
  [1080; 1079; 1086; 1073; 1088; 1072; 1078; 1077; 1085; 1080; 1077]%N.

(** [e.get(k)] is [e !! k]; [e.get(k, '')] is [get_str e k]. *)
Definition get_str (e : gmap string (list N)) (k : string) : list N :=
  default [] (e !! k).

(** The dict built for a text (source lines 219-224). *)
Definition text_entry (text now : list N) : gmap string (list N) :=
  <["type" := str "text"]>
  (<["text" := text]>
  (<["timestamp" := now]>
  (<["preview" := take 100 text ++ (if decide (100 < length text) then str "..." else [])]>
   ∅))).

(** The dict built for an image (source lines 191-198). *)
Definition image_entry (image_path preview_path image_hash now : list N)
  : gmap string (list N) :=
  <["type" := str "image"]>
  (<["image_path" := image_path]>
  (<["preview_path" := preview_path]>
  (<["image_hash" := image_hash]>
  (<["timestamp" := now]>
  (<["preview" := image_placeholder]> ∅))))).

(** ** Durable history file *)

(** What [json.load] makes of [~/.clipboard_history.json]: the file is
    absent, or it does not parse to a document of entry records (any
    exception inside the [try] of [load_history]), or it is a document with
    optional fields [history] and [last_update] whose [history] is a list
    of records in the format [save_history] writes: objects with string
    values.  A document that loads without an exception but holds
    something else in [history] (a number or a list as a field, an item
    that is not an object) has no value in this type: the development
    says nothing about an object started on such a file. *)
Inductive file :=
| NoFile
| Garbage
| Json (history_field : option (list (gmap string (list N))))
       (last_update : option (list N)).

(** ** Effects issued to the operating system, newest first *)

Inductive event :=
| EvWriteFile (path : list N)
| EvRemoveFile (path : list N)
| EvSaveHistory
| EvCopyText (text : list N)
| EvCopyImage (data : list Byte.byte)
| EvDestroyWindow
| EvStartPasteThread.

(** ** Outcomes of the OS calls of one operation *)

Inductive save_outcome := SaveOk | SaveFailsAtOpen | SaveFailsAtWrite.

Record Env := {
  PIL_AVAILABLE : bool;
  write_ok : list N -> bool;      (* [open(path,'wb')] and [write] succeed *)
  remove_ok : list N -> bool;     (* [os.remove(path)] succeeds *)
  save_result : save_outcome;     (* the [open]/[json.dump] of [save_history] *)
  xclip_ok : bool;                (* [xclip] accepts the image *)
  pyperclip_ok : bool;            (* [pyperclip.copy] succeeds *)
  now_entry : list N;             (* [datetime.now().isoformat()], for the entry *)
  now_save : list N;              (* the same call, for [last_update] *)
}.

(** ** The application object *)

(** Attributes created by [create_history_ui] / [update_history_list]. *)
Record View := {
  current_filter : list N;
  filtered_history : list (gmap string (list N));
  history_items : list (gmap string (list N));   (* rows, most recent first *)
  selected_index : option Z;
}.

Record ClipboardHistory := {
  max_history : nat;
  history : list (gmap string (list N));          (* oldest first *)
  current_clipboard : list N;
  config_file : file;                             (* ~/.clipboard_history.json *)
  files : gmap (list N) (list Byte.byte);         (* files on disk, by path *)
  window_open : bool;                             (* [self.history_window] is not [None] *)
  window_just_opened : bool;
  window_open_time : Q;
  view : option View;                             (* [None]: attributes not created yet *)
  log : list event;
}.

Definition set_history h (s : ClipboardHistory) : ClipboardHistory :=
  {| max_history := max_history s; history := h;
     current_clipboard := current_clipboard s; config_file := config_file s;
     files := files s; window_open := window_open s;
     window_just_opened := window_just_opened s;
     window_open_time := window_open_time s; view := view s; log := log s |}.

Definition set_config_file f (s : ClipboardHistory) : ClipboardHistory :=
  {| max_history := max_history s; history := history s;
     current_clipboard := current_clipboard s; config_file := f;
     files := files s; window_open := window_open s;
     window_just_opened := window_just_opened s;
     window_open_time := window_open_time s; view := view s; log := log s |}.

Definition set_files fs (s : ClipboardHistory) : ClipboardHistory :=
  {| max_history := max_history s; history := history s;
     current_clipboard := current_clipboard s; config_file := config_file s;
     files := fs; window_open := window_open s;
     window_just_opened := window_just_opened s;
     window_open_time := window_open_time s; view := view s; log := log s |}.

Definition set_view v (s : ClipboardHistory) : ClipboardHistory :=
  {| max_history := max_history s; history := history s;
     current_clipboard := current_clipboard s; config_file := config_file s;
     files := files s; window_open := window_open s;
     window_just_opened := window_just_opened s;
     window_open_time := window_open_time s; view := v; log := log s |}.

Definition set_current_clipboard c (s : ClipboardHistory) : ClipboardHistory :=
  {| max_history := max_history s; history := history s;
     current_clipboard := c; config_file := config_file s;
     files := files s; window_open := window_open s;
     window_just_opened := window_just_opened s;
     window_open_time := window_open_time s; view := view s; log := log s |}.

Definition set_window (is_open just_opened : bool) (t : Q)
    (s : ClipboardHistory) : ClipboardHistory :=
  {| max_history := max_history s; history := history s;
     current_clipboard := current_clipboard s; config_file := config_file s;
     files := files s; window_open := is_open;
     window_just_opened := just_opened;
     window_open_time := t; view := view s; log := log s |}.

Definition emit (ev : event) (s : ClipboardHistory) : ClipboardHistory :=
  {| max_history := max_history s; history := history s;
     current_clipboard := current_clipboard s; config_file := config_file s;
     files := files s; window_open := window_open s;
     window_just_opened := window_just_opened s;
     window_open_time := window_open_time s; view := view s;
     log := ev :: log s |}.

(** ** Statements that change the object and may raise *)

Definition io (A : Type) : Type :=
  ClipboardHistory -> result A * ClipboardHistory.

Definition io_ret {A} (a : A) : io A := fun s => (Ok a, s).

Definition io_bind {A B} (m : io A) (k : A -> io B) : io B :=
  fun s => match m s with
           | (Ok a, s') => k a s'
           | (Raise e, s') => (Raise e, s')
           end.

(** [try: body  except Exception: handler]; what [body] did to the object
    and to the disk before it raised stays done. *)
Definition try_except {A} (body : io A) (handler : exn -> io A) : io A :=
  fun s => match body s with
           | (Ok a, s') => (Ok a, s')
           | (Raise e, s') => handler e s'
           end.

Definition modify (f : ClipboardHistory -> ClipboardHistory) : io unit :=
  fun s => (Ok tt, f s).

Definition raise {A} (e : exn) : io A := fun s => (Raise e, s).

Notation "x <- m ;; k" := (io_bind m (fun x => k))
  (at level 100, m at next level, right associativity).
Notation "m ;; k" := (io_bind m (fun _ => k))
  (at level 100, right associativity).

(** The object after running [m], whatever it returned. *)
Definition exec {A} (m : io A) (s : ClipboardHistory) : ClipboardHistory :=
  snd (m s).
Arguments exec : simpl never.

(** ** The methods of [ClipboardHistory] *)

Record ImageInfo := {
  image_path : list N;
  preview_path : list N;
  image_hash : list N;
}.

(** Python truthiness of an optional string ([if p:]). *)
Definition truthy (p : option (list N)) : bool :=
  match p with Some (_ :: _) => true | _ => false end.

(** [os.path.join(d, f)] for two components (posixpath). *)
Definition path_join (d f : list N) : list N :=
  if startswith (str "/") f then f
  else match last d with
       | None => f
       | Some c => if (c =? 47)%N then d ++ f else d ++ str "/" ++ f
       end.

Definition path_exists (p : list N) (s : ClipboardHistory) : bool :=
  bool_decide (is_Some (files s !! p)).

(** [with open(path, 'wb') as f: f.write(data)] *)
Definition write_file (env : Env) (path : list N) (data : list Byte.byte)
  : io unit :=
  fun s =>
    let s := emit (EvWriteFile path) s in
    if write_ok env path
    then (Ok tt, set_files (<[path := data]> (files s)) s)
    else (Raise OSError, s).

(** [os.remove(path)] *)
Definition os_remove (env : Env) (path : list N) : io unit :=
  fun s =>
    let s := emit (EvRemoveFile path) s in
    if remove_ok env path && path_exists path s
    then (Ok tt, set_files (delete path (files s)) s)
    else (Raise OSError, s).

(** [self.history.append(e)] *)
Definition history_append (e : gmap string (list N)) : io unit :=
  modify (fun s => set_history (deque_append (max_history s) (history s) e) s).

(** The test of lines 152-155 with [h] the hash of the new image. *)
Definition last_is_image (h : list N)
    (history : list (gmap string (list N))) : bool :=
  match last history with
  | Some last_entry =>
      bool_decide (last_entry !! "type" = Some (str "image"))
      && bool_decide (last_entry !! "image_hash" = Some h)
  | None => false
  end.

(** The test of lines 214-217. *)
Definition last_is_text (text : list N)
    (history : list (gmap string (list N))) : bool :=
  match last history with
  | Some last_entry =>
      bool_decide (last_entry !! "type" = Some (str "text"))
      && bool_decide (last_entry !! "text" = Some text)
  | None => false
  end.

(** Lines 93-95 of [load_history]. *)
Definition default_type (e : gmap string (list N)) : gmap string (list N) :=
  match e !! "type" with
  | None => <["type" := str "text"]> e
  | Some _ => e
  end.

(** The relation of C5 between a saved record and the record loaded for
    it, in the words of the specification: every field other than [type]
    is the same (present with the same value, or absent), and [type] is
    the saved one when there is one and [text] otherwise. *)
Definition loaded_as (saved loaded : gmap string (list N)) : Prop :=
  (forall k, k <> "type" -> loaded !! k = saved !! k) /\
  loaded !! "type" = Some (default (str "text") (saved !! "type")).

(** ** Concrete instances for the examples *)

(** [str.lower] on Basic Latin and on the Cyrillic block; the other code
    points are left as they are. *)
Definition lower_char (c : N) : N :=
  if ((65 <=? c) && (c <=? 90))%N then (c + 32)%N
  else if ((1040 <=? c) && (c <=? 1071))%N then (c + 32)%N
  else if ((1024 <=? c) && (c <=? 1039))%N then (c + 80)%N
  else c.

Definition lower_basic (s : list N) : list N := map lower_char s.

Definition hex_digit (n : N) : N :=
  if (n <? 10)%N then (48 + n)%N else (87 + n)%N.

(** A stand-in for the digest in the examples: the bytes in hexadecimal. *)
Definition hexdigest_plain (data : list Byte.byte) : list N :=
  flat_map (fun b => let n := Byte.to_N b in
                     [hex_digit (n / 16); hex_digit (n mod 16)]) data.

(** A stand-in for the thumbnailer in the examples: the picture is small
    already and is kept as it is. *)
Definition thumbnail_same (data : list Byte.byte) : result (list Byte.byte) :=
  Ok data.

Definition example_images_dir : list N :=
  str "/home/user/.clipboard_history_images".

(** Every OS call succeeds. *)
Definition example_env : Env :=
  {| PIL_AVAILABLE := true; write_ok := fun _ => true;
     remove_ok := fun _ => true; save_result := SaveOk; xclip_ok := true;
     pyperclip_ok := true;
     now_entry := str "2024-05-01T10:00:00.000001";
     now_save := str "2024-05-01T10:00:00.000002" |}.

Section Methods.

(** [hashlib.md5(data).hexdigest()] *)
Variable md5 : list Byte.byte -> list N.
(** [str.lower] *)
Variable lower : list N -> list N.
(** PIL: decode the image and scale it into 150x150, encoded as PNG. *)
Variable thumbnail : list Byte.byte -> result (list Byte.byte).
(** [os.path.expanduser("~/.clipboard_history_images")] *)
Variable images_dir : list N.

Definition write_config (env : Env) : io unit :=
  fun s =>
    let s := emit EvSaveHistory s in
    match save_result env with
    | SaveOk =>
        (Ok tt, set_config_file (Json (Some (history s)) (Some (now_save env))) s)
    | SaveFailsAtOpen => (Raise OSError, s)
    | SaveFailsAtWrite => (Raise OSError, set_config_file Garbage s)
    end.

Definition save_history (env : Env) : io unit :=
  try_except (write_config env) (fun _ => io_ret tt).

Definition json_load : io (option (list (gmap string (list N)))) :=
  fun s => match config_file s with
           | Json h _ => (Ok h, s)
           | _ => (Raise ValueError, s)
           end.

Definition load_history : io unit :=
  fun s =>
    match config_file s with
    | NoFile => (Ok tt, s)
    | _ =>
        try_except
          (data <- json_load ;;
           let history_list := map default_type (default [] data) in
           modify (fun s =>
             set_history (deque_of_list (max_history s) history_list) s))
          (fun _ => io_ret tt) s
    end.

(** Lines 165-174: the preview, or the image itself when PIL fails. *)
Definition make_preview (env : Env) (image_hash image_path : list N)
  : io (list N) :=
  try_except
    (fun s =>
       match files s !! image_path with
       | None => (Raise OSError, s)
       | Some data =>
           match thumbnail data with
           | Raise e => (Raise e, s)
           | Ok img =>
               let preview_path :=
                 path_join images_dir (image_hash ++ str "_preview.png") in
               (write_file env preview_path img ;; io_ret preview_path) s
           end
       end)
    (fun _ => io_ret image_path).

Definition save_image_from_clipboard (env : Env)
    (image_data : option (list Byte.byte)) : io (option ImageInfo) :=
  match image_data with
  | Some ((_ :: _) as image_data) =>
      if negb (PIL_AVAILABLE env) then io_ret None
      else
        try_except
          (fun s =>
             let image_hash := md5 image_data in
             if last_is_image image_hash (history s) then (Ok None, s)
             else
               let image_path :=
                 path_join images_dir (image_hash ++ str ".png") in
               (write_file env image_path image_data ;;
                preview_path <- make_preview env image_hash image_path ;;
                io_ret (Some {| image_path := image_path;
                                preview_path := preview_path;
                                image_hash := image_hash |})) s)
          (fun _ => io_ret None)
  | _ => io_ret None
  end.

Definition add_to_history (env : Env) (text : option (list N))
    (image_data : option (list Byte.byte)) : io unit :=
  match image_data with
  | Some (_ :: _) =>
      image_info <- save_image_from_clipboard env image_data ;;
      match image_info with
      | Some info =>
          history_append (image_entry (image_path info) (preview_path info)
                                      (image_hash info) (now_entry env)) ;;
          save_history env
      | None => io_ret tt
      end
  | _ =>
      match text with
      | Some ((_ :: _) as text) =>
          match strip text with
          | [] => io_ret tt
          | _ :: _ =>
              fun s =>
                if last_is_text text (history s) then (Ok tt, s)
                else (history_append (text_entry text (now_entry env)) ;;
                      save_history env) s
          end
      | _ => io_ret tt
      end
  end.

(** Lines 855-867 and 879-891 (the same statements twice in the source):
    delete the blob and the preview of an image entry, ignoring failures. *)
Definition remove_image_files (env : Env) (e : gmap string (list N))
  : io unit :=
  if bool_decide (e !! "type" = Some (str "image")) then
    let image_path := e !! "image_path" in
    let preview_path := e !! "preview_path" in
    (fun s =>
       if truthy image_path && path_exists (default [] image_path) s
       then try_except (os_remove env (default [] image_path))
                       (fun _ => io_ret tt) s
       else (Ok tt, s)) ;;
    (fun s =>
       if truthy preview_path && path_exists (default [] preview_path) s
          && negb (bool_decide (preview_path = image_path))
       then try_except (os_remove env (default [] preview_path))
                       (fun _ => io_ret tt) s
       else (Ok tt, s))
  else io_ret tt.

(** The list comprehension of lines 517-520. *)
Definition matches (filter_lower : list N) (h : gmap string (list N)) : bool :=
  str_in filter_lower (lower (get_str h "text"))
  || str_in filter_lower (lower (get_str h "preview"))
  || (bool_decide (h !! "type" = Some (str "image"))
      && str_in image_keyword filter_lower).

Definition select_item (index : Z) : io unit :=
  fun s =>
    match view s with
    | None => (Ok tt, s)
    | Some v =>
        match history_items v with
        | [] => (Ok tt, s)
        | _ :: _ =>
            (Ok tt, set_view (Some {| current_filter := current_filter v;
                                      filtered_history := filtered_history v;
                                      history_items := history_items v;
                                      selected_index := Some index |}) s)
        end
    end.

Definition update_history_list (filter_text : list N) : io unit :=
  fun s =>
    match view s with
    | None => (Ok tt, s)
    | Some _ =>
        let filtered :=
          match filter_text with
          | [] => history s
          | _ :: _ => filter (fun h => matches (lower filter_text) h) (history s)
          end in
        let items := reverse filtered in
        let v := {| current_filter := filter_text;
                    filtered_history := filtered;
                    history_items := items;
                    selected_index :=
                      match items with [] => None | _ :: _ => Some 0%Z end |} in
        match items with
        | [] => (Ok tt, set_view (Some v) s)
        | _ :: _ => select_item 0 (set_view (Some v) s)
        end
    end.

Definition filter_history (filter_text : list N) : io unit :=
  update_history_list filter_text.

Definition navigate_list (direction : Z) : io unit :=
  fun s =>
    match view s with
    | None => (Ok tt, s)
    | Some v =>
        match history_items v with
        | [] => (Ok tt, s)
        | _ :: _ =>
            let current_index := default 0%Z (selected_index v) in
            let new_index := (current_index + direction)%Z in
            let new_index :=
              if (new_index <? 0)%Z then 0%Z
              else if (Z.of_nat (length (history_items v)) <=? new_index)%Z
                   then (Z.of_nat (length (history_items v)) - 1)%Z
                   else new_index in
            if (new_index =? current_index)%Z then (Ok tt, s)
            else select_item new_index s
        end
    end.

(** [x < y] on the clock readings ([time.time()], seconds). *)
Definition Qltb (x y : Q) : bool := negb (Qle_bool y x).

(** [filtered_history[-(index + 1)]] *)
Definition from_newest {A} (l : list A) (index : Z) : option A :=
  l !! (length l - (Z.to_nat index + 1)).

Definition in_range {A} (index : Z) (l : list A) : bool :=
  (0 <=? index)%Z && (index <? Z.of_nat (length l))%Z.

(** [getattr(self, 'filtered_history', list(self.history))] *)
Definition get_filtered_history (s : ClipboardHistory) :=
  match view s with
  | Some v => filtered_history v
  | None => history s
  end.

(** [getattr(self, 'current_filter', '')] *)
Definition get_current_filter (s : ClipboardHistory) : list N :=
  match view s with
  | Some v => current_filter v
  | None => []
  end.

(** Lines 764-792 of [insert_selected_by_index]: put the entry on the OS
    clipboard; [false] stands for the early [return]s.  The copy of an
    image is inside a [try]; [pyperclip.copy] (line 791) is not, and its
    exception leaves the method. *)
Definition copy_to_clipboard (env : Env) (e : gmap string (list N))
  : io bool :=
  fun s =>
    if bool_decide (e !! "type" = Some (str "image")) then
      let image_path := e !! "image_path" in
      if truthy image_path then
        match files s !! default [] image_path with
        | Some image_data =>
            if xclip_ok env then (Ok true, emit (EvCopyImage image_data) s)
            else (Ok false, s)
        | None => (Ok false, s)
        end
      else (Ok false, s)
    else
      match get_str e "text" with
      | [] => (Ok false, s)
      | (_ :: _) as text_to_insert =>
          if pyperclip_ok env then
            (Ok true,
             set_current_clipboard text_to_insert
               (emit (EvCopyText text_to_insert) s))
          else (Raise PyperclipException, s)
      end.

(** Lines 795-796 and 833-834: the window is destroyed and the paste
    thread started; [self.history_window.destroy()] raises when the
    attribute is [None]. *)
Definition close_and_paste : io unit :=
  fun s =>
    if window_open s then
      (Ok tt,
       emit EvStartPasteThread
         (emit EvDestroyWindow
            (set_window false (window_just_opened s) (window_open_time s) s)))
    else (Raise AttributeError, s).

(** The test of line 753, [now] being [time.time()]. *)
Definition guard_active (now : Q) (s : ClipboardHistory) : bool :=
  window_just_opened s || Qltb (now - window_open_time s) (1 # 2).

Definition insert_selected_by_index (env : Env) (now : Q) (index : Z)
  : io unit :=
  fun s =>
    if guard_active now s
    then (Ok tt, s)
    else
      let filtered_history := get_filtered_history s in
      if in_range index filtered_history then
        match from_newest filtered_history index with
        | Some e =>
            (copied <- copy_to_clipboard env e ;;
             if copied : bool then close_and_paste else io_ret tt) s
        | None => (Ok tt, s)
        end
      else (Ok tt, s).

(** [getattr(self, 'selected_index', 0)], then the call; with a cursor that
    is [None] the chained comparison [0 <= index < len(...)] raises. *)
Definition insert_selected (env : Env) (now : Q) : io unit :=
  fun s =>
    match view s with
    | None => insert_selected_by_index env now 0 s
    | Some v =>
        match selected_index v with
        | Some index => insert_selected_by_index env now index s
        | None => if guard_active now s then (Ok tt, s)
                  else (Raise TypeError, s)
        end
    end.

(** [delete_selected], lines 841-873. *)
Definition delete_selected (env : Env) : io unit :=
  fun s =>
    match view s with
    | None => (Ok tt, s)
    | Some v =>
        match selected_index v with
        | None => (Ok tt, s)
        | Some selected_index =>
            let filtered_history := filtered_history v in
            if in_range selected_index filtered_history then
              match from_newest filtered_history selected_index with
              | Some e =>
                  if bool_decide (e ∈ history s) then
                    (remove_image_files env e ;;
                     (fun s => match deque_remove e (history s) with
                               | Ok h => (Ok tt, set_history h s)
                               | Raise x => (Raise x, s)
                               end) ;;
                     save_history env ;;
                     (fun s => update_history_list (get_current_filter s) s)) s
                  else (Ok tt, s)
              | None => (Ok tt, s)
              end
            else (Ok tt, s)
        end
    end.

Fixpoint for_each {A} (l : list A) (body : A -> io unit) : io unit :=
  match l with
  | [] => io_ret tt
  | x :: l' => body x ;; for_each l' body
  end.

Definition clear_history (env : Env) : io unit :=
  fun s =>
    (for_each (history s) (remove_image_files env) ;;
     modify (set_history []) ;;
     save_history env ;;
     update_history_list []) s.

(** Lines 356-358 and 436 of [create_history_ui]; the widgets are left out. *)
Definition create_history_ui : io unit :=
  modify (fun s =>
    set_view (Some {| current_filter := [];
                      filtered_history := history s;
                      history_items :=
                        match view s with Some v => history_items v | None => [] end;
                      selected_index :=
                        match view s with Some v => selected_index v | None => None end
                   |}) s) ;;
  update_history_list [].

Definition show_history_window (now : Q) : io unit :=
  fun s =>
    if window_open s then
      (update_history_list (get_current_filter s) ;;
       modify (fun s => set_window (window_open s) false (window_open_time s) s)) s
    else
      (modify (set_window true true now) ;; create_history_ui) s.

(** The thread started at the end of [show_history_window]. *)
Definition clear_window_flag : io unit :=
  modify (fun s => set_window (window_open s) false (window_open_time s) s).

Definition on_window_close : io unit :=
  fun s =>
    if window_open s then
      (Ok tt,
       emit EvDestroyWindow (set_window false false (window_open_time s) s))
    else (Raise AttributeError, s).

(** [__init__] with the disk as found at start. *)
Definition init (max_history : nat) (clear_on_startup : bool)
    (disk_config : file) (disk_files : gmap (list N) (list Byte.byte))
    (env : Env) : ClipboardHistory :=
  let s0 := {| max_history := max_history; history := [];
               current_clipboard := []; config_file := disk_config;
               files := disk_files; window_open := false;
               window_just_opened := false; window_open_time := 0%Q;
               view := None; log := [] |} in
  exec (load_history ;;
        if clear_on_startup then clear_history env else io_ret tt) s0.

(** One call of [add_to_history]: its environment and its two arguments. *)
Definition append_op : Type :=
  Env * option (list N) * option (list Byte.byte).

Definition run_append (op : append_op) (s : ClipboardHistory)
  : ClipboardHistory :=
  let '(env, text, image_data) := op in
  exec (add_to_history env text image_data) s.

Definition run_appends (ops : list append_op) (s : ClipboardHistory)
  : ClipboardHistory :=
  fold_left (fun s op => run_append op s) ops s.

(** A call with a text only, stamped [now]. *)
Definition append_text (env : Env) (text : list N) : append_op :=
  (env, Some text, None).

(** ** Notions used in the statements *)

(** [s'] differs from [s] at most in the files on disk and in the log. *)
Definition disk_only (s s' : ClipboardHistory) : Prop :=
  max_history s' = max_history s /\ history s' = history s /\
  current_clipboard s' = current_clipboard s /\
  config_file s' = config_file s /\ window_open s' = window_open s /\
  window_just_opened s' = window_just_opened s /\
  window_open_time s' = window_open_time s /\ view s' = view s.

Definition blob_path (data : list Byte.byte) : list N :=
  path_join images_dir (md5 data ++ str ".png").

Definition thumb_path (data : list Byte.byte) : list N :=
  path_join images_dir (md5 data ++ str "_preview.png").

(** The new item is value-equal to the last entry: same type and same text,
    or same type and same image hash. *)
Definition duplicates_last (text : option (list N))
    (image_data : option (list Byte.byte))
    (h : list (gmap string (list N))) : bool :=
  match image_data with
  | Some ((_ :: _) as d) => last_is_image (md5 d) h
  | _ => match text with
         | Some t => last_is_text t h
         | None => false
         end
  end.

(** The payload passes the guards that do not look at the history: a text
    that is not blank, or image bytes that PIL can take and whose blob can
    be written. *)
Definition storable (env : Env) (text : option (list N))
    (image_data : option (list Byte.byte)) : bool :=
  match image_data with
  | Some ((_ :: _) as d) => PIL_AVAILABLE env && write_ok env (blob_path d)
  | _ => match text with
         | Some ((_ :: _) as t) =>
             match strip t with [] => false | _ :: _ => true end
         | _ => false
         end
  end.

(** The claim's words for image entries: the query matches a fixed
    keyword [kw] case-insensitively, in the widest sense (one of the two
    occurs in the other). *)
Definition keyword_match (kw q : list N) : bool :=
  str_in (lower kw) (lower q) || str_in (lower q) (lower kw).

(** The rows of the view (most recent first) and the cursor. *)
Definition rows (s : ClipboardHistory) : list (gmap string (list N)) :=
  match view s with Some v => history_items v | None => [] end.

Definition cursor (s : ClipboardHistory) : option Z :=
  match view s with Some v => selected_index v | None => None end.

(** On a view with rows the cursor is on one of them. *)
Definition cursor_ok (s : ClipboardHistory) : Prop :=
  rows s <> [] ->
  exists i, cursor s = Some i /\ (0 <= i < Z.of_nat (length (rows s)))%Z.

(** The states the object goes through after the window was opened at
    clock reading [t0] and until it is opened anew: the flag thread, the
    keys, the search box, the watcher, the buttons and commit requests. *)
Inductive since_open (t0 : Q) : ClipboardHistory -> Prop :=
| so_open s :
    window_open s = false ->
    since_open t0 (exec (show_history_window t0) s)
| so_show_again t s :
    since_open t0 s -> window_open s = true ->
    since_open t0 (exec (show_history_window t) s)
| so_clear_flag s :
    since_open t0 s -> since_open t0 (exec clear_window_flag s)
| so_navigate d s :
    since_open t0 s -> since_open t0 (exec (navigate_list d) s)
| so_filter q s :
    since_open t0 s -> since_open t0 (exec (filter_history q) s)
| so_select i s :
    since_open t0 s -> since_open t0 (exec (select_item i) s)
| so_add env text image_data s :
    since_open t0 s ->
    since_open t0 (exec (add_to_history env text image_data) s)
| so_delete env s :
    since_open t0 s -> since_open t0 (exec (delete_selected env) s)
| so_clear env s :
    since_open t0 s -> since_open t0 (exec (clear_history env) s)
| so_commit env t i s :
    since_open t0 s ->
    since_open t0 (exec (insert_selected_by_index env t i) s).

(** ** The clipboard watcher *)

(** What the OS clipboard answers during one poll: [xclip mime] is the
    outcome of [subprocess.run(['xclip', ..., '-t', mime, '-o'], timeout=1)]
    (return code and standard output, or an exception such as a timeout or
    a missing program), [paste] the outcome of [pyperclip.paste()]. *)
Record Clipboard := {
  xclip : list N -> result (Z * list Byte.byte);
  paste : result (list N);
}.

(** One [try] block of [check_clipboard_image] (lines 113-124, 128-138). *)
Definition xclip_try (cb : Clipboard) (mime : list N)
  : option (list Byte.byte) :=
  match xclip cb mime with
  | Ok (returncode, stdout) =>
      if (returncode =? 0)%Z
      then match stdout with [] => None | _ :: _ => Some stdout end
      else None
  | Raise _ => None
  end.

(** The formats of the loop of line 127. *)
Definition other_image_types : list (list N) :=
  [str "image/jpeg"; str "image/jpg"; str "image/gif"; str "image/bmp"].

Fixpoint first_image (cb : Clipboard) (types : list (list N))
  : option (list Byte.byte) :=
  match types with
  | [] => None
  | image_type :: types' =>
      match xclip_try cb image_type with
      | Some data => Some data
      | None => first_image cb types'
      end
  end.

Definition check_clipboard_image (cb : Clipboard) : option (list Byte.byte) :=
  match xclip_try cb (str "image/png") with
  | Some data => Some data
  | None => first_image cb other_image_types
  end.

(** The formats in the order in which they are tried. *)
Definition image_types : list (list N) := str "image/png" :: other_image_types.

(** The object together with the attributes only the watcher uses. *)
Record Watcher := {
  app : ClipboardHistory;
  current_clipboard_image_hash : option (list N);
  monitoring : bool;
}.

(** [center_window]: the position computed from the size of the window and
    of the screen ([//] is floor division). *)
Definition center_window (width height screenwidth screenheight : Z) : Z * Z :=
  ((screenwidth / 2 - width / 2)%Z, (screenheight / 2 - height / 2)%Z).

(** Lines 232-244 of [monitor_clipboard]: what is on the clipboard when the
    watcher starts is remembered, not recorded. *)
Definition monitor_start (cb : Clipboard) (w : Watcher) : Watcher :=
  match paste cb with
  | Ok current =>
      {| app := set_current_clipboard current (app w);
         current_clipboard_image_hash :=
           match check_clipboard_image cb with
           | Some image_data => Some (md5 image_data)
           | None => current_clipboard_image_hash w
           end;
         monitoring := true |}
  | Raise _ =>
      {| app := set_current_clipboard [] (app w);
         current_clipboard_image_hash := current_clipboard_image_hash w;
         monitoring := true |}
  end.

(** One iteration of the loop of lines 246-279; the second component is
    the time slept (seconds): 0.3, or 1 after an exception that reaches the
    outer handler. *)
Definition monitor_tick (env : Env) (cb : Clipboard) (w : Watcher)
  : Watcher * Q :=
  let new_image :=
    match check_clipboard_image cb with
    | Some image_data =>
        if bool_decide (Some (md5 image_data) <> current_clipboard_image_hash w)
        then Some image_data else None
    | None => None
    end in
  match new_image with
  | Some image_data =>
      match add_to_history env None (Some image_data)
              (set_current_clipboard [] (app w)) with
      | (Ok _, a) =>
          ({| app := a;
              current_clipboard_image_hash := Some (md5 image_data);
              monitoring := monitoring w |}, (3 # 10)%Q)
      | (Raise _, a) =>
          ({| app := a;
              current_clipboard_image_hash := Some (md5 image_data);
              monitoring := monitoring w |}, 1%Q)
      end
  | None =>
      match paste cb with
      | Ok current =>
          if bool_decide (current <> current_clipboard (app w)) then
            match current, strip current with
            | _ :: _, _ :: _ =>
                ({| app := exec (add_to_history env (Some current) None)
                             (set_current_clipboard current (app w));
                    current_clipboard_image_hash := None;
                    monitoring := monitoring w |}, (3 # 10)%Q)
            | _, _ => (w, (3 # 10)%Q)
            end
          else (w, (3 # 10)%Q)
      | Raise _ => (w, (3 # 10)%Q)
      end
  end.

(** The watcher after the polls of a list of observations. *)
Definition run_ticks (obs : list (Env * Clipboard)) (w : Watcher) : Watcher :=
  fold_left (fun w o => fst (monitor_tick (fst o) (snd o) w)) obs w.

(** ** Sessions *)

(** What can happen to the object: the watcher records something, the
    hotkey opens the window, the flag thread runs, or the user acts on the
    window.  A click selects a row that exists (the handlers are bound to
    the rows: lines 540-541, 567-568, 580-581). *)
Inductive action :=
| Append (text : option (list N)) (image_data : option (list Byte.byte))
| ShowWindow (now : Q)
| Search (filter_text : list N)
| Key (direction : Z)
| Click (row : nat)
| DoubleClick (now : Q) (row : nat)
| Enter (now : Q)
| Delete
| ClearAll
| CloseWindow
| FlagThread.

Definition click (row : nat) : io unit :=
  fun s => if decide (row < length (rows s))
           then select_item (Z.of_nat row) s else (Ok tt, s).

Definition double_click (env : Env) (now : Q) (row : nat) : io unit :=
  fun s => if decide (row < length (rows s))
           then insert_selected_by_index env now (Z.of_nat row) s
           else (Ok tt, s).

(** The handler an action runs (lines 317-335, 462-491, 540-541 for the
    bindings). *)
Definition handle (env : Env) (a : action) : io unit :=
  match a with
  | Append text image_data => add_to_history env text image_data
  | ShowWindow now => show_history_window now
  | Search filter_text => filter_history filter_text
  | Key direction => navigate_list direction
  | Click row => click row
  | DoubleClick now row => double_click env now row
  | Enter now => insert_selected env now
  | Delete => delete_selected env
  | ClearAll => clear_history env
  | CloseWindow => on_window_close
  | FlagThread => clear_window_flag
  end.

(** The actions whose handlers are bound to widgets of the window. *)
Definition window_event (a : action) : bool :=
  match a with
  | Append _ _ | ShowWindow _ | FlagThread => false
  | _ => true
  end.

(** One action on the object.  Tk delivers a window event only while the
    window exists: without a window the action does not take place. *)
Definition step (env : Env) (a : action) : io unit :=
  fun s =>
    if window_event a && negb (window_open s) then (Ok tt, s)
    else handle env a s.

(** The object after a list of actions; an exception ends the action that
    raised it, not the session (Tk reports it and goes on). *)
Definition run_session (l : list (Env * action)) (s : ClipboardHistory)
  : ClipboardHistory :=
  fold_left (fun s ea => exec (step (fst ea) (snd ea)) s) l s.

(** The durable file holds the history the object has in memory. *)
Definition in_sync (s : ClipboardHistory) : Prop :=
  exists last_update, config_file s = Json (Some (history s)) last_update.

(** Two entries are value-equal: both texts with the same [text], or both
    images with the same [image_hash]. *)
Definition value_equal (a b : gmap string (list N)) : bool :=
  (bool_decide (a !! "type" = Some (str "text"))
   && bool_decide (b !! "type" = Some (str "text"))
   && bool_decide (a !! "text" = b !! "text"))
  || (bool_decide (a !! "type" = Some (str "image"))
      && bool_decide (b !! "type" = Some (str "image"))
      && bool_decide (a !! "image_hash" = b !! "image_hash")).

(** No entry is value-equal to the entry right before it. *)
Fixpoint adjacent_distinct (l : list (gmap string (list N))) : Prop :=
  match l with
  | a :: ((b :: _) as l') => value_equal a b = false /\ adjacent_distinct l'
  | _ => True
  end.

(** The rows show the filtered entries, most recent first. *)
Definition view_consistent (s : ClipboardHistory) : Prop :=
  match view s with
  | Some v => history_items v = reverse (filtered_history v)
  | None => True
  end.

(** [s'] has the history, the capacity, the durable file and the files
    of [s]. *)
Definition same_store (s s' : ClipboardHistory) : Prop :=
  max_history s' = max_history s /\ history s' = history s /\
  config_file s' = config_file s /\ files s' = files s.

(** Every entry has a [type] field. *)
Definition typed (l : list (gmap string (list N))) : Prop :=
  Forall (fun e => is_Some (e !! "type")) l.

(** The image a poll treats as new (lines 249-252): there is one and its
    hash is not the remembered one. *)
Definition new_image (cb : Clipboard) (w : Watcher)
  : option (list Byte.byte) :=
  match check_clipboard_image cb with
  | Some image_data =>
      if bool_decide (Some (md5 image_data) <> current_clipboard_image_hash w)
      then Some image_data else None
  | None => None
  end.

(** A text the watcher would record: [current and current.strip()]. *)
Definition recordable (t : list N) : bool :=
  match t, strip t with
  | _ :: _, _ :: _ => true
  | _, _ => false
  end.


(** ** Properties *)

Ltac io_unfold :=
  unfold exec, add_to_history, save_image_from_clipboard, make_preview,
    save_history, write_config, history_append, write_file, os_remove,
    try_except, io_bind, io_ret, modify, raise in *.

Lemma deque_append_length {A} (maxlen : nat) (d : list A) (x : A) :
  length d <= maxlen -> length (deque_append maxlen d x) <= maxlen.
Proof.
  intros Hd. unfold deque_append.
  destruct (decide (maxlen < length (d ++ [x]))) as [Hlt|Hge].
  - destruct d as [|a d]; simpl in *; [lia|]. rewrite length_app. simpl. lia.
  - lia.
Qed.

Lemma deque_append_full {A} (maxlen : nat) (d : list A) (x : A) :
  length d = maxlen -> deque_append maxlen d x = tail (d ++ [x]).
Proof.
  intros Hd. unfold deque_append.
  rewrite decide_True; [done|]. rewrite length_app. simpl. lia.
Qed.

Lemma deque_append_room {A} (maxlen : nat) (d : list A) (x : A) :
  length d < maxlen -> deque_append maxlen d x = d ++ [x].
Proof.
  intros Hd. unfold deque_append.
  rewrite decide_False; [done|]. rewrite length_app. simpl. lia.
Qed.

Lemma deque_of_list_length {A} (maxlen : nat) (l : list A) :
  length (deque_of_list maxlen l) <= maxlen.
Proof.
  unfold deque_of_list.
  assert (H : forall d, length d <= maxlen ->
                length (fold_left (deque_append maxlen) l d) <= maxlen).
  { induction l as [|x l IH]; intros d Hd; simpl; [done|].
    apply IH. by apply deque_append_length. }
  apply H. simpl. lia.
Qed.

(** What one call of [add_to_history] can do to the deque. *)
Lemma add_to_history_history env text image_data s :
  let s' := exec (add_to_history env text image_data) s in
  max_history s' = max_history s /\
  (history s' = history s \/
   exists e, history s' = deque_append (max_history s) (history s) e).
Proof.
  io_unfold. simpl.
  repeat (case_match; simpl in *; simplify_eq; try (split; [done|]; eauto)).
Qed.

Lemma disk_only_refl s : disk_only s s.
Proof. by repeat split. Qed.

Lemma disk_only_trans s1 s2 s3 :
  disk_only s1 s2 -> disk_only s2 s3 -> disk_only s1 s3.
Proof. unfold disk_only. intros H1 H2. destruct_and!. repeat split; congruence. Qed.

(** Deleting the files of an entry never raises, whatever the OS answers. *)
Lemma remove_image_files_ok env e s :
  exists s', remove_image_files env e s = (Ok tt, s') /\ disk_only s s'.
Proof.
  unfold remove_image_files, os_remove, try_except, io_bind, io_ret.
  repeat (case_match; simpl in *; simplify_eq);
    eexists; (split; [reflexivity|]); by repeat split.
Qed.

Lemma for_each_remove_ok env l s :
  exists s', for_each l (remove_image_files env) s = (Ok tt, s') /\
             disk_only s s'.
Proof.
  revert s. induction l as [|e l IH]; intros s; simpl.
  - eexists. split; [reflexivity|]. apply disk_only_refl.
  - unfold io_bind at 1.
    destruct (remove_image_files_ok env e s) as (s1 & -> & H1).
    destruct (IH s1) as (s2 & -> & H2).
    eexists. split; [reflexivity|]. by eapply disk_only_trans.
Qed.

Lemma save_history_ok env s :
  exists s', save_history env s = (Ok tt, s') /\
    max_history s' = max_history s /\ history s' = history s /\
    view s' = view s /\ files s' = files s.
Proof.
  unfold save_history, write_config, try_except, io_ret.
  destruct (save_result env); simpl; eexists; (split; [reflexivity|]);
    by repeat split.
Qed.

Lemma update_history_list_store q s :
  exists s', update_history_list q s = (Ok tt, s') /\
    max_history s' = max_history s /\ history s' = history s /\
    files s' = files s /\ config_file s' = config_file s /\ log s' = log s.
Proof.
  unfold update_history_list, select_item.
  repeat (case_match; simpl in *; simplify_eq);
    eexists; (split; [reflexivity|]); by repeat split.
Qed.

Lemma clear_history_ok env s :
  exists s', clear_history env s = (Ok tt, s') /\
    max_history s' = max_history s /\ history s' = [].
Proof.
  unfold clear_history. unfold io_bind at 1.
  destruct (for_each_remove_ok env (history s) s) as (s1 & -> & H1).
  unfold io_bind at 1, modify at 1.
  unfold io_bind.
  destruct (save_history_ok env (set_history [] s1)) as (s2 & -> & H2).
  destruct (update_history_list_store [] s2) as (s3 & -> & H3).
  eexists. split; [reflexivity|].
  simpl in *. unfold disk_only in *. destruct_and!. split; congruence.
Qed.

Lemma load_history_history s :
  let s' := exec load_history s in
  max_history s' = max_history s /\
  (history s' = history s \/
   exists l, history s' = deque_of_list (max_history s) l).
Proof.
  unfold exec, load_history, json_load, try_except, io_bind, io_ret, modify.
  repeat (case_match; simpl in *; simplify_eq); split; eauto.
Qed.

(** The capacity bound holds when [__init__] returns. *)
Lemma init_capacity max clear disk fs env :
  let s := init max clear disk fs env in
  max_history s = max /\ length (history s) <= max.
Proof.
  unfold init, exec. unfold io_bind.
  set (s0 := Build_ClipboardHistory _ _ _ _ _ _ _ _ _ _).
  pose proof (load_history_history s0) as [Hm Hh]. unfold exec in *.
  destruct (load_history s0) as [[[]|x] s1] eqn:Hl; simpl in *.
  - destruct clear.
    + destruct (clear_history_ok env s1) as (s2 & -> & Hm' & Hh').
      simpl. rewrite Hm', Hh', Hm. simpl. split; [done|lia].
    + simpl. split; [done|]. destruct Hh as [->|[l ->]]; simpl; [lia|].
      apply deque_of_list_length.
  - split; [done|]. destruct Hh as [->|[l ->]]; simpl; [lia|].
    apply deque_of_list_length.
Qed.

Lemma run_appends_capacity ops s :
  length (history s) <= max_history s ->
  max_history (run_appends ops s) = max_history s /\
  length (history (run_appends ops s)) <= max_history s.
Proof.
  revert s. induction ops as [|[[env text] img] ops IH]; intros s Hs; simpl.
  - done.
  - pose proof (add_to_history_history env text img s) as [Hm Hh].
    simpl in Hm, Hh.
    destruct (IH (exec (add_to_history env text img) s)) as [IH1 IH2].
    + rewrite Hm. destruct Hh as [->|[e ->]]; [done|].
      by apply deque_append_length.
    + rewrite IH1, Hm in *. done.
Qed.

(** The text branch of [add_to_history], lines 204-228, in one equation. *)
Lemma add_text_exec env text s :
  exec (add_to_history env (Some text) None) s =
  match text, strip text with
  | _ :: _, _ :: _ =>
      if last_is_text text (history s) then s
      else exec (save_history env)
             (set_history (deque_append (max_history s) (history s)
                             (text_entry text (now_entry env))) s)
  | _, _ => s
  end.
Proof.
  unfold exec, add_to_history.
  destruct text as [|c text]; [done|].
  destruct (strip (c :: text)); [done|].
  destruct (last_is_text (c :: text) (history s)); [done|].
  unfold io_bind, history_append, modify. done.
Qed.

Lemma save_history_history env s :
  history (exec (save_history env) s) = history s /\
  max_history (exec (save_history env) s) = max_history s.
Proof.
  unfold exec. destruct (save_history_ok env s) as (s' & -> & ? & ? & ?).
  done.
Qed.

(** Saving always leaves a trace in the log. *)
Lemma save_history_log env s :
  log (exec (save_history env) s) = EvSaveHistory :: log s.
Proof.
  unfold exec, save_history, write_config, try_except, io_ret.
  by destruct (save_result env).
Qed.

Lemma add_text_history env text s :
  history (exec (add_to_history env (Some text) None) s) =
  match text, strip text with
  | _ :: _, _ :: _ =>
      if last_is_text text (history s) then history s
      else deque_append (max_history s) (history s)
             (text_entry text (now_entry env))
  | _, _ => history s
  end.
Proof.
  rewrite add_text_exec.
  destruct text; [done|]. destruct (strip _); [done|].
  destruct (last_is_text _ (history s)); [done|].
  by destruct (save_history_history env
    (set_history (deque_append (max_history s) (history s)
       (text_entry (n :: text) (now_entry env))) s)) as [-> _].
Qed.

Lemma add_text_max_history env text s :
  max_history (exec (add_to_history env (Some text) None) s) = max_history s.
Proof. by destruct (add_to_history_history env (Some text) None s). Qed.

(** C1: after [__init__] and any sequence of [add_to_history] calls the
    deque holds at most [max_history] entries; one more call either leaves
    the deque as it is, or appends one entry when there is room, or, when
    the deque is full, appends it and drops the oldest entry (the head).
    With [max_history = 2] and an empty start, the texts A, B, C leave the
    entries for B and C, in this order. *)
Theorem C1_capacity_fifo
    (max : nat) (clear : bool) (disk : file)
    (fs : gmap (list N) (list Byte.byte)) (env0 : Env)
    (ops : list append_op) (op : append_op) (e1 e2 e3 : Env) :
  let s := run_appends ops (init max clear disk fs env0) in
  let s' := run_append op s in
  (max_history s = max /\ length (history s) <= max) /\
  (history s' = history s \/
   (exists e, length (history s) < max /\ history s' = history s ++ [e]) \/
   (exists e, length (history s) = max /\
              history s' = tail (history s ++ [e]))) /\
  history (run_appends [append_text e1 (str "A"); append_text e2 (str "B");
                        append_text e3 (str "C")]
             (init 2 clear NoFile fs env0))
  = [text_entry (str "B") (now_entry e2); text_entry (str "C") (now_entry e3)].
Proof.
  intros s s'.
  destruct (init_capacity max clear disk fs env0) as [Hm Hl].
  destruct (run_appends_capacity ops (init max clear disk fs env0))
    as [Hm' Hl']; [by rewrite Hm|].
  fold s in Hm', Hl'. rewrite Hm in Hm', Hl'.
  split; [done|]. split.
  - subst s'. destruct op as [[env text] img]. simpl.
    destruct (add_to_history_history env text img s) as [_ [Hh|[e Hh]]];
      simpl in Hh; [by left|right].
    rewrite Hh, Hm'.
    destruct (decide (length (history s) = max)) as [Hfull|Hroom].
    + right. exists e. split; [done|]. by apply deque_append_full.
    + left. exists e. split; [lia|]. apply deque_append_room. lia.
  - assert (Hinit : history (init 2 clear NoFile fs env0) = [] /\
                    max_history (init 2 clear NoFile fs env0) = 2).
    { unfold init, exec, io_bind, load_history. simpl.
      destruct clear; [|done].
      match goal with |- context [clear_history ?e ?s] =>
        destruct (clear_history_ok e s) as (s2 & -> & Hm2 & Hh2) end.
      done. }
    destruct Hinit as [Hh0 Hm0].
    unfold run_appends, append_text, run_append. cbn [fold_left].
    rewrite !add_text_history, !add_text_max_history, Hh0, Hm0.
    vm_compute. reflexivity.
Qed.

(** *** Fields of the entries the store builds *)

Lemma text_entry_type text now : text_entry text now !! "type" = Some (str "text").
Proof. done. Qed.

Lemma text_entry_text text now : text_entry text now !! "text" = Some text.
Proof. done. Qed.

Lemma text_entry_preview text now :
  text_entry text now !! "preview" =
  Some (take 100 text ++ (if decide (100 < length text) then str "..." else [])).
Proof. done. Qed.

Lemma image_entry_type ip pp h now :
  image_entry ip pp h now !! "type" = Some (str "image").
Proof. done. Qed.

Lemma image_entry_hash ip pp h now :
  image_entry ip pp h now !! "image_hash" = Some h.
Proof. done. Qed.

(** *** An accepted entry always changes the deque *)

Lemma last_deque_append {A} (maxlen : nat) (d : list A) (x : A) :
  0 < maxlen \/ d <> [] -> last (deque_append maxlen d x) = Some x.
Proof.
  intros H. unfold deque_append.
  destruct (decide (maxlen < length (d ++ [x]))) as [Hlt|Hge].
  - destruct d as [|a d]; simpl in *.
    + destruct H; [lia|done].
    + apply last_snoc.
  - apply last_snoc.
Qed.

Lemma deque_append_neq {A} (maxlen : nat) (d : list A) (x : A) :
  0 < maxlen -> last d <> Some x -> deque_append maxlen d x <> d.
Proof.
  intros Hm Hl Heq. apply Hl. rewrite <- Heq at 1.
  apply last_deque_append. by left.
Qed.

Lemma last_is_text_false text now h :
  last_is_text text h = false -> last h <> Some (text_entry text now).
Proof.
  unfold last_is_text. intros H Hl. rewrite Hl in H.
  rewrite text_entry_type, text_entry_text in H.
  by rewrite !bool_decide_eq_true_2 in H.
Qed.

Lemma last_is_image_false ip pp h now hist :
  last_is_image h hist = false -> last hist <> Some (image_entry ip pp h now).
Proof.
  unfold last_is_image. intros H Hl. rewrite Hl in H.
  rewrite image_entry_type, image_entry_hash in H.
  by rewrite !bool_decide_eq_true_2 in H.
Qed.

(** *** The image branch of [add_to_history] *)

(** The duplicate test comes before any write (lines 152-155). *)
Lemma save_image_duplicate env data s :
  last_is_image (md5 data) (history s) = true ->
  save_image_from_clipboard env (Some data) s = (Ok None, s).
Proof.
  intros Hdup. unfold save_image_from_clipboard.
  destruct data as [|b data]; [done|].
  destruct (PIL_AVAILABLE env); simpl; [|done].
  unfold try_except. by rewrite Hdup.
Qed.

Lemma add_image_duplicate env text data s :
  data <> [] ->
  last_is_image (md5 data) (history s) = true ->
  add_to_history env text (Some data) s = (Ok tt, s).
Proof.
  intros Hne Hdup. unfold add_to_history.
  destruct data as [|b data]; [done|].
  unfold io_bind. by rewrite (save_image_duplicate env (b :: data) s Hdup).
Qed.

Lemma add_image_new env text data s :
  data <> [] -> PIL_AVAILABLE env = true ->
  write_ok env (blob_path data) = true ->
  last_is_image (md5 data) (history s) = false ->
  exists pp,
    history (exec (add_to_history env text (Some data)) s) =
    deque_append (max_history s) (history s)
      (image_entry (blob_path data) pp (md5 data) (now_entry env)).
Proof.
  intros Hne HPIL Hw Hdup. unfold blob_path in *.
  destruct data as [|b data]; [done|].
  io_unfold. cbv beta iota. rewrite HPIL. cbn [negb].
  rewrite Hdup, Hw. cbv beta iota.
  repeat (case_match; simpl in *; simplify_eq); eauto.
Qed.

Lemma add_image_files env text data s p :
  data <> [] ->
  is_Some (files (exec (add_to_history env text (Some data)) s) !! p) ->
  is_Some (files s !! p) \/ p = blob_path data \/ p = thumb_path data.
Proof.
  intros Hne. unfold blob_path, thumb_path.
  destruct data as [|b data]; [done|].
  io_unfold. simpl.
  repeat (case_match; simpl in *; simplify_eq); simpl; try (by left);
    rewrite ?lookup_insert; repeat case_decide; subst; eauto.
Qed.

Lemma init_nofile max clear fs env :
  history (init max clear NoFile fs env) = [] /\
  max_history (init max clear NoFile fs env) = max.
Proof.
  unfold init, exec, io_bind, load_history. simpl.
  destruct clear; [|done].
  match goal with |- context [clear_history ?e ?s] =>
    destruct (clear_history_ok e s) as (s2 & -> & Hm2 & Hh2) end.
  done.
Qed.

(** Empty bytes are falsy: the call takes the text branch (line 188). *)
Lemma add_empty_image env text :
  add_to_history env text (Some []) = add_to_history env text None.
Proof. done. Qed.

(** A value-equal neighbour makes the call a no-op on the whole object. *)
Lemma add_duplicate_noop env text image_data s :
  duplicates_last text image_data (history s) = true ->
  exec (add_to_history env text image_data) s = s.
Proof.
  unfold duplicates_last. intros Hdup.
  destruct image_data as [[|b d]|].
  - rewrite add_empty_image.
    destruct text as [t|]; [|done]. rewrite add_text_exec.
    destruct t; [done|]. destruct (strip _); [done|]. by rewrite Hdup.
  - unfold exec. by rewrite add_image_duplicate.
  - destruct text as [t|]; [|done]. rewrite add_text_exec.
    destruct t; [done|]. destruct (strip _); [done|]. by rewrite Hdup.
Qed.

(** A storable payload that is not value-equal to the last entry is
    appended, whatever the older entries are. *)
Lemma add_new_changes env text image_data s :
  0 < max_history s ->
  storable env text image_data = true ->
  duplicates_last text image_data (history s) = false ->
  history (exec (add_to_history env text image_data) s) <> history s.
Proof.
  unfold storable, duplicates_last. intros Hmax Hst Hdup.
  assert (Htext : forall t, text = Some t ->
            match t with [] => false | _ :: _ =>
              match strip t with [] => false | _ :: _ => true end end = true ->
            last_is_text t (history s) = false ->
            history (exec (add_to_history env (Some t) None) s) <> history s).
  { intros t -> Ht Hl. rewrite add_text_history.
    destruct t as [|c t]; [done|]. destruct (strip (c :: t)); [done|].
    rewrite Hl. apply deque_append_neq; [done|].
    by apply last_is_text_false. }
  destruct image_data as [[|b d]|].
  - rewrite add_empty_image.
    destruct text as [t|]; [|done]. apply (Htext t); [done| |done].
    by destruct t.
  - apply andb_true_iff in Hst as [HPIL Hw].
    destruct (add_image_new env text (b :: d) s) as [pp ->]; [done..|].
    apply deque_append_neq; [done|]. by apply last_is_image_false.
  - destruct text as [t|]; [|done]. apply (Htext t); [done| |done].
    by destruct t.
Qed.

(** C2 (amended): for a payload that passes the guards ahead of the
    duplicate test (a text that is not blank after trimming, image bytes
    whose blob is written) and a capacity of at least one, the call leaves
    the history unchanged if and only if the new item is value-equal to the
    last entry; in that case the whole object is unchanged.  Older entries
    play no part: A, B, A gives three entries, A, A gives one. *)
Theorem C2_adjacent_dedup (env : Env) (text : option (list N))
    (image_data : option (list Byte.byte)) (s : ClipboardHistory)
    (clear : bool) (fs : gmap (list N) (list Byte.byte)) (e0 e1 e2 e3 : Env)
    (Hmax : 0 < max_history s)
    (Hstorable : storable env text image_data = true) :
  (history (exec (add_to_history env text image_data) s) = history s
   <-> duplicates_last text image_data (history s) = true) /\
  (exec (add_to_history env text image_data) s = s
   <-> duplicates_last text image_data (history s) = true) /\
  history (run_appends [append_text e1 (str "A"); append_text e2 (str "B");
                        append_text e3 (str "A")]
             (init 100 clear NoFile fs e0))
  = [text_entry (str "A") (now_entry e1); text_entry (str "B") (now_entry e2);
     text_entry (str "A") (now_entry e3)] /\
  history (run_appends [append_text e1 (str "A"); append_text e2 (str "A")]
             (init 100 clear NoFile fs e0))
  = [text_entry (str "A") (now_entry e1)].
Proof.
  assert (Hiff : history (exec (add_to_history env text image_data) s)
                 = history s
                 <-> duplicates_last text image_data (history s) = true).
  { split.
    - intros Hsame.
      destruct (duplicates_last text image_data (history s)) eqn:Hd; [done|].
      by destruct (add_new_changes env text image_data s).
    - intros Hd. by rewrite add_duplicate_noop. }
  split; [done|]. split.
  { split.
    - intros Hsame. apply Hiff. by rewrite Hsame.
    - apply add_duplicate_noop. }
  destruct (init_nofile 100 clear fs e0) as [Hh0 Hm0].
  unfold run_appends, append_text, run_append. cbn [fold_left].
  rewrite !add_text_history, !add_text_max_history, Hh0, Hm0.
  split; vm_compute; reflexivity.
Qed.

(** C3 (amended): a text that is empty after trimming creates no entry and
    leaves the object unchanged; so does a text equal to the text of the
    last entry when that entry is a text entry; every other text appends an
    entry of type [text] whose [text] is the string as given and whose
    [preview] is the string itself when it has at most 100 characters, and
    its first 100 characters followed by the three characters "..."
    otherwise, hence at most 103 characters. *)
Theorem C3_text_entry (env : Env) (text : list N) (s : ClipboardHistory) :
  let s' := exec (add_to_history env (Some text) None) s in
  match strip text with
  | [] => s' = s
  | _ :: _ =>
      if last_is_text text (history s) then s' = s
      else
        exists e preview,
          history s' = deque_append (max_history s) (history s) e /\
          e !! "type" = Some (str "text") /\
          e !! "text" = Some text /\
          e !! "timestamp" = Some (now_entry env) /\
          e !! "preview" = Some preview /\
          preview = (if decide (100 < length text)
                     then take 100 text ++ str "..." else text) /\
          length preview <= 103
  end.
Proof.
  intros s'. subst s'.
  destruct text as [|c0 text]; [done|].
  destruct (strip (c0 :: text)) as [|c t] eqn:Hstrip.
  { by rewrite add_text_exec, Hstrip. }
  destruct (last_is_text (c0 :: text) (history s)) eqn:Hdup.
  { by rewrite add_text_exec, Hstrip, Hdup. }
  rewrite add_text_history, Hstrip, Hdup.
  exists (text_entry (c0 :: text) (now_entry env)). eexists.
  split; [done|]. split; [done|]. split; [done|]. split; [done|].
  split; [apply text_entry_preview|].
  destruct (decide (100 < length (c0 :: text))) as [Hlong|Hshort].
  - split; [done|]. rewrite length_app, length_take.
    change (length (str "...")) with 3. lia.
  - rewrite app_nil_r, take_ge by lia. split; [done|]. lia.
Qed.

Lemma blob_thumb_neq data : thumb_path data <> blob_path data.
Proof.
  unfold thumb_path, blob_path, path_join.
  assert (Hs : startswith (str "/") (md5 data ++ str "_preview.png")
             = startswith (str "/") (md5 data ++ str ".png")).
  { by destruct (md5 data). }
  rewrite Hs.
  assert (Hne : md5 data ++ str "_preview.png" <> md5 data ++ str ".png").
  { intros H. by apply app_inv_head in H. }
  destruct (startswith (str "/") (md5 data ++ str ".png")); [exact Hne|].
  destruct (last images_dir) as [c|]; [|exact Hne].
  destruct (c =? 47)%N; intros H.
  - apply app_inv_head in H. by apply Hne.
  - apply app_inv_head in H. apply app_inv_head in H. by apply Hne.
Qed.

(** The image branch when the store goes through: the entry that is
    appended and the files that are on disk afterwards. *)
Lemma add_image_written (env : Env) (data : list Byte.byte)
    (s : ClipboardHistory)
    (Hdata : data <> [])
    (HPIL : PIL_AVAILABLE env = true)
    (Hwrite : write_ok env (blob_path data) = true)
    (Hnew : last_is_image (md5 data) (history s) = false) :
  let s' := exec (add_to_history env None (Some data)) s in
  exists pp,
    history s'
    = deque_append (max_history s) (history s)
        (image_entry (blob_path data) pp (md5 data) (now_entry env)) /\
    files s' !! blob_path data = Some data /\
    is_Some (files s' !! pp) /\
    match thumbnail data with
    | Ok img =>
        if write_ok env (thumb_path data)
        then pp = thumb_path data /\ files s' !! thumb_path data = Some img
        else pp = blob_path data
    | Raise _ => pp = blob_path data
    end.
Proof.
  simpl. pose proof (blob_thumb_neq data) as Hneq.
  unfold blob_path, thumb_path in *.
  destruct data as [|b d]; [done|].
  io_unfold. cbv beta iota. rewrite HPIL. cbn [negb].
  rewrite Hnew, Hwrite. cbv beta iota.
  cbn [files set_files emit]. rewrite lookup_insert_eq.
  destruct (thumbnail (b :: d)) as [img|x].
  - destruct (write_ok env (path_join images_dir
                              (md5 (b :: d) ++ str "_preview.png"))).
    + eexists. destruct (save_result env); simpl;
        (split; [reflexivity|]);
        rewrite lookup_insert_ne, !lookup_insert_eq by done; eauto.
    + eexists. destruct (save_result env); simpl;
        (split; [reflexivity|]);
        rewrite !lookup_insert_eq; eauto.
  - eexists. destruct (save_result env); simpl;
      (split; [reflexivity|]);
      rewrite !lookup_insert_eq; eauto.
Qed.

(** C4: when the last entry is an image entry whose [image_hash] is the
    hash of the bytes, [save_image_from_clipboard] returns [None] and the
    object, its files and its log are as before (no write), and
    [add_to_history] is a no-op.  In particular, after a first store of the
    bytes that went through, a second store of the same bytes changes
    nothing, and the two calls together create no file other than the blob
    and the preview of that hash.  When the first store is not itself a
    duplicate, the two calls append one entry, the blob is on disk with
    the bytes, and the preview the entry names is on disk: the thumbnail
    under [<hash>_preview.png] when the thumbnailer and its write succeed,
    the blob itself otherwise. *)
Theorem C4_image_duplicate (env env' : Env) (data : list Byte.byte)
    (s : ClipboardHistory)
    (Hdata : data <> []) (Hmax : 0 < max_history s)
    (HPIL : PIL_AVAILABLE env = true)
    (Hwrite : write_ok env (blob_path data) = true) :
  let s1 := exec (add_to_history env None (Some data)) s in
  let s2 := exec (add_to_history env' None (Some data)) s1 in
  (forall s0, last_is_image (md5 data) (history s0) = true ->
     save_image_from_clipboard env' (Some data) s0 = (Ok None, s0) /\
     exec (add_to_history env' None (Some data)) s0 = s0) /\
  last_is_image (md5 data) (history s1) = true /\
  save_image_from_clipboard env' (Some data) s1 = (Ok None, s1) /\
  s2 = s1 /\
  (forall p, is_Some (files s2 !! p) ->
     is_Some (files s !! p) \/ p = blob_path data \/ p = thumb_path data) /\
  (last_is_image (md5 data) (history s) = false ->
   exists pp,
     history s2
     = deque_append (max_history s) (history s)
         (image_entry (blob_path data) pp (md5 data) (now_entry env)) /\
     files s2 !! blob_path data = Some data /\
     is_Some (files s2 !! pp) /\
     match thumbnail data with
     | Ok img =>
         if write_ok env (thumb_path data)
         then pp = thumb_path data /\ files s2 !! thumb_path data = Some img
         else pp = blob_path data
     | Raise _ => pp = blob_path data
     end).
Proof.
  intros s1 s2.
  assert (Hgen : forall s0, last_is_image (md5 data) (history s0) = true ->
     save_image_from_clipboard env' (Some data) s0 = (Ok None, s0) /\
     exec (add_to_history env' None (Some data)) s0 = s0).
  { intros s0 Hdup. split; [by apply save_image_duplicate|].
    unfold exec. by rewrite add_image_duplicate. }
  assert (Hlast : last_is_image (md5 data) (history s1) = true).
  { subst s1.
    destruct (last_is_image (md5 data) (history s)) eqn:Hdup.
    - unfold exec. by rewrite add_image_duplicate.
    - destruct (add_image_new env None data s) as [pp ->]; [done..|].
      unfold last_is_image. rewrite last_deque_append by (by left).
      rewrite image_entry_type, image_entry_hash.
      by rewrite !bool_decide_eq_true_2. }
  destruct (Hgen s1 Hlast) as [Hsave Hnoop].
  split; [done|]. split; [done|]. split; [done|]. split; [done|].
  split.
  - intros p Hp. subst s2. rewrite Hnoop in Hp.
    by apply (add_image_files env None data s p).
  - intros Hnew. subst s2. rewrite Hnoop. subst s1.
    by apply add_image_written.
Qed.

(** *** Loading *)

Lemma fold_deque_append {A} (maxlen : nat) (l d : list A) :
  length d <= maxlen ->
  fold_left (deque_append maxlen) l d
  = drop (length d + length l - maxlen) (d ++ l).
Proof.
  revert d. induction l as [|x l IH]; intros d Hd; simpl.
  - rewrite app_nil_r. replace (length d + 0 - maxlen) with 0 by lia. done.
  - destruct (decide (length d = maxlen)) as [Hfull|Hroom].
    + rewrite deque_append_full by done.
      destruct d as [|a d]; simpl in *.
      * subst maxlen. rewrite IH by (simpl; lia). simpl.
        by replace (length l - 0) with (length l) by lia.
      * rewrite IH by (rewrite length_app; simpl; lia).
        rewrite length_app. simpl. rewrite <- app_assoc. simpl.
        replace (S (length d + S (length l)) - maxlen) with
          (S (length d + 1 + length l - maxlen)) by lia.
        done.
    + rewrite deque_append_room by lia.
      rewrite IH by (rewrite length_app; simpl; lia).
      rewrite length_app, <- app_assoc. simpl.
      by replace (length d + 1 + length l) with (length d + S (length l)) by lia.
Qed.

(** [deque(l, maxlen)] keeps the last [maxlen] elements of [l]. *)
Lemma deque_of_list_drop {A} (maxlen : nat) (l : list A) :
  deque_of_list maxlen l = drop (length l - maxlen) l.
Proof. unfold deque_of_list. rewrite fold_deque_append; simpl; [done|lia]. Qed.

Lemma load_history_json l lu s :
  config_file s = Json (Some l) lu ->
  history (exec load_history s)
  = drop (length l - max_history s) (map default_type l) /\
  max_history (exec load_history s) = max_history s.
Proof.
  intros Hc. unfold exec, load_history, json_load, try_except, io_bind, modify.
  rewrite Hc. simpl. rewrite deque_of_list_drop, length_map. done.
Qed.

Lemma save_history_config env s :
  save_result env = SaveOk ->
  config_file (exec (save_history env) s)
  = Json (Some (history s)) (Some (now_save env)).
Proof.
  intros Hok. unfold exec, save_history, write_config, try_except.
  by rewrite Hok.
Qed.

Lemma init_json max l lu fs env :
  history (init max false (Json (Some l) lu) fs env)
  = drop (length l - max) (map default_type l).
Proof.
  unfold init. unfold exec at 1. unfold io_bind.
  match goal with |- context [load_history ?s0] =>
    pose proof (load_history_json l lu s0 eq_refl) as [Hh _];
    unfold exec in Hh; destruct (load_history s0) as [[[]|x] s1] end;
    simpl in *; done.
Qed.

Lemma default_type_loaded_as e : loaded_as e (default_type e).
Proof.
  unfold loaded_as, default_type. destruct (e !! "type") as [t|] eqn:Ht.
  - by rewrite Ht.
  - split; [|by rewrite lookup_insert_eq].
    intros k Hk. by rewrite lookup_insert_ne.
Qed.

(** C5: when [save_history] succeeds on a history of at most [max_history]
    entries, [load_history] on the file it wrote (in the same object, or in
    a new one started on that file with the same capacity) gives back the
    same entries, field for field, except that an entry without a [type]
    field gets [type = text]: the loaded history has the same length, and
    its record at each position has the fields of the saved one, with
    [type] set to [text] when the saved one has none.  With every entry
    typed the history is identical. *)
Theorem C5_save_load_roundtrip (env env' : Env) (s : ClipboardHistory)
    (fs : gmap (list N) (list Byte.byte))
    (Hsaved : save_result env = SaveOk)
    (Hcap : length (history s) <= max_history s) :
  let s1 := exec (save_history env) s in
  history (exec load_history s1) = map default_type (history s) /\
  history (init (max_history s) false (config_file s1) fs env')
  = map default_type (history s) /\
  (Forall (fun e => is_Some (e !! "type")) (history s) ->
   history (exec load_history s1) = history s /\
   history (init (max_history s) false (config_file s1) fs env') = history s) /\
  Forall2 loaded_as (history s) (history (exec load_history s1)) /\
  Forall2 loaded_as (history s)
    (history (init (max_history s) false (config_file s1) fs env')).
Proof.
  intros s1.
  pose proof (save_history_config env s Hsaved) as Hc. fold s1 in Hc.
  destruct (save_history_history env s) as [Hh Hm]. fold s1 in Hh, Hm.
  destruct (load_history_json _ _ s1 Hc) as [Hl _].
  assert (Hdrop : drop (length (history s) - max_history s)
                    (map default_type (history s))
                  = map default_type (history s)).
  { replace (length (history s) - max_history s) with 0 by lia. done. }
  assert (H1 : history (exec load_history s1) = map default_type (history s)).
  { by rewrite Hl, Hm. }
  assert (H2 : history (init (max_history s) false (config_file s1) fs env')
               = map default_type (history s)).
  { by rewrite Hc, init_json. }
  assert (Hrel : Forall2 loaded_as (history s) (map default_type (history s))).
  { clear. induction (history s) as [|e l IH]; simpl; constructor;
      [apply default_type_loaded_as|done]. }
  split; [done|]. split; [done|]. split.
  - intros Htyped.
    assert (Hid : map default_type (history s) = history s).
    { clear -Htyped. induction Htyped as [|e l [t Ht] _ IH]; [done|].
      simpl. rewrite IH. unfold default_type. by rewrite Ht. }
    by rewrite H1, H2, Hid.
  - by rewrite H1, H2.
Qed.

(** C10: when the durable file holds more than [max_history] records,
    [load_history] (and so [__init__]) keeps the last [max_history] of
    them, in order, and drops the older ones; the history then has exactly
    [max_history] entries. *)
Theorem C10_load_truncates (s : ClipboardHistory)
    (l : list (gmap string (list N))) (lu : option (list N))
    (fs : gmap (list N) (list Byte.byte)) (env : Env)
    (Hfile : config_file s = Json (Some l) lu)
    (Hmore : max_history s < length l) :
  let kept := drop (length l - max_history s) (map default_type l) in
  history (exec load_history s) = kept /\
  history (init (max_history s) false (config_file s) fs env) = kept /\
  length kept = max_history s /\
  map default_type l = take (length l - max_history s) (map default_type l) ++ kept.
Proof.
  intros kept. subst kept.
  destruct (load_history_json l lu s Hfile) as [Hl _].
  split; [done|]. split; [by rewrite Hfile, init_json|].
  split; [rewrite length_drop, length_map; lia|].
  by rewrite take_drop.
Qed.

(** *** The retrieval view *)

Lemma update_history_list_view q s v :
  view s = Some v ->
  exists v',
    view (exec (update_history_list q) s) = Some v' /\
    current_filter v' = q /\
    filtered_history v' =
      match q with
      | [] => history s
      | _ :: _ => filter (fun h => matches (lower q) h) (history s)
      end /\
    history_items v' = reverse (filtered_history v') /\
    selected_index v' =
      match history_items v' with [] => None | _ :: _ => Some 0%Z end.
Proof.
  intros Hv. unfold exec, update_history_list, select_item. rewrite Hv.
  destruct (reverse _) eqn:Hrev; simpl; rewrite ?Hrev; simpl;
    eexists; (split; [reflexivity|]); simpl; rewrite ?Hrev; done.
Qed.

(** [update_history_list] puts the cursor on the first row. *)
Lemma update_history_list_cursor_ok q s :
  cursor_ok (exec (update_history_list q) s).
Proof.
  unfold cursor_ok, rows, cursor.
  destruct (view s) as [v|] eqn:Hv.
  - destruct (update_history_list_view q s v Hv) as (v' & -> & _ & _ & Hi & Hs).
    intros Hne. exists 0%Z. rewrite Hs.
    destruct (history_items v'); [done|]. simpl. split; [done|lia].
  - unfold exec, update_history_list. rewrite Hv. simpl. by rewrite Hv.
Qed.

(** C6 (amended): with the empty query the view is the whole history,
    most recent first, with as many rows as the history has entries; with
    a query that is not empty the view is, most recent first, the entries
    that match.  A text entry matches exactly when the lowered query occurs
    in its lowered text or in its lowered preview.  An image entry matches
    exactly when the lowered query occurs in its lowered preview (the
    placeholder) or the lowered query contains the keyword. *)
Theorem C6_filter (q : list N) (s : ClipboardHistory)
    (Hview : is_Some (view s))
    (Hlower : forall x, lower x = [] <-> x = []) :
  let s' := exec (update_history_list q) s in
  (q = [] -> rows s' = reverse (history s) /\
             length (rows s') = length (history s)) /\
  (q <> [] ->
   rows s' = reverse (filter (fun h => matches (lower q) h) (history s)) /\
   (forall h, h ∈ rows s' <-> h ∈ history s /\ matches (lower q) h = true) /\
   (forall h, h !! "type" = Some (str "text") ->
      matches (lower q) h
      = str_in (lower q) (lower (get_str h "text"))
        || str_in (lower q) (lower (get_str h "preview"))) /\
   (forall h, h !! "type" = Some (str "image") -> h !! "text" = None ->
      matches (lower q) h
      = str_in (lower q) (lower (get_str h "preview"))
        || str_in image_keyword (lower q)) /\
   (forall ip pp hash now,
      matches (lower q) (image_entry ip pp hash now)
      = str_in (lower q) (lower image_placeholder)
        || str_in image_keyword (lower q))).
Proof.
  intros s'. subst s'. unfold rows. destruct Hview as [v Hview].
  destruct (update_history_list_view q s v Hview) as (v' & -> & _ & Hf & Hi & _).
  rewrite Hi, Hf.
  assert (Himg : forall h, h !! "type" = Some (str "image") ->
            h !! "text" = None -> q <> [] ->
            matches (lower q) h
            = str_in (lower q) (lower (get_str h "preview"))
              || str_in image_keyword (lower q)).
  { intros h Ht Htext Hq. unfold matches, get_str at 1.
    rewrite Htext, Ht, bool_decide_eq_true_2 by done. simpl.
    rewrite (proj2 (Hlower []) eq_refl).
    destruct (lower q) eqn:Hlq; [destruct Hq; by apply Hlower|done]. }
  split.
  - intros ->. by rewrite length_reverse.
  - intros Hq. destruct q as [|c q]; [done|].
    split; [done|]. split.
    { intros h. rewrite elem_of_reverse, list_elem_of_filter.
      split; intros [? ?]; split; try done.
      - by apply Is_true_true_1.
      - by apply Is_true_true_2. }
    split.
    { intros h Ht. unfold matches. rewrite Ht.
      rewrite bool_decide_eq_false_2 by done. simpl.
      by rewrite orb_false_r. }
    split; [intros h Ht Htext; by apply Himg|].
    intros ip pp hash now. by rewrite Himg.
Qed.

(** What [navigate_list] does on a view with rows and a cursor. *)
Lemma navigate_list_rows direction s v e l i :
  view s = Some v -> history_items v = e :: l -> selected_index v = Some i ->
  let n := Z.of_nat (length (e :: l)) in
  let i' := Z.max 0 (Z.min (n - 1) (i + direction)) in
  navigate_list direction s
  = (Ok tt, if (i' =? i)%Z then s
            else set_view (Some {| current_filter := current_filter v;
                                   filtered_history := filtered_history v;
                                   history_items := history_items v;
                                   selected_index := Some i' |}) s).
Proof.
  intros Hv Hit Hsel n i'. unfold navigate_list, select_item.
  rewrite Hv, Hit, Hsel. fold n. simpl default.
  assert (Hn : (1 <= n)%Z) by (unfold n; simpl; lia).
  assert (Hclamp : (if (i + direction <? 0)%Z then 0%Z
                    else if (n <=? i + direction)%Z then (n - 1)%Z
                         else (i + direction)%Z) = i').
  { unfold i'. repeat case_match; lia. }
  rewrite Hclamp. by destruct (i' =? i)%Z.
Qed.

(** C7: for a direction of +1 or -1 and a view whose cursor is on a row,
    [navigate_list] returns normally, keeps the rows, and leaves the cursor
    on a row, at most one position away from where it was: it is the old
    position plus the direction, clamped to the first and the last row (no
    wrap-around).  On a view without rows, or before the view exists, the
    object is unchanged. *)
Theorem C7_navigate (direction : Z) (s : ClipboardHistory)
    (Hdir : direction = 1%Z \/ direction = (-1)%Z)
    (Hok : cursor_ok s) :
  let s' := exec (navigate_list direction) s in
  navigate_list direction s = (Ok tt, s') /\
  rows s' = rows s /\
  cursor_ok s' /\
  (rows s = [] -> s' = s) /\
  (rows s <> [] ->
   exists i i',
     cursor s = Some i /\ cursor s' = Some i' /\
     (0 <= i' < Z.of_nat (length (rows s)))%Z /\
     (-1 <= i' - i <= 1)%Z /\
     i' = Z.max 0 (Z.min (Z.of_nat (length (rows s)) - 1) (i + direction)) /\
     (i = 0%Z -> direction = (-1)%Z -> i' = 0%Z) /\
     (i = (Z.of_nat (length (rows s)) - 1)%Z -> direction = 1%Z -> i' = i)).
Proof.
  intros s'. subst s'. unfold cursor_ok, rows, cursor, exec in *.
  destruct (view s) as [v|] eqn:Hv.
  2: { unfold navigate_list. rewrite Hv. simpl. rewrite Hv. by repeat split. }
  destruct (history_items v) as [|e l] eqn:Hit.
  { unfold navigate_list. rewrite Hv, Hit. simpl. rewrite Hv, Hit.
    by repeat split. }
  destruct Hok as (i & Hsel & Hi); [done|].
  rewrite (navigate_list_rows direction s v e l i Hv Hit Hsel).
  set (n := Z.of_nat (length (e :: l))) in *.
  set (i' := Z.max 0 (Z.min (n - 1) (i + direction))).
  assert (Hi' : (0 <= i' < n)%Z) by (unfold i'; lia).
  assert (Hstep : (-1 <= i' - i <= 1)%Z) by (unfold i'; lia).
  destruct (i' =? i)%Z eqn:Heq; simpl.
  - apply Z.eqb_eq in Heq. rewrite Hv, Hit.
    split; [done|]. split; [done|]. split; [eauto|]. split; [done|].
    intros _. exists i, i'. rewrite Hsel, <- Heq.
    repeat split; try done; try lia.
  - rewrite Hit. split; [done|]. split; [done|].
    split; [intros _; exists i'; by split|]. split; [done|].
    intros _. exists i, i'. rewrite Hsel.
    repeat split; try done; unfold i'; lia.
Qed.

(** *** The guard window *)

Lemma update_history_list_time q s :
  window_open_time (exec (update_history_list q) s) = window_open_time s.
Proof.
  unfold exec, update_history_list, select_item.
  repeat (case_match; simpl in *; simplify_eq); done.
Qed.

Lemma add_to_history_time env text image_data s :
  window_open_time (exec (add_to_history env text image_data) s)
  = window_open_time s.
Proof.
  io_unfold. simpl.
  repeat (case_match; simpl in *; simplify_eq); done.
Qed.

Lemma save_history_time env s :
  window_open_time (exec (save_history env) s) = window_open_time s.
Proof.
  unfold exec, save_history, write_config, try_except, io_ret.
  by destruct (save_result env).
Qed.

Lemma delete_selected_time env s :
  window_open_time (exec (delete_selected env) s) = window_open_time s.
Proof.
  unfold exec, delete_selected.
  destruct (view s) as [v|]; [|done].
  destruct (selected_index v) as [i|]; [|done].
  destruct (in_range i (filtered_history v)); [|done].
  destruct (from_newest (filtered_history v) i) as [e|]; [|done].
  destruct (bool_decide (e ∈ history s)); [|done].
  unfold io_bind at 1.
  destruct (remove_image_files_ok env e s) as (s1 & -> & H1).
  unfold io_bind at 1.
  destruct (deque_remove e (history s1)) as [h|x]; [|apply H1].
  unfold io_bind.
  pose proof (save_history_time env (set_history h s1)) as Hs.
  unfold exec in Hs.
  destruct (save_history env (set_history h s1)) as [[[]|x] s2]; simpl in *.
  - pose proof (update_history_list_time (get_current_filter s2) s2) as Hu.
    unfold exec in Hu. rewrite Hu, Hs. apply H1.
  - rewrite Hs. apply H1.
Qed.

Lemma clear_history_time env s :
  window_open_time (exec (clear_history env) s) = window_open_time s.
Proof.
  unfold exec, clear_history. unfold io_bind at 1.
  destruct (for_each_remove_ok env (history s) s) as (s1 & -> & H1).
  unfold io_bind at 1, modify at 1. unfold io_bind.
  pose proof (save_history_time env (set_history [] s1)) as Hs.
  unfold exec in Hs.
  destruct (save_history env (set_history [] s1)) as [[[]|x] s2]; simpl in *.
  - pose proof (update_history_list_time [] s2) as Hu.
    unfold exec in Hu. rewrite Hu, Hs. apply H1.
  - rewrite Hs. apply H1.
Qed.

Lemma insert_selected_by_index_time env t i s :
  window_open_time (exec (insert_selected_by_index env t i) s)
  = window_open_time s.
Proof.
  unfold exec, insert_selected_by_index, copy_to_clipboard, close_and_paste,
    io_bind, modify, io_ret.
  repeat (case_match; simpl in *; simplify_eq); done.
Qed.

Lemma show_history_window_closed t s :
  window_open s = false ->
  window_open_time (exec (show_history_window t) s) = t.
Proof.
  intros Hc. unfold exec, show_history_window. rewrite Hc.
  unfold io_bind at 1, modify at 1. unfold create_history_ui.
  unfold io_bind, modify.
  match goal with |- context [update_history_list [] ?s1] =>
    pose proof (update_history_list_time [] s1) as Hu end.
  unfold exec in Hu. by rewrite Hu.
Qed.

Lemma show_history_window_again t s :
  window_open s = true ->
  window_open_time (exec (show_history_window t) s) = window_open_time s.
Proof.
  intros Ho. unfold exec, show_history_window. rewrite Ho.
  unfold io_bind, modify.
  pose proof (update_history_list_time (get_current_filter s) s) as Hu.
  unfold exec in Hu.
  destruct (update_history_list (get_current_filter s) s) as [[[]|x] s1];
    simpl in *; done.
Qed.

(** Until the window is opened anew, [window_open_time] is the reading
    taken when it was opened. *)
Lemma since_open_time t0 s : since_open t0 s -> window_open_time s = t0.
Proof.
  induction 1 as [s Hc|t s _ IH Ho|s _ IH|d s _ IH|q s _ IH|i s _ IH
                  |env text img s _ IH|env s _ IH|env s _ IH|env t i s _ IH].
  - by apply show_history_window_closed.
  - by rewrite show_history_window_again.
  - done.
  - rewrite <- IH. unfold exec, navigate_list, select_item.
    repeat (case_match; simpl in *; simplify_eq); done.
  - by rewrite <- IH, <- (update_history_list_time q s).
  - rewrite <- IH. unfold exec, select_item.
    repeat (case_match; simpl in *; simplify_eq); done.
  - by rewrite add_to_history_time.
  - by rewrite delete_selected_time.
  - by rewrite clear_history_time.
  - by rewrite insert_selected_by_index_time.
Qed.

Lemma Qltb_true (x y : Q) : (x < y)%Q -> Qltb x y = true.
Proof.
  intros Hlt. unfold Qltb. apply negb_true_iff.
  destruct (Qle_bool y x) eqn:Hle; [|done].
  apply Qle_bool_iff in Hle. by apply Qlt_not_le in Hlt.
Qed.

(** C8: a commit request made at a clock reading less than half a second
    after the reading taken when the window was opened (and before it is
    opened anew) returns at once: the object is unchanged, so nothing is
    put on the clipboard, no paste thread is started, and the history and
    the view are as before.  This holds for the request by index and for
    the request on the selected row; a request 100 ms after the opening is
    one such. *)
Theorem C8_guard_window (env : Env) (t0 now : Q) (index : Z)
    (s : ClipboardHistory)
    (Hsince : since_open t0 s)
    (Hwithin : (now - t0 < 1 # 2)%Q) :
  insert_selected_by_index env now index s = (Ok tt, s) /\
  insert_selected env now s = (Ok tt, s) /\
  insert_selected_by_index env (t0 + (1 # 10))%Q index s = (Ok tt, s).
Proof.
  pose proof (since_open_time t0 s Hsince) as Ht.
  assert (Hguard : forall t, (t - t0 < 1 # 2)%Q -> guard_active t s = true).
  { intros t Hlt. unfold guard_active. rewrite Ht, Qltb_true by done.
    apply orb_true_r. }
  assert (Hidx : forall t i, (t - t0 < 1 # 2)%Q ->
            insert_selected_by_index env t i s = (Ok tt, s)).
  { intros t i Hlt. unfold insert_selected_by_index. by rewrite Hguard. }
  split; [by apply Hidx|]. split.
  - unfold insert_selected. destruct (view s) as [v|]; [|by apply Hidx].
    destruct (selected_index v); [by apply Hidx|]. by rewrite Hguard.
  - apply Hidx.
    assert (Heq : (t0 + (1 # 10) - t0 == 1 # 10)%Q) by ring.
    by rewrite Heq.
Qed.

(** *** Deleting the selected row *)

Lemma deque_remove_elem `{EqDecision A} (v : A) (d : list A) :
  v ∈ d -> exists d', deque_remove v d = Ok d' /\ length d = S (length d').
Proof.
  induction d as [|x d IH]; intros Hin; [by apply elem_of_nil in Hin|].
  simpl. destruct (decide (x = v)) as [->|Hne]; [by eexists|].
  apply elem_of_cons in Hin as [->|Hin]; [done|].
  destruct (IH Hin) as (d' & -> & Hlen). eexists. split; [done|].
  simpl. by rewrite Hlen.
Qed.

(** [delete_selected] on a row whose entry is in the history: whatever the
    OS answers, no exception leaves the method; the deque loses the first
    entry equal ([==]) to the entry of the row; the history is written. *)
Lemma delete_selected_first_equal env s v i e :
  view s = Some v -> selected_index v = Some i ->
  in_range i (filtered_history v) = true ->
  from_newest (filtered_history v) i = Some e ->
  e ∈ history s ->
  exists h' s',
    deque_remove e (history s) = Ok h' /\
    delete_selected env s = (Ok tt, s') /\
    history s' = h' /\
    EvSaveHistory ∈ log s' /\
    (save_result env = SaveOk ->
     config_file s' = Json (Some h') (Some (now_save env))).
Proof.
  intros Hv Hsel Hrange Hfrom Hin.
  destruct (deque_remove_elem e (history s) Hin) as (h' & Hrem & _).
  exists h'. unfold delete_selected.
  rewrite Hv, Hsel, Hrange, Hfrom, bool_decide_eq_true_2 by done.
  unfold io_bind at 1.
  destruct (remove_image_files_ok env e s) as (s1 & -> & H1).
  unfold io_bind at 1.
  assert (Hh1 : history s1 = history s) by apply H1.
  rewrite Hh1, Hrem. unfold io_bind.
  pose proof (save_history_log env (set_history h' s1)) as Hlog.
  pose proof (save_history_config env (set_history h' s1)) as Hcfg.
  unfold exec in Hlog, Hcfg.
  destruct (save_history_ok env (set_history h' s1)) as (s2 & Hs2 & _ & Hh2 & _).
  rewrite Hs2 in *. simpl in Hlog, Hcfg, Hh2.
  destruct (update_history_list_store (get_current_filter s2) s2)
    as (s3 & -> & _ & Hh3 & _ & Hc3 & Hl3).
  eexists. split; [done|]. split; [done|]. split; [congruence|].
  split; [rewrite Hl3, Hlog; apply list_elem_of_here|].
  intros Hok. rewrite Hc3. by apply Hcfg.
Qed.

Lemma init_json_state max l lu fs env :
  init max false (Json (Some l) lu) fs env
  = {| max_history := max;
       history := deque_of_list max (map default_type l);
       current_clipboard := []; config_file := Json (Some l) lu;
       files := fs; window_open := false; window_just_opened := false;
       window_open_time := 0%Q; view := None; log := [] |}.
Proof. reflexivity. Qed.

(** Opening the window shows the whole history, most recent first, with
    the cursor on the first row. *)
Lemma show_history_window_opens t s :
  window_open s = false ->
  history (exec (show_history_window t) s) = history s /\
  view (exec (show_history_window t) s)
  = Some {| current_filter := [];
            filtered_history := history s;
            history_items := reverse (history s);
            selected_index :=
              match reverse (history s) with
              | [] => None
              | _ :: _ => Some 0%Z
              end |}.
Proof.
  intros Hc. unfold exec, show_history_window. rewrite Hc.
  unfold io_bind, modify, create_history_ui, io_bind, modify,
    update_history_list, select_item.
  simpl. destruct (reverse (history s)) eqn:Hrev; simpl; rewrite ?Hrev; done.
Qed.

(** C9 (the code at the failing input): the history holds the entries
    A, B, A, the two A equal in every field; the window shows them most
    recent first with the cursor on the first row, which is the entry at
    position 2 of the history.  [delete_selected] leaves B, A: it removes
    the entry at position 0.  Removing the entry of the selected row
    (position 2) leaves A, B. *)
Theorem C9_delete_selected_first_equal (env0 env : Env)
    (fs : gmap (list N) (list Byte.byte)) (t0 : Q) (tA tB : list N) :
  let A := text_entry (str "A") tA in
  let B := text_entry (str "B") tB in
  let s := exec (show_history_window t0)
             (init 100 false (Json (Some [A; B; A]) None) fs env0) in
  history s = [A; B; A] /\
  rows s = [A; B; A] /\
  cursor s = Some 0%Z /\
  from_newest (get_filtered_history s) 0 = [A; B; A] !! 2 /\
  delete_selected env s = (Ok tt, exec (delete_selected env) s) /\
  history (exec (delete_selected env) s) = [B; A] /\
  delete 2 [A; B; A] = [A; B] /\
  [B; A] <> [A; B].
Proof.
  intros A B s.
  assert (Hs0 : history (init 100 false (Json (Some [A; B; A]) None) fs env0)
                = [A; B; A]).
  { rewrite init_json_state. simpl. rewrite deque_of_list_drop. done. }
  destruct (show_history_window_opens t0
              (init 100 false (Json (Some [A; B; A]) None) fs env0))
    as [Hh Hv]; [by rewrite init_json_state|].
  fold s in Hh, Hv. rewrite Hs0 in Hh, Hv.
  change (reverse [A; B; A]) with [A; B; A] in Hv.
  assert (HAB : A <> B).
  { intros Heq. assert (Ht : A !! "text" = B !! "text") by by rewrite Heq.
    unfold A, B in Ht. rewrite !text_entry_text in Ht. done. }
  split; [done|]. unfold rows, cursor, get_filtered_history. rewrite Hv.
  split; [done|]. split; [done|]. split; [done|].
  destruct (delete_selected_first_equal env s _ 0%Z A Hv eq_refl eq_refl eq_refl)
    as (h' & s' & Hrem & Hdel & Hh' & _).
  { rewrite Hh. apply list_elem_of_here. }
  rewrite Hh in Hrem. simpl in Hrem. rewrite decide_True in Hrem by done.
  injection Hrem as <-.
  unfold exec. rewrite Hdel. simpl.
  split; [done|]. split; [done|]. split; [done|].
  intros Heq. by injection Heq as Heq _.
Qed.

(** ** Further properties of the code *)

(** *** [check_clipboard_image] *)

Lemma xclip_try_Some cb mime data :
  xclip_try cb mime = Some data <->
  data <> [] /\ xclip cb mime = Ok (0%Z, data).
Proof.
  unfold xclip_try. destruct (xclip cb mime) as [[rc out]|e].
  - destruct (Z.eqb_spec rc 0) as [-> |Hrc].
    + destruct out as [|b out].
      * split; [done|]. intros [Hne Heq]. by simplify_eq.
      * split; [by intros [= <-]|]. intros [_ Heq]. by simplify_eq.
    + split; [done|]. intros [_ Heq]. by simplify_eq.
  - split; [done|]. by intros [_ ?].
Qed.

Lemma first_image_Some cb types data :
  first_image cb types = Some data ->
  exists i mime,
    types !! i = Some mime /\ xclip_try cb mime = Some data /\
    forall j m, j < i -> types !! j = Some m -> xclip_try cb m = None.
Proof.
  induction types as [|t types IH]; [done|]. simpl.
  destruct (xclip_try cb t) as [d|] eqn:Ht.
  - intros [= <-]. exists 0, t. repeat split; [done|]. intros; lia.
  - intros Hf. destruct (IH Hf) as (i & m & Hi & Hm & Hbefore).
    exists (S i), m. repeat split; [done..|].
    intros [|j] m' Hj Hm'; simpl in Hm'; [by simplify_eq|].
    apply (Hbefore j); [lia|done].
Qed.

Lemma first_image_None cb types :
  first_image cb types = None ->
  forall m, m ∈ types -> xclip_try cb m = None.
Proof.
  induction types as [|t types IH]; intros Hf m Hm;
    [by apply elem_of_nil in Hm|].
  simpl in Hf. destruct (xclip_try cb t) eqn:Ht; [done|].
  apply elem_of_cons in Hm as [-> |Hm]; [done|]. by apply IH.
Qed.

Lemma check_clipboard_image_first_image cb :
  check_clipboard_image cb = first_image cb image_types.
Proof. done. Qed.

(** X1: [check_clipboard_image] tries PNG, JPEG, JPG, GIF, BMP in this
    order and returns the output of the first [xclip] call that ends with
    return code 0 and an output that is not empty; the data it returns is
    never empty; when every call raises, fails or prints nothing it
    returns [None].  No exception leaves the function. *)
Theorem X1_check_clipboard_image (cb : Clipboard) :
  match check_clipboard_image cb with
  | Some data =>
      data <> [] /\
      exists i mime,
        image_types !! i = Some mime /\
        xclip cb mime = Ok (0%Z, data) /\
        forall j m, j < i -> image_types !! j = Some m ->
          forall d, xclip cb m = Ok (0%Z, d) -> d = []
  | None =>
      forall m, m ∈ image_types ->
        forall d, xclip cb m = Ok (0%Z, d) -> d = []
  end.
Proof.
  assert (Hnone : forall m, xclip_try cb m = None ->
            forall d, xclip cb m = Ok (0%Z, d) -> d = []).
  { intros m Hm d Hd. destruct d as [|b d]; [done|].
    assert (Hs : xclip_try cb m = Some (b :: d)) by (by apply xclip_try_Some).
    congruence. }
  rewrite check_clipboard_image_first_image.
  destruct (first_image cb image_types) as [data|] eqn:Hf.
  - destruct (first_image_Some cb _ _ Hf) as (i & mime & Hi & Hm & Hbefore).
    apply xclip_try_Some in Hm as [Hne Hx].
    split; [done|]. exists i, mime. repeat split; [done..|].
    intros j m Hj Hjm. apply Hnone. by apply (Hbefore j).
  - intros m Hm. apply Hnone. by apply (first_image_None cb image_types).
Qed.

(** *** What [add_to_history] leaves alone *)

Lemma add_to_history_frame env text image_data s :
  exists s',
    add_to_history env text image_data s = (Ok tt, s') /\
    max_history s' = max_history s /\
    current_clipboard s' = current_clipboard s /\
    window_open s' = window_open s /\
    window_just_opened s' = window_just_opened s /\
    window_open_time s' = window_open_time s /\
    view s' = view s.
Proof.
  io_unfold. simpl.
  repeat (case_match; simpl in *; simplify_eq);
    eexists; (split; [reflexivity|]); by repeat split.
Qed.

Lemma add_to_history_files env text image_data s p :
  is_Some (files s !! p) ->
  is_Some (files (exec (add_to_history env text image_data) s) !! p).
Proof.
  intros Hp. io_unfold. simpl.
  repeat (case_match; simpl in *; simplify_eq); simpl; try done;
    rewrite ?lookup_insert; repeat case_decide; subst; eauto.
Qed.

Lemma add_to_history_no_remove env text image_data s q :
  EvRemoveFile q ∈ log (exec (add_to_history env text image_data) s) ->
  EvRemoveFile q ∈ log s.
Proof.
  io_unfold. simpl.
  repeat (case_match; simpl in *; simplify_eq); simpl; try done;
    rewrite ?elem_of_cons; intros Hq; destruct_or?; simplify_eq; done.
Qed.

(** X2: [add_to_history] always returns normally, whatever the OS answers
    to its writes, and it touches neither the view (filter, rows, cursor),
    nor the window state, nor the remembered clipboard text, nor the
    capacity: a window that is open goes on showing the rows it had. *)
Theorem X2_add_to_history_returns (env : Env) (text : option (list N))
    (image_data : option (list Byte.byte)) (s : ClipboardHistory) :
  exists s',
    add_to_history env text image_data s = (Ok tt, s') /\
    max_history s' = max_history s /\
    current_clipboard s' = current_clipboard s /\
    window_open s' = window_open s /\
    window_just_opened s' = window_just_opened s /\
    window_open_time s' = window_open_time s /\
    view s' = view s /\ rows s' = rows s /\ cursor s' = cursor s.
Proof.
  destruct (add_to_history_frame env text image_data s)
    as (s' & Hs & ? & ? & ? & ? & ? & Hv).
  exists s'. unfold rows, cursor. rewrite Hv. by repeat split.
Qed.

(** X3: [add_to_history] never deletes a file: every file on disk before
    the call is there after it and no [os.remove] is issued.  This holds
    also when the deque is full and the call drops its oldest entry: the
    blob and the preview of an evicted image entry stay on disk. *)
Theorem X3_add_to_history_keeps_files (env : Env) (text : option (list N))
    (image_data : option (list Byte.byte)) (s : ClipboardHistory) :
  let s' := exec (add_to_history env text image_data) s in
  (forall p, is_Some (files s !! p) -> is_Some (files s' !! p)) /\
  (forall q, EvRemoveFile q ∈ log s' -> EvRemoveFile q ∈ log s) /\
  (forall e rest,
     history s = e :: rest -> length (history s) = max_history s ->
     history s' <> history s ->
     (exists new, history s' = rest ++ [new]) /\
     forall p, is_Some (files s !! p) -> is_Some (files s' !! p)).
Proof.
  intros s'. subst s'.
  split; [intros p; apply add_to_history_files|].
  split; [intros q; apply add_to_history_no_remove|].
  intros e rest Hh Hfull Hchg.
  split; [|intros p; apply add_to_history_files].
  destruct (add_to_history_history env text image_data s) as [_ [Hsame|[new Hn]]];
    simpl in *; [done|].
  exists new. rewrite Hn, deque_append_full, Hh by done. done.
Qed.

(** *** What each action does to the store *)

Lemma same_store_refl s : same_store s s.
Proof. by repeat split. Qed.

Lemma same_store_trans s1 s2 s3 :
  same_store s1 s2 -> same_store s2 s3 -> same_store s1 s3.
Proof. unfold same_store. intros. destruct_and!. repeat split; congruence. Qed.

Lemma update_history_list_same_store q s :
  same_store s (exec (update_history_list q) s).
Proof.
  unfold exec.
  destruct (update_history_list_store q s) as (s' & -> & ? & ? & ? & ? & ?).
  by repeat split.
Qed.

Lemma select_item_same_store i s : same_store s (exec (select_item i) s).
Proof.
  unfold exec, select_item.
  repeat (case_match; simpl in *; simplify_eq); by repeat split.
Qed.

Lemma navigate_list_same_store d s : same_store s (exec (navigate_list d) s).
Proof.
  unfold exec, navigate_list, select_item.
  repeat (case_match; simpl in *; simplify_eq); by repeat split.
Qed.

Lemma show_history_window_same_store t s :
  same_store s (exec (show_history_window t) s).
Proof.
  unfold exec, show_history_window, create_history_ui, io_bind, modify.
  destruct (window_open s).
  - pose proof (update_history_list_same_store (get_current_filter s) s) as H.
    unfold exec in H.
    destruct (update_history_list (get_current_filter s) s) as [[[]|x] s1];
      simpl in *; apply H.
  - match goal with |- context [update_history_list [] ?s1] =>
      pose proof (update_history_list_same_store [] s1) as H end.
    apply H.
Qed.

(** A commit request changes neither the store nor the view. *)
Lemma insert_selected_by_index_frame env t i s :
  let s' := exec (insert_selected_by_index env t i) s in
  same_store s s' /\ view s' = view s.
Proof.
  unfold exec, insert_selected_by_index, copy_to_clipboard, close_and_paste,
    io_bind, modify, io_ret.
  repeat (case_match; simpl in *; simplify_eq); by repeat split.
Qed.

Lemma insert_selected_frame env t s :
  let s' := exec (insert_selected env t) s in
  same_store s s' /\ view s' = view s.
Proof.
  unfold exec, insert_selected. cbv beta zeta.
  pose proof (fun i => insert_selected_by_index_frame env t i s) as H.
  unfold exec in H. cbv zeta in H.
  destruct (view s) as [v|] eqn:Hv.
  - destruct (selected_index v) as [i|].
    + specialize (H i). rewrite ?Hv in H. apply H.
    + destruct (guard_active t s); simpl; rewrite ?Hv; by repeat split.
  - specialize (H 0%Z). rewrite ?Hv in H. apply H.
Qed.

(** What [add_to_history] can do to the deque, with the entry it adds. *)
Lemma add_to_history_cases env text image_data s :
  let s' := exec (add_to_history env text image_data) s in
  history s' = history s \/
  (exists t, text = Some t /\ last_is_text t (history s) = false /\
     history s' = deque_append (max_history s) (history s)
                    (text_entry t (now_entry env))) \/
  (exists d pp, image_data = Some d /\
     last_is_image (md5 d) (history s) = false /\
     history s' = deque_append (max_history s) (history s)
                    (image_entry (blob_path d) pp (md5 d) (now_entry env))).
Proof.
  simpl.
  assert (Htext : forall t,
            history (exec (add_to_history env (Some t) None) s) = history s \/
            (last_is_text t (history s) = false /\
             history (exec (add_to_history env (Some t) None) s)
             = deque_append (max_history s) (history s)
                 (text_entry t (now_entry env)))).
  { intros t. rewrite add_text_history.
    destruct t as [|c t]; [by left|]. destruct (strip (c :: t)); [by left|].
    destruct (last_is_text (c :: t) (history s)) eqn:Hd; [by left|by right]. }
  destruct image_data as [[|b d]|].
  - rewrite add_empty_image. destruct text as [t|]; [|by left].
    destruct (Htext t) as [?|[? ?]]; [by left|right; left; eauto].
  - destruct (last_is_image (md5 (b :: d)) (history s)) eqn:Hdup.
    { left. unfold exec. by rewrite add_image_duplicate. }
    destruct (PIL_AVAILABLE env) eqn:HPIL.
    2: { left. unfold exec, add_to_history, save_image_from_clipboard, io_bind.
         by rewrite HPIL. }
    destruct (write_ok env (blob_path (b :: d))) eqn:Hw.
    + destruct (add_image_new env text (b :: d) s) as [pp Hpp]; [done..|].
      right; right. by exists (b :: d), pp.
    + left. unfold blob_path in Hw. io_unfold. cbv beta iota.
      rewrite HPIL. cbn [negb]. rewrite Hdup, Hw. done.
  - destruct text as [t|]; [|by left].
    destruct (Htext t) as [?|[? ?]]; [by left|right; left; eauto].
Qed.

Lemma update_history_list_keeps_filter s :
  get_current_filter (exec (update_history_list (get_current_filter s)) s)
  = get_current_filter s.
Proof.
  destruct (view s) as [v|] eqn:Hv.
  - destruct (update_history_list_view (get_current_filter s) s v Hv)
      as (v' & Hv' & Hq & _).
    unfold get_current_filter at 1. by rewrite Hv'.
  - unfold exec, update_history_list. by rewrite Hv.
Qed.

(** Refreshing the view twice with the same query is refreshing it once. *)
Lemma update_history_list_idem q s :
  exec (update_history_list q) (exec (update_history_list q) s)
  = exec (update_history_list q) s.
Proof.
  unfold exec, update_history_list, select_item.
  destruct (view s) as [v|] eqn:Hv; simpl; [|by rewrite Hv].
  repeat (case_match; simpl in *; simplify_eq); done.
Qed.

(** [delete_selected] never raises; it leaves the object as it is or
    removes from the deque the first entry equal to an entry of it. *)
Lemma delete_selected_cases env s :
  exists s',
    delete_selected env s = (Ok tt, s') /\
    max_history s' = max_history s /\
    (s' = s \/
     exists e, e ∈ history s /\ deque_remove e (history s) = Ok (history s') /\
       EvSaveHistory ∈ log s' /\
       (save_result env = SaveOk ->
        config_file s' = Json (Some (history s')) (Some (now_save env))) /\
       s' = exec (update_history_list (get_current_filter s')) s').
Proof.
  unfold delete_selected.
  destruct (view s) as [v|] eqn:Hv; [|by eexists; eauto].
  destruct (selected_index v) as [i|] eqn:Hi; [|by eexists; eauto].
  destruct (in_range i (filtered_history v)) eqn:Hr; [|by eexists; eauto].
  destruct (from_newest (filtered_history v) i) as [e|] eqn:Hf;
    [|by eexists; eauto].
  destruct (bool_decide (e ∈ history s)) eqn:Hin; [|by eexists; eauto].
  apply bool_decide_eq_true in Hin.
  destruct (deque_remove_elem e (history s) Hin) as (h' & Hrem & _).
  unfold io_bind at 1.
  destruct (remove_image_files_ok env e s) as (s1 & -> & H1).
  unfold io_bind at 1.
  assert (Hh1 : history s1 = history s) by apply H1.
  assert (Hm1 : max_history s1 = max_history s) by apply H1.
  rewrite Hh1, Hrem. unfold io_bind.
  pose proof (save_history_log env (set_history h' s1)) as Hlog.
  pose proof (save_history_config env (set_history h' s1)) as Hcfg.
  unfold exec in Hlog, Hcfg.
  destruct (save_history_ok env (set_history h' s1))
    as (s2 & Hs2 & Hm2 & Hh2 & Hv2 & _).
  rewrite Hs2 in *. simpl in Hlog, Hcfg, Hh2, Hm2.
  destruct (update_history_list_store (get_current_filter s2) s2)
    as (s3 & Hu & Hm3 & Hh3 & _ & Hc3 & Hl3).
  rewrite Hu. exists s3. split; [done|]. split; [congruence|].
  right. exists e. split; [done|]. split; [congruence|].
  split; [rewrite Hl3, Hlog; apply list_elem_of_here|].
  split; [intros Hok; rewrite Hc3, Hh3, Hh2; by apply Hcfg|].
  assert (Hs3 : s3 = exec (update_history_list (get_current_filter s2)) s2)
    by (unfold exec; by rewrite Hu).
  rewrite Hs3, update_history_list_keeps_filter.
  by rewrite update_history_list_idem.
Qed.

(** [clear_history] never raises, empties the deque, writes the history
    and refreshes the view with the empty query. *)
Lemma clear_history_full env s :
  exists s',
    clear_history env s = (Ok tt, s') /\
    max_history s' = max_history s /\ history s' = [] /\
    EvSaveHistory ∈ log s' /\
    (save_result env = SaveOk ->
     config_file s' = Json (Some []) (Some (now_save env))) /\
    s' = exec (update_history_list []) s'.
Proof.
  unfold clear_history. unfold io_bind at 1.
  destruct (for_each_remove_ok env (history s) s) as (s1 & -> & H1).
  unfold io_bind at 1, modify at 1. unfold io_bind.
  pose proof (save_history_log env (set_history [] s1)) as Hlog.
  pose proof (save_history_config env (set_history [] s1)) as Hcfg.
  unfold exec in Hlog, Hcfg.
  destruct (save_history_ok env (set_history [] s1))
    as (s2 & Hs2 & Hm2 & Hh2 & _).
  rewrite Hs2 in *. simpl in Hlog, Hcfg, Hh2, Hm2.
  destruct (update_history_list_store [] s2)
    as (s3 & Hu & Hm3 & Hh3 & _ & Hc3 & Hl3).
  rewrite Hu. exists s3. split; [done|].
  assert (Hm1 : max_history s1 = max_history s) by apply H1.
  split; [congruence|]. split; [congruence|].
  split; [rewrite Hl3, Hlog; apply list_elem_of_here|].
  split; [intros Hok; rewrite Hc3; by apply Hcfg|].
  assert (Hs3 : s3 = exec (update_history_list []) s2)
    by (unfold exec; by rewrite Hu).
  rewrite Hs3. by rewrite update_history_list_idem.
Qed.

Lemma click_same_store row s : same_store s (exec (click row) s).
Proof.
  unfold exec, click. case_decide; [|apply same_store_refl].
  apply (select_item_same_store (Z.of_nat row) s).
Qed.

Lemma double_click_frame env t row s :
  let s' := exec (double_click env t row) s in
  same_store s s' /\ view s' = view s.
Proof.
  unfold exec, double_click. simpl. case_decide.
  - apply (insert_selected_by_index_frame env t (Z.of_nat row) s).
  - split; [apply same_store_refl|done].
Qed.

Lemma on_window_close_frame s :
  let s' := exec on_window_close s in
  same_store s s' /\ view s' = view s.
Proof.
  unfold exec, on_window_close.
  destruct (window_open s); simpl; by repeat split.
Qed.

Lemma window_only_same_store (f : ClipboardHistory -> ClipboardHistory) s :
  (forall s, same_store s (f s)) -> same_store s (exec (modify f) s).
Proof. intros Hf. apply Hf. Qed.

Lemma step_cases env a s :
  exec (step env a) s = s \/ exec (step env a) s = exec (handle env a) s.
Proof.
  unfold exec, step.
  destruct (window_event a && negb (window_open s)); [by left|by right].
Qed.

(** The deque after one action: as before, with one typed entry appended,
    with one of its entries removed, or empty. *)
Lemma step_history env a s :
  let s' := exec (step env a) s in
  max_history s' = max_history s /\
  (history s' = history s \/
   (exists e, is_Some (e !! "type") /\
      history s' = deque_append (max_history s) (history s) e) \/
   (exists e, e ∈ history s /\ deque_remove e (history s) = Ok (history s')) \/
   history s' = []).
Proof.
  simpl.
  assert (Hsame : forall s', same_store s s' ->
            max_history s' = max_history s /\
            (history s' = history s \/
             (exists e, is_Some (e !! "type") /\
                history s' = deque_append (max_history s) (history s) e) \/
             (exists e, e ∈ history s /\
                deque_remove e (history s) = Ok (history s')) \/
             history s' = [])).
  { intros s' (Hm & Hh & _). split; [done|by left]. }
  destruct (step_cases env a s) as [Heq|Heq]; rewrite Heq;
    [apply Hsame, same_store_refl|]. clear Heq.
  destruct a as [text img|t|q|d|row|t row|t| | | |]; simpl.
  - destruct (add_to_history_history env text img s) as [Hm _].
    simpl in Hm. split; [done|].
    destruct (add_to_history_cases env text img s)
      as [H|[(t & _ & _ & H)|(d & pp & _ & _ & H)]]; simpl in H.
    + by left.
    + right; left. eexists. split; [|exact H]. by rewrite text_entry_type.
    + right; left. eexists. split; [|exact H]. by rewrite image_entry_type.
  - apply Hsame, show_history_window_same_store.
  - apply Hsame, update_history_list_same_store.
  - apply Hsame, navigate_list_same_store.
  - apply Hsame, click_same_store.
  - apply Hsame, double_click_frame.
  - apply Hsame, insert_selected_frame.
  - unfold exec.
    destruct (delete_selected_cases env s) as (s' & -> & Hm & [-> |Hrem]).
    + split; [done|by left].
    + destruct Hrem as (e & Hin & Hrem & _). split; [done|].
      right; right; left. by exists e.
  - unfold exec.
    destruct (clear_history_full env s) as (s' & -> & Hm & Hh & _).
    split; [done|]. by right; right; right.
  - apply Hsame, on_window_close_frame.
  - apply Hsame. by repeat split.
Qed.

Lemma deque_remove_Forall `{EqDecision A} (P : A -> Prop) (v : A) (d d' : list A) :
  deque_remove v d = Ok d' -> Forall P d -> Forall P d'.
Proof.
  revert d'. induction d as [|x d IH]; intros d' Hr Hd; [done|].
  simpl in Hr. apply Forall_cons in Hd as [Hx Hd].
  destruct (decide (x = v)); [by simplify_eq|].
  destruct (deque_remove v d) as [d''|]; [|done]. simplify_eq.
  apply Forall_cons. split; [done|]. by apply IH.
Qed.

Lemma deque_append_Forall {A} (P : A -> Prop) maxlen (d : list A) (x : A) :
  Forall P d -> P x -> Forall P (deque_append maxlen d x).
Proof.
  intros Hd Hx. unfold deque_append.
  assert (Forall P (d ++ [x])) by (apply Forall_app; split; [done|by constructor]).
  case_decide; [by apply Forall_tail|done].
Qed.

Lemma run_session_snoc l ea s :
  run_session (l ++ [ea]) s = exec (step (fst ea) (snd ea)) (run_session l s).
Proof. unfold run_session. by rewrite fold_left_app. Qed.

(** An invariant of the actions holds after every session. *)
Lemma run_session_invariant (P : ClipboardHistory -> Prop) l s :
  (forall env a s, P s -> P (exec (step env a) s)) ->
  P s -> P (run_session l s).
Proof.
  intros Hstep. revert s. induction l as [|ea l IH]; intros s Hs; [done|].
  simpl. apply IH. by apply Hstep.
Qed.

Lemma step_capacity env a s :
  length (history s) <= max_history s ->
  length (history (exec (step env a) s)) <= max_history (exec (step env a) s).
Proof.
  intros Hc. destruct (step_history env a s) as [Hm Hh]. simpl in Hm, Hh.
  rewrite Hm.
  destruct Hh as [-> |[(e & _ & ->)|[(e & Hin & Hr)| ->]]].
  - done.
  - by apply deque_append_length.
  - destruct (deque_remove_elem e (history s) Hin) as (d' & Hr' & Hlen).
    rewrite Hr in Hr'. simplify_eq. lia.
  - simpl. lia.
Qed.

(** X4: the capacity bound survives every action, not only appends: after
    [__init__] and any sequence of watcher appends, window openings,
    searches, key presses, clicks, commits, deletions and clearings, the
    capacity is the one given at start and the deque holds at most that
    many entries. *)
Theorem X4_session_capacity (max : nat) (clear : bool) (disk : file)
    (fs : gmap (list N) (list Byte.byte)) (env0 : Env)
    (l : list (Env * action)) :
  let s := run_session l (init max clear disk fs env0) in
  max_history s = max /\ length (history s) <= max.
Proof.
  simpl.
  apply (run_session_invariant
           (fun s => max_history s = max /\ length (history s) <= max)).
  - intros env a s [Hm Hl].
    destruct (step_history env a s) as [Hm' _]. simpl in Hm'.
    split; [congruence|]. rewrite <- Hm, <- Hm'.
    apply step_capacity. by rewrite Hm.
  - apply init_capacity.
Qed.

Lemma typed_default_type l : typed (map default_type l).
Proof.
  unfold typed. apply Forall_map, Forall_forall. intros e _.
  unfold default_type. destruct (e !! "type") eqn:Ht; simpl.
  - by rewrite Ht.
  - by rewrite lookup_insert_eq.
Qed.

Lemma init_typed max clear disk fs env :
  typed (history (init max clear disk fs env)).
Proof.
  unfold init, exec. unfold io_bind.
  set (s0 := Build_ClipboardHistory _ _ _ _ _ _ _ _ _ _).
  assert (Hl : typed (history (load_history s0).2)).
  { unfold load_history, json_load, try_except, io_bind, io_ret, modify.
    destruct disk as [| |[h|] lu]; simpl; try by constructor.
    rewrite deque_of_list_drop. apply Forall_drop, typed_default_type. }
  destruct (load_history s0) as [[[]|x] s1]; simpl in *; [|done].
  destruct clear; [|done].
  destruct (clear_history_ok env s1) as (s2 & -> & _ & Hh). simpl.
  rewrite Hh. constructor.
Qed.

(** X5: no action makes a record without a [type] field.  If every
    entry of the history has one, so has every entry after any session:
    the readers of [type] in the filter, the commit and the deletion then
    never meet a record without it.  An object created on a durable file
    that is missing, unreadable, or a document of records in the format
    [save_history] writes starts in such a state, a record without [type]
    getting [text] at load. *)
Theorem X5_session_typed (l : list (Env * action)) (s : ClipboardHistory)
    (Htyped : Forall (fun e => is_Some (e !! "type")) (history s)) :
  Forall (fun e => is_Some (e !! "type")) (history (run_session l s)) /\
  forall max clear disk fs env0,
    Forall (fun e => is_Some (e !! "type"))
      (history (run_session l (init max clear disk fs env0))).
Proof.
  assert (Hinv : forall s0, typed (history s0) ->
            typed (history (run_session l s0))).
  { intros s0. apply (run_session_invariant (fun s => typed (history s))).
    intros env a s1 Ht.
    destruct (step_history env a s1) as [_ Hh]. simpl in Hh.
    destruct Hh as [-> |[(e & He & ->)|[(e & Hin & Hr)| ->]]].
    + done.
    + by apply deque_append_Forall.
    + by apply (deque_remove_Forall _ e (history s1)).
    + constructor. }
  split; [by apply Hinv|].
  intros max clear disk fs env0. apply Hinv, init_typed.
Qed.

(** *** The durable file follows the history *)

Lemma in_sync_same_store s s' : same_store s s' -> in_sync s -> in_sync s'.
Proof.
  intros (_ & Hh & Hc & _) [lu Hs]. exists lu. by rewrite Hc, Hh.
Qed.

(** With a save that succeeds, [add_to_history] either leaves the history
    and the file alone or writes the new history. *)
Lemma add_to_history_sync env text image_data s :
  save_result env = SaveOk ->
  let s' := exec (add_to_history env text image_data) s in
  (history s' = history s /\ config_file s' = config_file s) \/
  config_file s' = Json (Some (history s')) (Some (now_save env)).
Proof.
  intros Hok. cbv zeta.
  assert (Htext : forall t,
    let s' := exec (add_to_history env (Some t) None) s in
    (history s' = history s /\ config_file s' = config_file s) \/
    config_file s' = Json (Some (history s')) (Some (now_save env))).
  { intros t. cbv zeta. rewrite add_text_exec.
    destruct t as [|c t]; [by left|]. destruct (strip (c :: t)); [by left|].
    destruct (last_is_text (c :: t) (history s)); [by left|]. right.
    rewrite save_history_config by done.
    by destruct (save_history_history env
      (set_history (deque_append (max_history s) (history s)
         (text_entry (c :: t) (now_entry env))) s)) as [-> _]. }
  destruct image_data as [[|b d]|].
  - rewrite add_empty_image. destruct text as [t|]; [apply Htext|by left].
  - io_unfold. simpl. rewrite Hok.
    repeat (case_match; simpl in *; simplify_eq); eauto.
  - destruct text as [t|]; [apply Htext|by left].
Qed.

Lemma step_sync env a s :
  save_result env = SaveOk -> in_sync s -> in_sync (exec (step env a) s).
Proof.
  intros Hok Hs.
  destruct (step_cases env a s) as [Heq|Heq]; rewrite Heq; [done|]. clear Heq.
  destruct a as [text img|t|q|d|row|t row|t| | | |]; simpl.
  - destruct (add_to_history_sync env text img s Hok) as [[Hh Hc]|Hc];
      simpl in *.
    + destruct Hs as [lu Hs]. exists lu. by rewrite Hc, Hh.
    + by eexists.
  - apply (in_sync_same_store s); [apply show_history_window_same_store|done].
  - apply (in_sync_same_store s); [apply update_history_list_same_store|done].
  - apply (in_sync_same_store s); [apply navigate_list_same_store|done].
  - apply (in_sync_same_store s); [apply click_same_store|done].
  - apply (in_sync_same_store s); [apply double_click_frame|done].
  - apply (in_sync_same_store s); [apply insert_selected_frame|done].
  - unfold exec.
    destruct (delete_selected_cases env s) as (s' & -> & _ & [-> |Hrem]);
      [done|].
    destruct Hrem as (e & _ & _ & _ & Hc & _). simpl. eexists. by apply Hc.
  - unfold exec.
    destruct (clear_history_full env s) as (s' & -> & _ & Hh & _ & Hc & _).
    simpl. eexists. rewrite Hh. by apply Hc.
  - apply (in_sync_same_store s); [apply on_window_close_frame|done].
  - apply (in_sync_same_store s); [by repeat split|done].
Qed.

(** X6: as long as every save succeeds, the durable file holds exactly
    the history in memory after every action: this is kept by every
    session, and it holds from the start when the object is created with
    [clear_on_startup=True] (as [main] does). *)
Theorem X6_session_in_sync (max : nat) (disk : file)
    (fs : gmap (list N) (list Byte.byte)) (env0 : Env)
    (l : list (Env * action)) (s : ClipboardHistory)
    (Hsaves : Forall (fun ea => save_result (fst ea) = SaveOk) l)
    (Hsave0 : save_result env0 = SaveOk) :
  (in_sync s -> in_sync (run_session l s)) /\
  in_sync (run_session l (init max true disk fs env0)).
Proof.
  assert (Hrun : forall s, in_sync s -> in_sync (run_session l s)).
  { clear s. induction Hsaves as [|ea l Hea _ IH]; intros s Hs; [done|].
    simpl. apply IH. by apply step_sync. }
  split; [apply Hrun|]. apply Hrun.
  unfold init, exec. unfold io_bind.
  match goal with |- context [load_history ?s0] =>
    destruct (load_history s0) as [[[]|x] s1] eqn:Hl end; simpl.
  - destruct (clear_history_full env0 s1) as (s2 & -> & _ & Hh & _ & Hc & _).
    simpl. eexists. rewrite Hh. by apply Hc.
  - exfalso. revert Hl.
    unfold load_history, json_load, try_except, io_bind, io_ret, modify.
    repeat (case_match; simpl in *; simplify_eq); done.
Qed.

(** *** The view *)

Lemma cursor_ok_view s s' : view s' = view s -> cursor_ok s -> cursor_ok s'.
Proof. unfold cursor_ok, rows, cursor. by intros ->. Qed.

Lemma view_consistent_view s s' :
  view s' = view s -> view_consistent s -> view_consistent s'.
Proof. unfold view_consistent. by intros ->. Qed.

Lemma update_history_list_consistent q s :
  view_consistent (exec (update_history_list q) s).
Proof.
  unfold view_consistent.
  destruct (view s) as [v|] eqn:Hv.
  - by destruct (update_history_list_view q s v Hv) as (v' & -> & _ & _ & ? & _).
  - unfold exec, update_history_list. rewrite Hv. simpl. by rewrite Hv.
Qed.

Lemma select_item_view i s v e l :
  view s = Some v -> history_items v = e :: l ->
  view (exec (select_item i) s)
  = Some {| current_filter := current_filter v;
            filtered_history := filtered_history v;
            history_items := history_items v;
            selected_index := Some i |}.
Proof. intros Hv Hit. unfold exec, select_item. by rewrite Hv, Hit. Qed.

Lemma select_item_inv i s :
  (0 <= i < Z.of_nat (length (rows s)))%Z ->
  view_consistent s ->
  cursor_ok (exec (select_item i) s) /\ view_consistent (exec (select_item i) s).
Proof.
  intros Hi Hc. unfold cursor_ok, view_consistent, rows, cursor in *.
  destruct (view s) as [v|] eqn:Hv; [|simpl in Hi; lia].
  destruct (history_items v) as [|e l] eqn:Hit; [simpl in Hi; lia|].
  rewrite (select_item_view i s v e l Hv Hit). simpl. rewrite Hit.
  split; [intros _; exists i; by split|].
  first [done | by rewrite <- Hit | by rewrite Hit in Hc].
Qed.

Lemma navigate_list_inv d s :
  cursor_ok s -> view_consistent s ->
  cursor_ok (exec (navigate_list d) s) /\
  view_consistent (exec (navigate_list d) s).
Proof.
  intros Hok Hc.
  destruct (view s) as [v|] eqn:Hv.
  2: { unfold exec, navigate_list. rewrite Hv. by split. }
  destruct (history_items v) as [|e l] eqn:Hit.
  { unfold exec, navigate_list. rewrite Hv, Hit. by split. }
  destruct Hok as (i & Hsel & Hi); [unfold rows; by rewrite Hv, Hit|].
  unfold cursor in Hsel. rewrite Hv in Hsel.
  unfold rows in Hi. rewrite Hv, Hit in Hi.
  unfold exec. rewrite (navigate_list_rows d s v e l i Hv Hit Hsel).
  set (i' := Z.max 0 (Z.min (Z.of_nat (length (e :: l)) - 1) (i + d))).
  destruct (i' =? i)%Z; simpl.
  - split; [|done]. intros _. exists i. unfold cursor, rows.
    rewrite Hv, Hit. by split.
  - unfold cursor_ok, view_consistent, rows, cursor. simpl. rewrite Hit.
    split.
    + intros _. exists i'. split; [done|]. unfold i'. simpl length in *. lia.
    + unfold view_consistent in Hc. rewrite Hv in Hc. by rewrite <- Hit.
Qed.

Lemma show_history_window_inv t s :
  cursor_ok (exec (show_history_window t) s) /\
  view_consistent (exec (show_history_window t) s).
Proof.
  unfold exec, show_history_window, create_history_ui, io_bind, modify.
  destruct (window_open s).
  - pose proof (update_history_list_cursor_ok (get_current_filter s) s) as H1.
    pose proof (update_history_list_consistent (get_current_filter s) s) as H2.
    unfold exec in H1, H2.
    destruct (update_history_list (get_current_filter s) s) as [[[]|x] s1];
      simpl in *; by split.
  - match goal with |- context [update_history_list [] ?s1] =>
      pose proof (update_history_list_cursor_ok [] s1) as H1;
      pose proof (update_history_list_consistent [] s1) as H2 end.
    by split.
Qed.

Lemma step_view env a s :
  cursor_ok s /\ view_consistent s ->
  cursor_ok (exec (step env a) s) /\ view_consistent (exec (step env a) s).
Proof.
  intros [Hok Hc].
  assert (Hframe : forall s', view s' = view s ->
            cursor_ok s' /\ view_consistent s').
  { intros s' Hv. split; [by apply (cursor_ok_view s)|
                          by apply (view_consistent_view s)]. }
  destruct (step_cases env a s) as [Heq|Heq]; rewrite Heq; [done|]. clear Heq.
  destruct a as [text img|t|q|d|row|t row|t| | | |]; simpl.
  - apply Hframe. unfold exec.
    by destruct (add_to_history_frame env text img s)
      as (s' & -> & _ & _ & _ & _ & _ & ?).
  - apply show_history_window_inv.
  - split; [apply update_history_list_cursor_ok|
            apply update_history_list_consistent].
  - by apply navigate_list_inv.
  - unfold exec, click. case_decide; [|by split].
    apply (select_item_inv (Z.of_nat row) s); [lia|done].
  - apply Hframe, double_click_frame.
  - apply Hframe, insert_selected_frame.
  - unfold exec.
    destruct (delete_selected_cases env s) as (s' & -> & _ & [-> |Hrem]);
      [by split|].
    destruct Hrem as (e & _ & _ & _ & _ & Hs'). simpl. rewrite Hs'.
    split; [apply update_history_list_cursor_ok|
            apply update_history_list_consistent].
  - unfold exec.
    destruct (clear_history_full env s) as (s' & -> & _ & _ & _ & _ & Hs').
    simpl. rewrite Hs'.
    split; [apply update_history_list_cursor_ok|
            apply update_history_list_consistent].
  - apply Hframe, on_window_close_frame.
  - by apply Hframe.
Qed.

Lemma init_view max clear disk fs env :
  view (init max clear disk fs env) = None.
Proof.
  unfold init, exec. unfold io_bind.
  set (s0 := Build_ClipboardHistory _ _ _ _ _ _ _ _ _ _).
  assert (Hl : view (load_history s0).2 = None).
  { unfold load_history, json_load, try_except, io_bind, io_ret, modify.
    destruct disk as [| |[h|] lu]; done. }
  destruct (load_history s0) as [[[]|x] s1]; simpl in *; [|done].
  destruct clear; [|done].
  unfold clear_history. unfold io_bind at 1.
  destruct (for_each_remove_ok env (history s1) s1) as (s2 & -> & H2).
  unfold io_bind at 1, modify at 1. unfold io_bind.
  destruct (save_history_ok env (set_history [] s2)) as (s3 & -> & _ & _ & Hv3 & _).
  assert (Hv2 : view s2 = None) by (destruct H2 as (_&_&_&_&_&_&_&->); done).
  unfold update_history_list. simpl in Hv3. rewrite Hv3, Hv2. simpl.
  by rewrite Hv3.
Qed.

(** X7: every action keeps the view coherent.  If the rows are the
    filtered entries most recent first and, when there are rows, the
    cursor is on one of them, then this is so after any session; hence the
    entry a commit or a deletion takes for row [i],
    [filtered_history[-(i + 1)]], is the entry that row shows.  An object
    that has built no view yet (any object just created) is coherent. *)
Theorem X7_session_view (l : list (Env * action)) (s : ClipboardHistory)
    (Hcursor : cursor_ok s) (Hcons : view_consistent s) :
  let s' := run_session l s in
  cursor_ok s' /\ view_consistent s' /\
  (forall i, i < length (rows s') ->
     from_newest (get_filtered_history s') (Z.of_nat i) = rows s' !! i /\
     in_range (Z.of_nat i) (get_filtered_history s') = true) /\
  (forall s0, view s0 = None -> cursor_ok s0 /\ view_consistent s0).
Proof.
  simpl.
  assert (Hnone : forall s0, view s0 = None ->
            cursor_ok s0 /\ view_consistent s0).
  { intros s0 Hv. unfold cursor_ok, view_consistent, rows, cursor.
    rewrite Hv. by split. }
  assert (Hinv : cursor_ok (run_session l s) /\
                 view_consistent (run_session l s)).
  { apply (run_session_invariant (fun s => cursor_ok s /\ view_consistent s)).
    - intros env a s1. apply step_view.
    - by split. }
  destruct Hinv as [Hok Hc]. split; [done|]. split; [done|].
  split; [|exact Hnone].
  intros i Hi. unfold view_consistent, rows, get_filtered_history in *.
  destruct (view (run_session l s)) as [v|];
    [|simpl in Hi; lia].
  rewrite Hc in *. rewrite length_reverse in Hi.
  unfold from_newest, in_range. rewrite Nat2Z.id. split.
  - rewrite reverse_lookup by done. f_equal. lia.
  - apply andb_true_iff. split; [apply Z.leb_le|apply Z.ltb_lt]; lia.
Qed.

(** *** Neighbours in the history *)

Lemma adjacent_distinct_tail l : adjacent_distinct l -> adjacent_distinct (tail l).
Proof. destruct l as [|a [|b l]]; simpl; [done..|]. by intros [_ ?]. Qed.

Lemma adjacent_distinct_snoc l e :
  adjacent_distinct l ->
  (forall x, last l = Some x -> value_equal x e = false) ->
  adjacent_distinct (l ++ [e]).
Proof.
  induction l as [|a l IH]; intros Hl Hlast; [done|].
  destruct l as [|b l].
  - simpl. split; [|done]. by apply Hlast.
  - destruct Hl as [Hab Hl]. split; [done|]. apply IH; [done|].
    intros x Hx. by apply Hlast.
Qed.

Lemma adjacent_distinct_append maxlen l e :
  adjacent_distinct l ->
  (forall x, last l = Some x -> value_equal x e = false) ->
  adjacent_distinct (deque_append maxlen l e).
Proof.
  intros Hl Hlast. unfold deque_append.
  pose proof (adjacent_distinct_snoc l e Hl Hlast).
  case_decide; [by apply adjacent_distinct_tail|done].
Qed.

Lemma value_equal_text t now h x :
  last_is_text t h = false -> last h = Some x ->
  value_equal x (text_entry t now) = false.
Proof.
  unfold last_is_text, value_equal. intros H Hl. rewrite Hl in H.
  rewrite text_entry_type, text_entry_text.
  rewrite (bool_decide_eq_true_2 (Some (str "text") = Some (str "text"))) by done.
  rewrite (bool_decide_eq_false_2 (Some (str "text") = Some (str "image"))) by done.
  rewrite andb_true_r, andb_false_r, andb_false_l, orb_false_r. done.
Qed.

Lemma value_equal_image ip pp hash now h x :
  last_is_image hash h = false -> last h = Some x ->
  value_equal x (image_entry ip pp hash now) = false.
Proof.
  unfold last_is_image, value_equal. intros H Hl. rewrite Hl in H.
  rewrite image_entry_type, image_entry_hash.
  rewrite (bool_decide_eq_true_2 (Some (str "image") = Some (str "image"))) by done.
  rewrite (bool_decide_eq_false_2 (Some (str "image") = Some (str "text"))) by done.
  rewrite andb_true_r, andb_false_r, andb_false_l, orb_false_l. done.
Qed.

Lemma add_to_history_adjacent env text image_data s :
  adjacent_distinct (history s) ->
  adjacent_distinct (history (exec (add_to_history env text image_data) s)).
Proof.
  intros Hs.
  destruct (add_to_history_cases env text image_data s)
    as [H|[(t & _ & Hd & H)|(d & pp & _ & Hd & H)]]; simpl in H; rewrite H.
  - done.
  - apply adjacent_distinct_append; [done|].
    intros x Hx. by apply (value_equal_text t _ (history s)).
  - apply adjacent_distinct_append; [done|].
    intros x Hx. by apply (value_equal_image _ _ _ _ (history s)).
Qed.

(** X8: appends never put two value-equal entries side by side: if no
    entry of the history is value-equal (both texts with the same text, or
    both images with the same hash) to the entry before it, this is still
    so after any sequence of [add_to_history] calls, evictions included;
    it holds in particular for every history built by appends on an empty
    start. *)
Theorem X8_appends_adjacent_distinct (ops : list append_op)
    (s : ClipboardHistory) (max : nat) (clear : bool)
    (fs : gmap (list N) (list Byte.byte)) (env0 : Env)
    (Hstart : adjacent_distinct (history s)) :
  adjacent_distinct (history (run_appends ops s)) /\
  adjacent_distinct
    (history (run_appends ops (init max clear NoFile fs env0))).
Proof.
  assert (Hrun : forall s, adjacent_distinct (history s) ->
                   adjacent_distinct (history (run_appends ops s))).
  { clear. induction ops as [|[[env text] img] ops IH]; intros s Hs; [done|].
    simpl. apply IH. by apply add_to_history_adjacent. }
  split; [by apply Hrun|]. apply Hrun.
  by destruct (init_nofile max clear fs env0) as [-> _].
Qed.

(** *** Storing an image *)

(** The image branch when the store goes through. *)
Lemma add_image_stored (env : Env) (data : list Byte.byte)
    (s : ClipboardHistory)
    (Hdata : data <> []) (Hmax : 0 < max_history s)
    (HPIL : PIL_AVAILABLE env = true)
    (Hwrite : write_ok env (blob_path data) = true)
    (Hnew : last_is_image (md5 data) (history s) = false) :
  let s' := exec (add_to_history env None (Some data)) s in
  exists pp,
    last (history s')
    = Some (image_entry (blob_path data) pp (md5 data) (now_entry env)) /\
    files s' !! blob_path data = Some data /\
    is_Some (files s' !! pp) /\
    match thumbnail data with
    | Ok img =>
        if write_ok env (thumb_path data)
        then pp = thumb_path data /\ files s' !! thumb_path data = Some img
        else pp = blob_path data
    | Raise _ => pp = blob_path data
    end.
Proof.
  destruct (add_image_written env data s Hdata HPIL Hwrite Hnew)
    as (pp & Hh & Hrest).
  exists pp. split; [|exact Hrest].
  rewrite Hh. apply last_deque_append. by left.
Qed.


(** X9: when PIL is there, the blob can be written and the last entry is
    not this image, [add_to_history] stores the bytes under
    [<hash>.png], where they can be read back unchanged, and appends an
    image entry for them whose preview file exists.  The preview is
    [<hash>_preview.png] with the thumbnail when the thumbnailer and the
    write succeed; when either fails the entry is created all the same,
    with the image itself as preview. *)
Theorem X9_image_store (env : Env) (data : list Byte.byte)
    (s : ClipboardHistory)
    (Hdata : data <> []) (Hmax : 0 < max_history s)
    (HPIL : PIL_AVAILABLE env = true)
    (Hwrite : write_ok env (blob_path data) = true)
    (Hnew : last_is_image (md5 data) (history s) = false) :
  let s' := exec (add_to_history env None (Some data)) s in
  exists pp,
    last (history s')
    = Some (image_entry (blob_path data) pp (md5 data) (now_entry env)) /\
    files s' !! blob_path data = Some data /\
    is_Some (files s' !! pp) /\
    match thumbnail data with
    | Ok img =>
        if write_ok env (thumb_path data)
        then pp = thumb_path data /\ files s' !! thumb_path data = Some img
        else pp = blob_path data
    | Raise _ => pp = blob_path data
    end.
Proof. by apply add_image_stored. Qed.

(** *** Clearing *)

Lemma remove_image_files_None env e s p :
  files s !! p = None ->
  files (exec (remove_image_files env e) s) !! p = None.
Proof.
  intros Hp. unfold exec, remove_image_files, os_remove, try_except, io_bind,
    io_ret.
  repeat (case_match; simpl in *; simplify_eq); simpl; try done;
    rewrite ?lookup_delete; repeat case_decide; done.
Qed.

Lemma remove_image_files_removes env e s p :
  (forall q, remove_ok env q = true) ->
  e !! "type" = Some (str "image") ->
  (e !! "image_path" = Some p \/ e !! "preview_path" = Some p) ->
  p <> [] ->
  files (exec (remove_image_files env e) s) !! p = None.
Proof.
  intros Hrm Ht Hp Hne.
  assert (Hstep : forall (c : bool) q s0, exists s1,
            (if c then try_except (os_remove env q) (fun _ => io_ret tt) s0
             else (Ok tt, s0)) = (Ok tt, s1) /\
            (forall p, files s0 !! p = None -> files s1 !! p = None) /\
            (c = true -> files s1 !! q = None)).
  { intros c q s0. destruct c; [|by eexists].
    unfold try_except, os_remove, io_ret, path_exists. rewrite Hrm. simpl.
    destruct (bool_decide (is_Some (files s0 !! q))) eqn:Hex; simpl.
    - eexists. split; [done|]. simpl. split.
      + intros p0 Hp0. rewrite lookup_delete. by case_decide.
      + intros _. apply lookup_delete_eq.
    - eexists. split; [done|]. simpl. split; [done|]. intros _.
      apply bool_decide_eq_false in Hex.
      destruct (files s0 !! q) eqn:Hq; [|done]. exfalso. apply Hex. eauto. }
  destruct p as [|c0 p0]; [done|]. set (p := c0 :: p0) in *.
  assert (Htruthy : truthy (Some p) = true) by done.
  unfold exec, remove_image_files. rewrite Ht, bool_decide_eq_true_2 by done.
  unfold io_bind.
  match goal with |- context [if ?c then try_except (os_remove env ?q) _ s
                              else _] =>
    destruct (Hstep c q s) as (s1 & Hs1 & Hn1 & Hr1);
    assert (Hc1 : e !! "image_path" = Some p -> files s1 !! p = None) end.
  { intros Hip. destruct (files s !! p) eqn:Hfile; [|by apply Hn1].
    rewrite Hip in Hr1. apply Hr1.
    rewrite Htruthy. unfold path_exists. simpl default.
    rewrite Hfile, bool_decide_eq_true_2 by eauto. done. }
  rewrite Hs1. cbv beta iota.
  match goal with |- context [if ?c then try_except (os_remove env ?q) _ s1
                              else _] =>
    destruct (Hstep c q s1) as (s2 & Hs2 & Hn2 & Hr2) end.
  rewrite Hs2. simpl.
  destruct Hp as [Hip|Hpp]; [by apply Hn2, Hc1|].
  destruct (files s1 !! p) eqn:Hfile1; [|by apply Hn2].
  rewrite Hpp in Hr2. apply Hr2.
  rewrite Htruthy. unfold path_exists. simpl default.
  rewrite Hfile1, bool_decide_eq_true_2 by eauto. simpl.
  apply negb_true_iff, bool_decide_eq_false. intros Heq.
  by specialize (Hc1 (eq_sym Heq)).
Qed.

Lemma for_each_remove_None env l s p :
  files s !! p = None ->
  files (exec (for_each l (remove_image_files env)) s) !! p = None.
Proof.
  revert s. induction l as [|e l IH]; intros s Hp; [done|].
  unfold exec in *. simpl. unfold io_bind.
  pose proof (remove_image_files_None env e s p Hp) as H1. unfold exec in H1.
  destruct (remove_image_files_ok env e s) as (s1 & Hs1 & _).
  rewrite Hs1 in *. simpl in H1. by apply IH.
Qed.

Lemma for_each_remove_removes env l s e p :
  (forall q, remove_ok env q = true) ->
  e ∈ l -> e !! "type" = Some (str "image") ->
  (e !! "image_path" = Some p \/ e !! "preview_path" = Some p) ->
  p <> [] ->
  files (exec (for_each l (remove_image_files env)) s) !! p = None.
Proof.
  intros Hrm Hin Ht Hp Hne. revert s.
  induction l as [|x l IH]; intros s; [by apply elem_of_nil in Hin|].
  unfold exec in *. simpl. unfold io_bind.
  destruct (remove_image_files_ok env x s) as (s1 & Hs1 & _).
  apply elem_of_cons in Hin as [->|Hin].
  - pose proof (remove_image_files_removes env x s p Hrm Ht Hp Hne) as H1.
    unfold exec in H1. rewrite Hs1 in *. simpl in H1.
    by apply (for_each_remove_None env l s1 p).
  - rewrite Hs1. by apply IH.
Qed.

(** X10: called while the window exists (the button) or before any window
    was built ([__init__]), [clear_history] returns normally; it leaves an
    empty history, writes it to the durable file, and refreshes an
    existing view to no rows, no cursor and the empty query.  When the OS lets every file be removed,
    no blob and no preview named by an image entry of the old history is
    left on disk. *)
Theorem X10_clear_history (env : Env) (s : ClipboardHistory)
    (Hwindow : window_open s = true \/ view s = None) :
  let s' := exec (clear_history env) s in
  clear_history env s = (Ok tt, s') /\
  history s' = [] /\ rows s' = [] /\ cursor s' = None /\
  get_current_filter s' = [] /\
  EvSaveHistory ∈ log s' /\
  (save_result env = SaveOk ->
   config_file s' = Json (Some []) (Some (now_save env))) /\
  ((forall q, remove_ok env q = true) ->
   forall e p, e ∈ history s -> e !! "type" = Some (str "image") ->
     (e !! "image_path" = Some p \/ e !! "preview_path" = Some p) ->
     p <> [] -> files s' !! p = None).
Proof.
  simpl. unfold exec at 1 2 3 4 5 6 7.
  destruct (clear_history_full env s) as (s' & Hs & _ & Hh & Hlog & Hc & Hu).
  rewrite Hs. simpl. split; [done|]. split; [done|].
  assert (Hview : rows s' = [] /\ cursor s' = None /\ get_current_filter s' = []).
  { rewrite Hu. unfold rows, cursor, get_current_filter.
    destruct (view s') as [v|] eqn:Hv.
    - destruct (update_history_list_view [] s' v Hv)
        as (v' & -> & Hq & Hf & Hi & Hsel).
      rewrite Hsel, Hi, Hf, Hh. done.
    - unfold exec, update_history_list. rewrite Hv. simpl. by rewrite Hv. }
  destruct Hview as (? & ? & ?).
  split; [done|]. split; [done|]. split; [done|]. split; [done|].
  split; [done|].
  intros Hrm e p Hin Ht Hp Hne.
  pose proof (for_each_remove_removes env (history s) s e p Hrm Hin Ht Hp Hne)
    as Hfiles.
  unfold exec, clear_history in *. revert Hfiles. unfold io_bind at 1.
  destruct (for_each_remove_ok env (history s) s) as (s1 & -> & _).
  simpl. intros Hfiles. unfold io_bind at 1, modify at 1. unfold io_bind.
  destruct (save_history_ok env (set_history [] s1))
    as (s2 & -> & _ & _ & _ & Hf2).
  destruct (update_history_list_store [] s2) as (s3 & -> & _ & _ & Hf3 & _).
  simpl in *. by rewrite Hf3, Hf2.
Qed.

(** *** Deleting *)

Lemma deque_remove_split `{EqDecision A} (v : A) (d d' : list A) :
  deque_remove v d = Ok d' ->
  exists l1 l2, d = l1 ++ v :: l2 /\ (v ∉ l1) /\ d' = l1 ++ l2.
Proof.
  revert d'. induction d as [|x d IH]; intros d' Hr; [done|].
  simpl in Hr. destruct (decide (x = v)) as [->|Hne].
  - simplify_eq. exists [], d'. split; [done|]. split; [apply not_elem_of_nil|done].
  - destruct (deque_remove v d) as [d''|]; [|done]. simplify_eq.
    destruct (IH d'' eq_refl) as (l1 & l2 & -> & Hnot & ->).
    exists (x :: l1), l2. split; [done|]. split; [|done].
    intros Hin. apply elem_of_cons in Hin as [->|Hin]; done.
Qed.

(** X11: [delete_selected] returns normally whenever the window exists
    ([deque.remove] is guarded by the membership test), and it returns
    with nothing done at all, not even a save or a refresh, when there is
    no cursor, when the cursor is outside the filtered list, or when the
    entry of the row is no longer in the history (evicted or removed since
    the view was computed). *)
Theorem X11_delete_selected_noop (env : Env) (s : ClipboardHistory) :
  (window_open s = true -> exists s', delete_selected env s = (Ok tt, s')) /\
  (cursor s = None -> delete_selected env s = (Ok tt, s)) /\
  (forall i, cursor s = Some i ->
     in_range i (get_filtered_history s) = false ->
     delete_selected env s = (Ok tt, s)) /\
  (forall i e, cursor s = Some i ->
     from_newest (get_filtered_history s) i = Some e ->
     e ∉ history s ->
     delete_selected env s = (Ok tt, s)).
Proof.
  split.
  { intros _. destruct (delete_selected_cases env s) as (s' & Hs & _).
    by exists s'. }
  unfold cursor, get_filtered_history, delete_selected.
  destruct (view s) as [v|]; [|by repeat split].
  split; [by intros ->|]. split.
  - intros i -> Hr. by rewrite Hr.
  - intros i e -> Hf Hnot. rewrite Hf.
    destruct (in_range i (filtered_history v)); [|done].
    by rewrite bool_decide_eq_false_2.
Qed.

(** X12: in an open window with a coherent view, [delete_selected] with
    the cursor on row [i] whose entry is in the history returns normally
    and removes from the
    history the first entry equal to the entry of that row, the others
    staying in order; when the entries of the history are pairwise
    different this is the entry of the row and nothing else.  The history
    is then written, and the view is recomputed with the query that was
    active, the cursor back on the first row.  For an image entry the blob
    and the preview are gone from disk when the OS lets them be removed,
    whether or not another entry names the same files. *)
Theorem X12_delete_selected_row (env : Env) (s : ClipboardHistory)
    (i : nat) (e : gmap string (list N))
    (Hopen : window_open s = true)
    (Hcons : view_consistent s)
    (Hcursor : cursor s = Some (Z.of_nat i))
    (Hrow : rows s !! i = Some e)
    (Hin : e ∈ history s) :
  let s' := exec (delete_selected env) s in
  delete_selected env s = (Ok tt, s') /\
  (exists l1 l2, history s = l1 ++ e :: l2 /\ (e ∉ l1) /\
                 history s' = l1 ++ l2) /\
  (NoDup (history s) ->
   (e ∉ history s') /\
   forall x, x ∈ history s' <-> (x ∈ history s /\ x <> e)) /\
  EvSaveHistory ∈ log s' /\
  (save_result env = SaveOk ->
   config_file s' = Json (Some (history s')) (Some (now_save env))) /\
  get_current_filter s' = get_current_filter s /\
  s' = exec (update_history_list (get_current_filter s)) s' /\
  ((forall q, remove_ok env q = true) ->
   e !! "type" = Some (str "image") ->
   forall p, (e !! "image_path" = Some p \/ e !! "preview_path" = Some p) ->
     p <> [] -> files s' !! p = None).
Proof.
  simpl.
  assert (Hv : exists v, view s = Some v /\ selected_index v = Some (Z.of_nat i)
                 /\ in_range (Z.of_nat i) (filtered_history v) = true
                 /\ from_newest (filtered_history v) (Z.of_nat i) = Some e).
  { unfold cursor, rows, view_consistent in *.
    destruct (view s) as [v|]; [|done]. exists v. split; [done|].
    split; [done|]. rewrite Hcons in Hrow.
    assert (Hi : i < length (filtered_history v)).
    { apply lookup_lt_Some in Hrow. by rewrite length_reverse in Hrow. }
    rewrite reverse_lookup in Hrow by done.
    unfold in_range, from_newest. rewrite Nat2Z.id. split.
    - apply andb_true_iff. split; [apply Z.leb_le|apply Z.ltb_lt]; lia.
    - rewrite <- Hrow. f_equal. lia. }
  destruct Hv as (v & Hv & Hsel & Hr & Hf).
  destruct (deque_remove_elem e (history s) Hin) as (h' & Hrem & Hlen).
  assert (Hdel : exists s',
            delete_selected env s = (Ok tt, s') /\ history s' = h' /\
            EvSaveHistory ∈ log s' /\
            (save_result env = SaveOk ->
             config_file s' = Json (Some h') (Some (now_save env))) /\
            get_current_filter s' = get_current_filter s /\
            s' = exec (update_history_list (get_current_filter s)) s' /\
            forall p, files (exec (remove_image_files env e) s) !! p = None ->
                      files s' !! p = None).
  { unfold delete_selected.
    rewrite Hv, Hsel, Hr, Hf, bool_decide_eq_true_2 by done.
    unfold io_bind at 1. unfold exec.
    destruct (remove_image_files_ok env e s) as (s1 & -> & H1).
    unfold io_bind at 1.
    assert (Hh1 : history s1 = history s) by apply H1.
    assert (Hv1 : view s1 = view s) by apply H1.
    rewrite Hh1, Hrem. unfold io_bind.
    pose proof (save_history_log env (set_history h' s1)) as Hlog.
    pose proof (save_history_config env (set_history h' s1)) as Hcfg.
    unfold exec in Hlog, Hcfg.
    destruct (save_history_ok env (set_history h' s1))
      as (s2 & Hs2 & _ & Hh2 & Hv2 & Hf2).
    rewrite Hs2 in *. simpl in Hlog, Hcfg, Hh2, Hv2, Hf2.
    assert (Hq2 : get_current_filter s2 = get_current_filter s).
    { unfold get_current_filter. by rewrite Hv2, Hv1. }
    destruct (update_history_list_store (get_current_filter s2) s2)
      as (s3 & Hu & _ & Hh3 & Hf3 & Hc3 & Hl3).
    rewrite Hu. exists s3.
    assert (Hs3 : s3 = exec (update_history_list (get_current_filter s2)) s2)
      by (unfold exec; by rewrite Hu).
    assert (Hq3 : get_current_filter s3 = get_current_filter s2)
      by (rewrite Hs3; apply update_history_list_keeps_filter).
    split; [done|]. split; [congruence|].
    split; [rewrite Hl3, Hlog; apply list_elem_of_here|].
    split; [intros Hok; rewrite Hc3; by apply Hcfg|].
    split; [congruence|]. split.
    - rewrite <- Hq2. rewrite Hs3. symmetry.
      apply update_history_list_idem.
    - intros p Hp. simpl in Hp. by rewrite Hf3, Hf2. }
  destruct Hdel as (s' & Hs' & Hh' & Hlog & Hcfg & Hq & Hu & Hfiles).
  assert (Hex : exec (delete_selected env) s = s')
    by (unfold exec; by rewrite Hs').
  rewrite Hex.
  destruct (deque_remove_split e (history s) h' Hrem)
    as (l1 & l2 & Hl & Hnot & Hh2).
  split; [done|]. split; [exists l1, l2; by rewrite Hh'|].
  split.
  { intros Hnd. rewrite Hl in Hnd. apply NoDup_app in Hnd as (Hnd1 & Hdisj & Hnd2).
    apply NoDup_cons in Hnd2 as [Hnot2 Hnd2].
    rewrite Hh', Hh2, Hl. split.
    - rewrite elem_of_app. tauto.
    - intros x. rewrite !elem_of_app, elem_of_cons. split.
      + intros [Hx|Hx]; (split; [tauto|]); intros Heq; subst; tauto.
      + intros [[Hx|[Heq|Hx]] Hne]; tauto. }
  split; [done|]. split; [by rewrite Hh'|]. split; [done|].
  split; [done|].
  intros Hrm Ht p Hp Hne. apply Hfiles.
  by apply remove_image_files_removes.
Qed.

(** *** Commit *)

(** X13: a commit request returns with the object as it is (nothing
    copied, window still open, no paste thread) when the index is
    negative or beyond the filtered list, when the entry is a text entry
    whose text is missing or empty, and when the entry is an image entry
    whose file is missing from disk or whose bytes [xclip] refuses. *)
Theorem X13_commit_noop (env : Env) (now : Q) (index : Z)
    (s : ClipboardHistory) :
  (in_range index (get_filtered_history s) = false ->
   insert_selected_by_index env now index s = (Ok tt, s)) /\
  (forall e, from_newest (get_filtered_history s) index = Some e ->
     e !! "type" <> Some (str "image") -> get_str e "text" = [] ->
     insert_selected_by_index env now index s = (Ok tt, s)) /\
  (forall e, from_newest (get_filtered_history s) index = Some e ->
     e !! "type" = Some (str "image") ->
     (forall p, e !! "image_path" = Some p -> files s !! p = None) ->
     insert_selected_by_index env now index s = (Ok tt, s)) /\
  (forall e, from_newest (get_filtered_history s) index = Some e ->
     e !! "type" = Some (str "image") -> xclip_ok env = false ->
     insert_selected_by_index env now index s = (Ok tt, s)).
Proof.
  unfold insert_selected_by_index, copy_to_clipboard, close_and_paste,
    io_bind, io_ret, modify.
  destruct (guard_active now s); [by repeat split|].
  split; [by intros ->|].
  destruct (in_range index (get_filtered_history s)); [|by repeat split].
  split; [|split].
  - intros e -> Ht Htext. rewrite bool_decide_eq_false_2, Htext by done. done.
  - intros e -> Ht Hmissing. rewrite bool_decide_eq_true_2 by done.
    destruct (e !! "image_path") as [p|]; simpl; [|done].
    destruct p; [done|]. simpl. by rewrite Hmissing.
  - intros e -> Ht Hx. rewrite bool_decide_eq_true_2, Hx by done.
    repeat (case_match; simpl in *; simplify_eq); done.
Qed.





(** *** The watcher *)

Ltac wsimpl := cbn [fst snd app current_clipboard_image_hash monitoring].

Lemma monitor_tick_image env cb w d :
  new_image cb w = Some d ->
  monitor_tick env cb w
  = ({| app := exec (add_to_history env None (Some d))
                 (set_current_clipboard [] (app w));
        current_clipboard_image_hash := Some (md5 d);
        monitoring := monitoring w |}, (3 # 10)%Q).
Proof.
  intros Hn. unfold monitor_tick. fold (new_image cb w). rewrite Hn.
  unfold exec.
  by destruct (add_to_history_frame env None (Some d)
                 (set_current_clipboard [] (app w))) as (a & -> & _).
Qed.

Lemma monitor_tick_text env cb w t :
  new_image cb w = None -> paste cb = Ok t ->
  t <> current_clipboard (app w) -> recordable t = true ->
  monitor_tick env cb w
  = ({| app := exec (add_to_history env (Some t) None)
                 (set_current_clipboard t (app w));
        current_clipboard_image_hash := None;
        monitoring := monitoring w |}, (3 # 10)%Q).
Proof.
  intros Hn Hp Hne Hr. unfold monitor_tick. fold (new_image cb w).
  rewrite Hn, Hp, bool_decide_eq_true_2 by done.
  unfold recordable in Hr. destruct t as [|c t]; [done|].
  by destruct (strip (c :: t)).
Qed.

(** A poll that finds no new image and a text that is unreadable, the
    remembered one, or blank changes nothing. *)
Lemma monitor_tick_noop env cb w :
  new_image cb w = None ->
  (forall t, paste cb = Ok t ->
     t = current_clipboard (app w) \/ recordable t = false) ->
  monitor_tick env cb w = (w, (3 # 10)%Q).
Proof.
  intros Hn Hp. unfold monitor_tick. fold (new_image cb w). rewrite Hn.
  destruct (paste cb) as [t|x]; [|done].
  destruct (Hp t eq_refl) as [->|Hr].
  - by rewrite bool_decide_eq_false_2 by (by intros ?).
  - case_bool_decide; [|done]. unfold recordable in Hr.
    destruct t as [|c t]; [done|]. by destruct (strip (c :: t)).
Qed.

Lemma new_image_None_hash cb w d :
  check_clipboard_image cb = Some d ->
  current_clipboard_image_hash w = Some (md5 d) ->
  new_image cb w = None.
Proof.
  intros Hc Hh. unfold new_image. rewrite Hc, Hh.
  by rewrite bool_decide_eq_false_2 by (by intros ?).
Qed.

Lemma add_to_history_current_clipboard env text image_data s :
  current_clipboard (exec (add_to_history env text image_data) s)
  = current_clipboard s.
Proof.
  unfold exec.
  by destruct (add_to_history_frame env text image_data s)
    as (s' & -> & _ & ? & _).
Qed.

(** X24: the two ways the commit of a text row fails.  Outside the guard
    window, on a row with a text entry whose text is not empty: when
    [pyperclip.copy] raises, the exception leaves the method and the
    object is as before (window still open, nothing remembered, no paste
    thread); when the copy succeeds but the object has no window, the text
    is copied and remembered and [self.history_window.destroy()] then
    raises [AttributeError], before a paste thread is started. *)
Theorem X24_commit_text_raises (env : Env) (now : Q) (index : Z)
    (s : ClipboardHistory) (e : gmap string (list N)) (text : list N)
    (Hguard : guard_active now s = false)
    (Hrange : in_range index (get_filtered_history s) = true)
    (Hrow : from_newest (get_filtered_history s) index = Some e)
    (Htype : e !! "type" <> Some (str "image"))
    (Htext : e !! "text" = Some text) (Hne : text <> []) :
  (pyperclip_ok env = false ->
   insert_selected_by_index env now index s = (Raise PyperclipException, s)) /\
  (pyperclip_ok env = true -> window_open s = false ->
   insert_selected_by_index env now index s
   = (Raise AttributeError,
      set_current_clipboard text (emit (EvCopyText text) s))).
Proof.
  unfold insert_selected_by_index, copy_to_clipboard, close_and_paste, io_bind.
  rewrite Hguard, Hrange, Hrow, bool_decide_eq_false_2 by done.
  unfold get_str. rewrite Htext. simpl.
  destruct text as [|c text]; [done|]. split.
  - by intros ->.
  - intros -> Hclosed. simpl. by rewrite Hclosed.
Qed.

(** X15: a poll never reaches the outer exception handler: it always
    sleeps 0.3 s, never the 1 s back-off, whatever the clipboard and the
    disk answer.  It keeps the capacity, and it leaves the window and the
    view alone. *)
Theorem X15_monitor_tick_returns (env : Env) (cb : Clipboard) (w : Watcher) :
  let w' := fst (monitor_tick env cb w) in
  snd (monitor_tick env cb w) = (3 # 10)%Q /\
  monitoring w' = monitoring w /\
  max_history (app w') = max_history (app w) /\
  (length (history (app w)) <= max_history (app w) ->
   length (history (app w')) <= max_history (app w')) /\
  view (app w') = view (app w) /\
  window_open (app w') = window_open (app w) /\
  window_open_time (app w') = window_open_time (app w).
Proof.
  simpl.
  assert (Hadd : forall text img c,
    let a := exec (add_to_history env text img)
               (set_current_clipboard c (app w)) in
    max_history a = max_history (app w) /\
    (length (history (app w)) <= max_history (app w) ->
     length (history a) <= max_history a) /\
    view a = view (app w) /\ window_open a = window_open (app w) /\
    window_open_time a = window_open_time (app w)).
  { intros text img c. simpl.
    destruct (add_to_history_history env text img
                (set_current_clipboard c (app w))) as [Hm Hh].
    simpl in Hm, Hh. unfold exec in *.
    destruct (add_to_history_frame env text img
                (set_current_clipboard c (app w)))
      as (a & Ha & _ & _ & Hwo & _ & Ht & Hv).
    rewrite Ha in *. simpl in *. split; [done|]. split; [|done].
    intros Hc. rewrite Hm. destruct Hh as [-> |[e ->]]; [done|].
    by apply deque_append_length. }
  destruct (new_image cb w) as [d|] eqn:Hn.
  { rewrite (monitor_tick_image env cb w d Hn). simpl.
    split; [done|]. split; [done|]. apply (Hadd None (Some d) []). }
  destruct (paste cb) as [t|x] eqn:Hp.
  2: { rewrite monitor_tick_noop; [by repeat split|done|].
       intros t Ht. congruence. }
  destruct (decide (t = current_clipboard (app w))) as [Heq|Hne].
  { rewrite monitor_tick_noop; [by repeat split|done|].
    intros t' Ht'. left. congruence. }
  destruct (recordable t) eqn:Hr.
  - rewrite (monitor_tick_text env cb w t Hn Hp Hne Hr). simpl.
    split; [done|]. split; [done|]. apply (Hadd (Some t) None t).
  - rewrite monitor_tick_noop; [by repeat split|done|].
    intros t' Ht'. right. congruence.
Qed.


Lemma run_ticks_noop cb (envs : list Env) w :
  (forall env, monitor_tick env cb w = (w, (3 # 10)%Q)) ->
  run_ticks (map (fun env => (env, cb)) envs) w = w.
Proof.
  intros Hn. induction envs as [|env envs IH]; [done|].
  simpl. by rewrite Hn.
Qed.

(** X17: a clipboard content of one kind is recorded at most once.  When
    the clipboard offers a text and no image, or an image and no
    recordable text, the first poll may record it; every later poll that
    finds the same clipboard changes nothing, however many there are. *)
Theorem X17_monitor_tick_once (cb : Clipboard) (env : Env)
    (envs : list Env) (w : Watcher)
    (Hone : check_clipboard_image cb = None \/
            forall t, paste cb = Ok t -> recordable t = false) :
  run_ticks (map (fun e => (e, cb)) (env :: envs)) w
  = fst (monitor_tick env cb w).
Proof.
  simpl. apply run_ticks_noop. intros env'.
  destruct (new_image cb w) as [d|] eqn:Hn.
  - (* an image was recorded: there is no recordable text *)
    rewrite (monitor_tick_image env cb w d Hn). wsimpl.
    assert (Hc : check_clipboard_image cb = Some d).
    { unfold new_image in Hn. destruct (check_clipboard_image cb); [|done].
      by case_bool_decide; simplify_eq. }
    destruct Hone as [Hone|Hone]; [congruence|].
    apply monitor_tick_noop; [by apply (new_image_None_hash cb _ d)|].
    intros t Ht. right. by apply Hone.
  - assert (Hn' : forall w', current_clipboard_image_hash w'
                    = current_clipboard_image_hash w \/
                    check_clipboard_image cb = None ->
                  new_image cb w' = None).
    { intros w' [Hh|Hc]; unfold new_image in *; [by rewrite Hh|by rewrite Hc]. }
    destruct (paste cb) as [t|x] eqn:Hp.
    2: { rewrite (monitor_tick_noop env); [|done|intros t Ht; congruence]. wsimpl.
         apply monitor_tick_noop; [done|]. intros t Ht. congruence. }
    destruct (decide (t = current_clipboard (app w))) as [Heq|Hne].
    { rewrite (monitor_tick_noop env); [|done|intros t' Ht'; left; congruence].
      wsimpl. apply monitor_tick_noop; [done|].
      intros t' Ht'. left. congruence. }
    destruct (recordable t) eqn:Hr.
    + rewrite (monitor_tick_text env cb w t Hn Hp Hne Hr). wsimpl.
      destruct Hone as [Hone|Hone]; [|by rewrite (Hone t eq_refl) in Hr].
      apply monitor_tick_noop; [apply Hn'; by right|].
      intros t' Ht'. left. wsimpl.
      rewrite add_to_history_current_clipboard. simpl. congruence.
    + rewrite (monitor_tick_noop env); [|done|intros t' Ht'; right; congruence].
      wsimpl. apply monitor_tick_noop; [done|].
      intros t' Ht'. right. congruence.
Qed.







(** X19: a text that is committed back is not recorded again.  In an open
    window, a commit of a row with a text entry, outside the guard window
    and with a [pyperclip.copy] that succeeds, copies the text of
    the entry to the clipboard, remembers it as the current clipboard
    text, closes the window and starts the paste thread, with the history
    unchanged; the next poll, finding that text on the clipboard and no
    image, changes nothing. *)
Theorem X19_commit_text_then_tick (env env' : Env) (now : Q) (index : Z)
    (w : Watcher) (e : gmap string (list N)) (text : list N)
    (cb : Clipboard)
    (Hopen : window_open (app w) = true)
    (Hcopy : pyperclip_ok env = true)
    (Hguard : guard_active now (app w) = false)
    (Hrange : in_range index (get_filtered_history (app w)) = true)
    (Hrow : from_newest (get_filtered_history (app w)) index = Some e)
    (Htype : e !! "type" <> Some (str "image"))
    (Htext : e !! "text" = Some text) (Hne : text <> [])
    (Hnoimage : check_clipboard_image cb = None)
    (Hpaste : paste cb = Ok text) :
  let a := exec (insert_selected_by_index env now index) (app w) in
  let w' := {| app := a;
               current_clipboard_image_hash := current_clipboard_image_hash w;
               monitoring := monitoring w |} in
  insert_selected_by_index env now index (app w) = (Ok tt, a) /\
  log a = EvStartPasteThread :: EvDestroyWindow :: EvCopyText text
          :: log (app w) /\
  current_clipboard a = text /\ window_open a = false /\
  history a = history (app w) /\
  monitor_tick env' cb w' = (w', (3 # 10)%Q).
Proof.
  intros a w'.
  assert (Ha : insert_selected_by_index env now index (app w)
               = (Ok tt,
                  emit EvStartPasteThread
                    (emit EvDestroyWindow
                       (set_window false (window_just_opened (app w))
                          (window_open_time (app w))
                          (set_current_clipboard text
                             (emit (EvCopyText text) (app w))))))).
  { unfold insert_selected_by_index, copy_to_clipboard, close_and_paste,
      io_bind.
    rewrite Hguard, Hrange, Hrow, bool_decide_eq_false_2 by done.
    unfold get_str. rewrite Htext, Hcopy. simpl.
    destruct text; [done|]. simpl. by rewrite Hopen. }
  assert (Hex : a = emit EvStartPasteThread
                    (emit EvDestroyWindow
                       (set_window false (window_just_opened (app w))
                          (window_open_time (app w))
                          (set_current_clipboard text
                             (emit (EvCopyText text) (app w))))))
    by (unfold a, exec; by rewrite Ha).
  split; [by rewrite Hex|]. rewrite Hex. simpl.
  split; [done|]. split; [done|]. split; [done|]. split; [done|].
  apply monitor_tick_noop.
  - unfold new_image. by rewrite Hnoimage.
  - intros t Ht. left. subst w'. cbn [app]. rewrite Hex. simpl. congruence.
Qed.

(** X20: what is on the clipboard when the watcher starts is remembered,
    not recorded: when [pyperclip.paste()] answers, [monitor_start] leaves
    the history as it is, and the polls that follow change nothing as long
    as the clipboard stays the same, whether it holds a text, an image or
    both. *)
Theorem X20_monitor_start (cb : Clipboard) (envs : list Env) (w : Watcher)
    (t : list N) (Hpaste : paste cb = Ok t) :
  let w0 := monitor_start cb w in
  monitoring w0 = true /\
  history (app w0) = history (app w) /\
  current_clipboard (app w0) = t /\
  run_ticks (map (fun e => (e, cb)) envs) w0 = w0.
Proof.
  intros w0.
  assert (Hw0 : w0 = {| app := set_current_clipboard t (app w);
                        current_clipboard_image_hash :=
                          match check_clipboard_image cb with
                          | Some image_data => Some (md5 image_data)
                          | None => current_clipboard_image_hash w
                          end;
                        monitoring := true |}).
  { unfold w0, monitor_start. by rewrite Hpaste. }
  rewrite Hw0. simpl. split; [done|]. split; [done|]. split; [done|].
  apply run_ticks_noop. intros env. apply monitor_tick_noop.
  - unfold new_image. simpl. destruct (check_clipboard_image cb); [|done].
    by rewrite bool_decide_eq_false_2 by (by intros ?).
  - intros t' Ht'. left. simpl. congruence.
Qed.

(** *** Opening the window *)

(** X21: [show_history_window] never touches the history, the durable
    file or the files.  On a closed window it opens it, sets the guard
    flag and the opening time, resets the query and shows the whole
    history, most recent first, cursor on the first row.  On an open
    window it keeps the opening time and the query, clears the flag, and
    recomputes the rows from the history as it is now, so that entries
    recorded since become visible. *)
Theorem X21_show_history_window (t : Q) (s : ClipboardHistory) :
  let s' := exec (show_history_window t) s in
  same_store s s' /\
  (window_open s = false ->
   window_open s' = true /\ window_just_opened s' = true /\
   window_open_time s' = t /\ get_current_filter s' = [] /\
   rows s' = reverse (history s) /\
   cursor s' = match history s with [] => None | _ :: _ => Some 0%Z end) /\
  (window_open s = true ->
   window_open s' = true /\ window_just_opened s' = false /\
   window_open_time s' = window_open_time s /\
   get_current_filter s' = get_current_filter s /\
   (is_Some (view s) ->
    rows s' = reverse
                match get_current_filter s with
                | [] => history s
                | _ :: _ =>
                    filter (fun h => matches (lower (get_current_filter s)) h)
                      (history s)
                end)).
Proof.
  simpl. split; [apply show_history_window_same_store|]. split.
  - intros Hc.
    destruct (show_history_window_opens t s Hc) as [_ Hv].
    unfold rows, cursor, get_current_filter. rewrite Hv. simpl.
    split.
    { unfold exec, show_history_window, create_history_ui, io_bind, modify,
        update_history_list, select_item. rewrite Hc. simpl.
      by destruct (reverse (history s)). }
    split.
    { unfold exec, show_history_window, create_history_ui, io_bind, modify,
        update_history_list, select_item. rewrite Hc. simpl.
      by destruct (reverse (history s)). }
    split; [by apply show_history_window_closed|].
    split; [done|]. split; [done|].
    destruct (history s) as [|e l] eqn:Hh; [done|].
    destruct (reverse (e :: l)) eqn:Hr; [|done].
    apply (f_equal length) in Hr. rewrite length_reverse in Hr. done.
  - intros Ho.
    assert (Hs' : exists s1,
              update_history_list (get_current_filter s) s = (Ok tt, s1) /\
              exec (show_history_window t) s
              = set_window (window_open s1) false (window_open_time s1) s1).
    { destruct (update_history_list_store (get_current_filter s) s)
        as (s1 & Hs1 & _). exists s1. split; [done|].
      unfold exec, show_history_window. rewrite Ho.
      unfold io_bind, modify. by rewrite Hs1. }
    destruct Hs' as (s1 & Hs1 & ->).
    assert (Hs1' : s1 = exec (update_history_list (get_current_filter s)) s)
      by (unfold exec; by rewrite Hs1).
    assert (Hw1 : window_open s1 = window_open s /\
                  window_open_time s1 = window_open_time s).
    { rewrite Hs1'. split; [|apply update_history_list_time].
      unfold exec, update_history_list, select_item.
      repeat (case_match; simpl in *; simplify_eq); done. }
    destruct Hw1 as [Hwo Hwt]. simpl.
    split; [by rewrite Hwo|]. split; [done|]. split; [done|].
    assert (Hv1 : view (set_window (window_open s1) false
                          (window_open_time s1) s1) = view s1) by done.
    unfold get_current_filter at 1, rows. rewrite Hv1.
    fold (get_current_filter s1). split.
    + rewrite Hs1'. apply update_history_list_keeps_filter.
    + intros [v Hv].
      destruct (update_history_list_view (get_current_filter s) s v Hv)
        as (v' & Hv' & _ & Hf & Hi & _).
      rewrite <- Hs1' in Hv'. rewrite Hv', Hi, Hf. done.
Qed.

(** *** Starting *)

(** X23: [load_history] never raises and never writes.  A missing file and
    a file that cannot be read as a history leave the object as it is; a
    document without a [history] field gives an empty history.  So
    [__init__] starts with an empty history in these three cases, with or
    without [clear_on_startup]. *)
Theorem X23_load_history_unreadable (s : ClipboardHistory) (max : nat)
    (clear : bool) (disk : file) (fs : gmap (list N) (list Byte.byte))
    (env : Env) :
  (exists s', load_history s = (Ok tt, s') /\
     config_file s' = config_file s /\ files s' = files s /\
     log s' = log s /\ max_history s' = max_history s /\
     (config_file s = NoFile \/ config_file s = Garbage -> s' = s) /\
     (forall lu, config_file s = Json None lu -> history s' = [])) /\
  (disk = NoFile \/ disk = Garbage \/ (exists lu, disk = Json None lu) ->
   history (init max clear disk fs env) = []).
Proof.
  split.
  - unfold load_history, json_load, try_except, io_bind, io_ret, modify.
    destruct (config_file s) as [| |[h|] lu] eqn:Hc; simpl;
      eexists; (split; [reflexivity|]); simpl; repeat split; try done;
      try (by intros [?|?]).
    all: intros lu' Heq; by simplify_eq.
  - intros Hd.
    assert (Hl : forall s0, config_file s0 = disk -> history s0 = [] ->
              history (load_history s0).2 = []).
    { intros s0 Hc Hh.
      unfold load_history, json_load, try_except, io_bind, io_ret, modify.
      rewrite Hc. destruct Hd as [-> |[-> |[lu ->]]]; done. }
    unfold init, exec. unfold io_bind.
    match goal with |- context [load_history ?s0] =>
      specialize (Hl s0 eq_refl eq_refl);
      destruct (load_history s0) as [[[]|x] s1] end; simpl in *; [|done].
    destruct clear; [|done].
    by destruct (clear_history_ok env s1) as (s2 & -> & _ & Hh2).
Qed.

End Methods.

(** ** The theorems at concrete inputs *)

Lemma lower_basic_nil (x : list N) : lower_basic x = [] <-> x = [].
Proof. destruct x; simpl; split; intros H; congruence. Qed.

(** C2 at a concrete input: the history holds the text A and the text B
    arrives. *)
Lemma C2_adjacent_dedup_witness :
  let add := add_to_history hexdigest_plain thumbnail_same example_images_dir in
  let s := exec (add example_env (Some (str "A")) None)
             (init lower_basic 100 false NoFile ∅ example_env) in
  0 < max_history s /\
  storable hexdigest_plain example_images_dir example_env
    (Some (str "B")) None = true /\
  (history (exec (add example_env (Some (str "B")) None) s) = history s
   <-> duplicates_last hexdigest_plain (Some (str "B")) None (history s) = true).
Proof.
  intros add s.
  assert (Hmax : 0 < max_history s) by (vm_compute; lia).
  assert (Hst : storable hexdigest_plain example_images_dir example_env
                  (Some (str "B")) None = true) by reflexivity.
  split; [exact Hmax|]. split; [exact Hst|].
  exact (proj1 (C2_adjacent_dedup hexdigest_plain lower_basic thumbnail_same
                  example_images_dir example_env (Some (str "B")) None s
                  false ∅ example_env example_env example_env example_env
                  Hmax Hst)).
Defined.

(** C2 as stated fails: on an empty history a text of two spaces is
    skipped, and there is no last entry to be equal to. *)
Lemma C2_counterexample :
  let add := add_to_history hexdigest_plain thumbnail_same example_images_dir in
  let s := init lower_basic 100 false NoFile ∅ example_env in
  let s' := exec (add example_env (Some (str "  ")) None) s in
  history s = [] /\ s' = s /\
  duplicates_last hexdigest_plain (Some (str "  ")) None (history s) = false /\
  ~ (history s' = history s
     <-> duplicates_last hexdigest_plain (Some (str "  ")) None (history s)
         = true).
Proof.
  intros add s s'.
  assert (Hs : s' = s) by reflexivity.
  assert (Hd : duplicates_last hexdigest_plain (Some (str "  ")) None
                 (history s) = false) by reflexivity.
  split; [reflexivity|]. split; [exact Hs|]. split; [exact Hd|].
  intros [Himp _]. rewrite Hd in Himp. rewrite Hs in Himp.
  specialize (Himp eq_refl). discriminate.
Qed.

(** C3 as stated fails: the text A is not blank, yet appending it right
    after A creates no entry. *)
Lemma C3_counterexample :
  let add := add_to_history hexdigest_plain thumbnail_same example_images_dir in
  let s := exec (add example_env (Some (str "A")) None)
             (init lower_basic 100 false NoFile ∅ example_env) in
  let s' := exec (add example_env (Some (str "A")) None) s in
  strip (str "A") <> [] /\
  history s = [text_entry (str "A") (now_entry example_env)] /\
  s' = s /\
  history s' <> deque_append (max_history s) (history s)
                  (text_entry (str "A") (now_entry example_env)).
Proof.
  intros add s s'.
  assert (Hs : s' = s) by (vm_compute; reflexivity).
  split; [discriminate|]. split; [vm_compute; reflexivity|].
  split; [exact Hs|]. rewrite Hs.
  intros Heq. apply (f_equal length) in Heq. vm_compute in Heq. discriminate.
Qed.

(** C4 at a concrete input: two bytes are stored twice in a row, starting
    from an empty history. *)
Lemma C4_image_duplicate_witness :
  let add := add_to_history hexdigest_plain thumbnail_same example_images_dir in
  let data := [Byte.x01; Byte.x02] in
  let s := init lower_basic 100 false NoFile ∅ example_env in
  let s1 := exec (add example_env None (Some data)) s in
  let s2 := exec (add example_env None (Some data)) s1 in
  data <> [] /\ 0 < max_history s /\ PIL_AVAILABLE example_env = true /\
  write_ok example_env (blob_path hexdigest_plain example_images_dir data)
  = true /\
  length (history s1) = 1 /\ s2 = s1 /\
  length (history s2) = 1 /\
  files s2 !! blob_path hexdigest_plain example_images_dir data = Some data /\
  files s2 !! thumb_path hexdigest_plain example_images_dir data = Some data /\
  forall p, is_Some (files s2 !! p) ->
    p = blob_path hexdigest_plain example_images_dir data \/
    p = thumb_path hexdigest_plain example_images_dir data.
Proof.
  intros add data s s1 s2.
  assert (Hdata : data <> []) by discriminate.
  assert (Hmax : 0 < max_history s) by (vm_compute; lia).
  assert (HPIL : PIL_AVAILABLE example_env = true) by reflexivity.
  assert (Hw : write_ok example_env
                 (blob_path hexdigest_plain example_images_dir data) = true)
    by reflexivity.
  split; [exact Hdata|]. split; [exact Hmax|]. split; [exact HPIL|].
  split; [exact Hw|]. split; [vm_compute; reflexivity|].
  destruct (C4_image_duplicate hexdigest_plain thumbnail_same
              example_images_dir example_env example_env data s
              Hdata Hmax HPIL Hw) as (_ & _ & _ & Hsame & Honly & Hstored).
  destruct (Hstored eq_refl) as (pp & Hh & Hblob & _ & Hpp & Hthumb).
  split; [exact Hsame|].
  split; [exact (eq_trans (f_equal (@length _) Hh) eq_refl)|].
  split; [exact Hblob|]. split; [exact Hthumb|].
  intros p Hp. destruct (Honly p Hp) as [Hold|Hnew]; [|exact Hnew].
  destruct Hold as [x Hx]. vm_compute in Hx. discriminate Hx.
Defined.

(** C5 at a concrete input: a history with a legacy record (the text A,
    no [type] field) and the text B is saved and loaded; the legacy record
    comes back with [type = text], the other one as it was. *)
Lemma C5_save_load_roundtrip_witness :
  let legacy : gmap string (list N) := <["text" := str "A"]> ∅ in
  let typed := text_entry (str "B") (now_entry example_env) in
  let s := set_history [legacy; typed]
             (init lower_basic 100 false NoFile ∅ example_env) in
  let s1 := exec (save_history example_env) s in
  save_result example_env = SaveOk /\
  length (history s) <= max_history s /\
  history (exec load_history s1) = map default_type (history s) /\
  Forall2 loaded_as (history s) (history (exec load_history s1)) /\
  history (exec load_history s1)
  = [<["type" := str "text"]> legacy; typed].
Proof.
  intros legacy typed s s1.
  assert (Hsaved : save_result example_env = SaveOk) by reflexivity.
  assert (Hcap : length (history s) <= max_history s) by (vm_compute; lia).
  split; [exact Hsaved|]. split; [exact Hcap|].
  pose proof (C5_save_load_roundtrip lower_basic example_env example_env s ∅
                Hsaved Hcap) as H.
  split; [exact (proj1 H)|].
  split; [exact (proj1 (proj2 (proj2 (proj2 H))))|].
  exact (eq_trans (proj1 H) eq_refl).
Defined.

(** C6 at a concrete input: the window is open on the texts A and B and
    the query is "a". *)
Lemma C6_filter_witness :
  let add := add_to_history hexdigest_plain thumbnail_same example_images_dir in
  let s := exec (show_history_window lower_basic 1000)
             (exec (add example_env (Some (str "B")) None)
                (exec (add example_env (Some (str "A")) None)
                   (init lower_basic 100 false NoFile ∅ example_env))) in
  let s' := exec (update_history_list lower_basic (str "a")) s in
  is_Some (view s) /\
  (forall x, lower_basic x = [] <-> x = []) /\
  (str "a" <> [] ->
   rows s' = reverse (filter (fun h => matches lower_basic
                                         (lower_basic (str "a")) h)
                        (history s))) /\
  rows s' = [text_entry (str "A") (now_entry example_env)].
Proof.
  intros add s s'.
  assert (Hview : is_Some (view s)) by (vm_compute; eexists; reflexivity).
  split; [exact Hview|]. split; [exact lower_basic_nil|].
  split; [|vm_compute; reflexivity].
  intros Hq.
  exact (proj1 (proj2 (C6_filter lower_basic (str "a") s Hview lower_basic_nil)
                  Hq)).
Defined.

(** C6 as stated fails.  The window is open on one image entry.  The query
    "[" shows the entry although the query does not contain the keyword
    and does not occur in it; the query "x" followed by the keyword shows
    the entry although it does not occur in the placeholder and does not
    contain it.  So no fixed keyword decides the inclusion. *)
Lemma C6_counterexample :
  let img := image_entry (str "/i/ab.png") (str "/i/ab_preview.png")
               (str "ab") (str "2024-05-01T10:00:00") in
  let s := exec (show_history_window lower_basic 1000)
             (init lower_basic 100 false (Json (Some [img]) None) ∅
                example_env) in
  let q1 := str "[" in
  let q2 := str "x" ++ image_keyword in
  history s = [img] /\
  rows (exec (update_history_list lower_basic q1) s) = [img] /\
  keyword_match lower_basic image_keyword q1 = false /\
  rows (exec (update_history_list lower_basic q2) s) = [img] /\
  keyword_match lower_basic image_placeholder q2 = false /\
  ~ (forall q, q <> [] ->
       (img ∈ rows (exec (update_history_list lower_basic q) s)
        <-> keyword_match lower_basic image_keyword q = true)) /\
  ~ (forall q, q <> [] ->
       (img ∈ rows (exec (update_history_list lower_basic q) s)
        <-> keyword_match lower_basic image_placeholder q = true)).
Proof.
  intros img s q1 q2.
  assert (H1 : rows (exec (update_history_list lower_basic q1) s) = [img])
    by (vm_compute; reflexivity).
  assert (H2 : rows (exec (update_history_list lower_basic q2) s) = [img])
    by (vm_compute; reflexivity).
  assert (K1 : keyword_match lower_basic image_keyword q1 = false)
    by (vm_compute; reflexivity).
  assert (K2 : keyword_match lower_basic image_placeholder q2 = false)
    by (vm_compute; reflexivity).
  split; [vm_compute; reflexivity|].
  split; [exact H1|]. split; [exact K1|]. split; [exact H2|].
  split; [exact K2|]. split.
  - intros Hall. destruct (Hall q1) as [Himp _]; [discriminate|].
    rewrite H1, K1 in Himp. specialize (Himp (list_elem_of_here _ _)).
    discriminate.
  - intros Hall. destruct (Hall q2) as [Himp _]; [discriminate|].
    rewrite H2, K2 in Himp. specialize (Himp (list_elem_of_here _ _)).
    discriminate.
Qed.

(** C7 at a concrete input: the window is open on the texts A and B, the
    cursor is on the first row, and the Down key is pressed. *)
Lemma C7_navigate_witness :
  let add := add_to_history hexdigest_plain thumbnail_same example_images_dir in
  let s := exec (show_history_window lower_basic 1000)
             (exec (add example_env (Some (str "B")) None)
                (exec (add example_env (Some (str "A")) None)
                   (init lower_basic 100 false NoFile ∅ example_env))) in
  let s' := exec (navigate_list 1) s in
  (1%Z = 1%Z \/ 1%Z = (-1)%Z) /\ cursor_ok s /\
  navigate_list 1 s = (Ok tt, s') /\ cursor s = Some 0%Z /\
  cursor s' = Some 1%Z.
Proof.
  intros add s s'.
  assert (Hdir : 1%Z = 1%Z \/ 1%Z = (-1)%Z) by (left; reflexivity).
  assert (Hok : cursor_ok s).
  { intros _. exists 0%Z. split; [vm_compute; reflexivity|].
    vm_compute. split; [discriminate|reflexivity]. }
  split; [exact Hdir|]. split; [exact Hok|].
  split; [exact (proj1 (C7_navigate 1 s Hdir Hok))|].
  split; vm_compute; reflexivity.
Defined.

(** C8 at a concrete input: the text A is recorded, the window is opened
    at reading 1000 s and the flag thread has cleared the guard flag.  The
    commit of the first row at 1000.1 s is refused by the time test alone
    and changes nothing; the same commit at 1001 s copies A, closes the
    window and starts the paste thread. *)
Lemma C8_guard_window_witness :
  let add := add_to_history hexdigest_plain thumbnail_same example_images_dir in
  let s0 := exec (add example_env (Some (str "A")) None)
              (init lower_basic 100 false NoFile ∅ example_env) in
  let s := exec clear_window_flag
             (exec (show_history_window lower_basic 1000) s0) in
  since_open hexdigest_plain lower_basic thumbnail_same example_images_dir
    1000 s /\
  ((10001 # 10) - 1000 < 1 # 2)%Q /\
  window_just_opened s = false /\
  rows s = [text_entry (str "A") (now_entry example_env)] /\
  cursor s = Some 0%Z /\
  insert_selected_by_index example_env (10001 # 10) 0 s = (Ok tt, s) /\
  insert_selected example_env (10001 # 10) s = (Ok tt, s) /\
  log (exec (insert_selected_by_index example_env 1001 0) s)
  = EvStartPasteThread :: EvDestroyWindow :: EvCopyText (str "A") :: log s.
Proof.
  intros add s0 s.
  assert (Hsince : since_open hexdigest_plain lower_basic thumbnail_same
                     example_images_dir 1000 s)
    by (apply so_clear_flag, so_open; reflexivity).
  assert (Hwithin : ((10001 # 10) - 1000 < 1 # 2)%Q) by reflexivity.
  split; [exact Hsince|]. split; [exact Hwithin|].
  split; [vm_compute; reflexivity|]. split; [vm_compute; reflexivity|].
  split; [vm_compute; reflexivity|].
  pose proof (C8_guard_window hexdigest_plain lower_basic thumbnail_same
                example_images_dir example_env 1000 (10001 # 10) 0 s
                Hsince Hwithin) as H.
  split; [exact (proj1 H)|]. split; [exact (proj1 (proj2 H))|].
  vm_compute. reflexivity.
Defined.

(** C10 at a concrete input: capacity 2 and a file with the texts A, B, C. *)
Lemma C10_load_truncates_witness :
  let A := text_entry (str "A") (str "t1") in
  let B := text_entry (str "B") (str "t2") in
  let C := text_entry (str "C") (str "t3") in
  let s := {| max_history := 2; history := []; current_clipboard := [];
              config_file := Json (Some [A; B; C]) None; files := ∅;
              window_open := false; window_just_opened := false;
              window_open_time := 0%Q; view := None; log := [] |} in
  config_file s = Json (Some [A; B; C]) None /\
  max_history s < length [A; B; C] /\
  history (exec load_history s) = [B; C].
Proof.
  intros A B C s.
  assert (Hfile : config_file s = Json (Some [A; B; C]) None) by reflexivity.
  assert (Hmore : max_history s < length [A; B; C]) by (simpl; lia).
  split; [exact Hfile|]. split; [exact Hmore|].
  exact (proj1 (C10_load_truncates lower_basic s [A; B; C] None ∅ example_env
                  Hfile Hmore)).
Defined.

(** ** Geometry *)

(** X22: [center_window] puts a window that is not larger than the screen
    entirely on the screen, with left and right margins, and top and
    bottom margins, that differ by at most one pixel. *)
Theorem X22_center_window (width height screenwidth screenheight : Z)
    (Hwidth : (0 <= width <= screenwidth)%Z)
    (Hheight : (0 <= height <= screenheight)%Z) :
  let x := fst (center_window width height screenwidth screenheight) in
  let y := snd (center_window width height screenwidth screenheight) in
  (0 <= x /\ x + width <= screenwidth /\
   0 <= y /\ y + height <= screenheight /\
   -1 <= (screenwidth - (x + width)) - x <= 1 /\
   -1 <= (screenheight - (y + height)) - y <= 1)%Z.
Proof.
  simpl. repeat split; Z.div_mod_to_equations; lia.
Qed.

(** ** The further properties at concrete inputs *)

(** X22 for an 800 x 600 window on a 1920 x 1080 screen. *)
Lemma X22_center_window_witness :
  (0 <= 800 <= 1920)%Z /\ (0 <= 600 <= 1080)%Z /\
  center_window 800 600 1920 1080 = (560%Z, 240%Z) /\
  (0 <= fst (center_window 800 600 1920 1080))%Z.
Proof.
  assert (Hw : (0 <= 800 <= 1920)%Z) by lia.
  assert (Hh : (0 <= 600 <= 1080)%Z) by lia.
  split; [exact Hw|]. split; [exact Hh|]. split; [reflexivity|].
  exact (proj1 (X22_center_window 800 600 1920 1080 Hw Hh)).
Defined.

(** X6: a text is recorded, the window is opened and the row deleted, all
    saves succeeding. *)
Lemma X6_session_in_sync_witness :
  let l := [(example_env, Append (Some (str "A")) None);
            (example_env, ShowWindow 1000); (example_env, Delete)] in
  let s := init lower_basic 100 true NoFile ∅ example_env in
  Forall (fun ea : Env * action => save_result (fst ea) = SaveOk) l /\
  save_result example_env = SaveOk /\
  in_sync (run_session hexdigest_plain lower_basic thumbnail_same
             example_images_dir l s).
Proof.
  intros l s.
  assert (Hsaves : Forall (fun ea : Env * action =>
                             save_result (fst ea) = SaveOk) l)
    by (repeat constructor).
  assert (Hsave0 : save_result example_env = SaveOk) by reflexivity.
  split; [exact Hsaves|]. split; [exact Hsave0|].
  exact (proj2 (X6_session_in_sync hexdigest_plain lower_basic thumbnail_same
                  example_images_dir 100 NoFile ∅ example_env l s
                  Hsaves Hsave0)).
Defined.

(** X8: the texts A, A, B on an empty history. *)
Lemma X8_appends_adjacent_distinct_witness :
  let s := init lower_basic 100 false NoFile ∅ example_env in
  let ops := [append_text example_env (str "A");
              append_text example_env (str "A");
              append_text example_env (str "B")] in
  adjacent_distinct (history s) /\
  adjacent_distinct
    (history (run_appends hexdigest_plain thumbnail_same example_images_dir
                ops s)).
Proof.
  intros s ops.
  assert (Hstart : adjacent_distinct (history s)) by exact I.
  split; [exact Hstart|].
  exact (proj1 (X8_appends_adjacent_distinct hexdigest_plain lower_basic
                  thumbnail_same example_images_dir ops s 100 false ∅
                  example_env Hstart)).
Defined.

(** X9: two bytes are stored on an empty history. *)
Lemma X9_image_store_witness :
  let data := [Byte.x01; Byte.x02] in
  let s := init lower_basic 100 false NoFile ∅ example_env in
  let s' := exec (add_to_history hexdigest_plain thumbnail_same
                    example_images_dir example_env None (Some data)) s in
  data <> [] /\ 0 < max_history s /\ PIL_AVAILABLE example_env = true /\
  write_ok example_env (blob_path hexdigest_plain example_images_dir data)
  = true /\
  last_is_image (hexdigest_plain data) (history s) = false /\
  files s' !! blob_path hexdigest_plain example_images_dir data = Some data /\
  exists pp,
    last (history s')
    = Some (image_entry (blob_path hexdigest_plain example_images_dir data)
              pp (hexdigest_plain data) (now_entry example_env)).
Proof.
  intros data s s'.
  assert (Hdata : data <> []) by discriminate.
  assert (Hmax : 0 < max_history s) by (vm_compute; lia).
  assert (HPIL : PIL_AVAILABLE example_env = true) by reflexivity.
  assert (Hw : write_ok example_env
                 (blob_path hexdigest_plain example_images_dir data) = true)
    by reflexivity.
  assert (Hnew : last_is_image (hexdigest_plain data) (history s) = false)
    by reflexivity.
  split; [exact Hdata|]. split; [exact Hmax|]. split; [exact HPIL|].
  split; [exact Hw|]. split; [exact Hnew|].
  destruct (X9_image_store hexdigest_plain thumbnail_same example_images_dir
              example_env data s Hdata Hmax HPIL Hw Hnew)
    as (pp & Hlast & Hfile & _).
  split; [exact Hfile|]. exists pp. exact Hlast.
Defined.

(** X12: the texts A and B are recorded, the window is opened and the
    first row (B) is deleted. *)
Lemma X12_delete_selected_row_witness :
  let add := add_to_history hexdigest_plain thumbnail_same example_images_dir in
  let s := exec (show_history_window lower_basic 1000)
             (exec (add example_env (Some (str "B")) None)
                (exec (add example_env (Some (str "A")) None)
                   (init lower_basic 100 false NoFile ∅ example_env))) in
  let e := text_entry (str "B") (now_entry example_env) in
  let s' := exec (delete_selected lower_basic example_env) s in
  window_open s = true /\
  view_consistent s /\ cursor s = Some (Z.of_nat 0) /\
  rows s !! 0 = Some e /\ e ∈ history s /\
  delete_selected lower_basic example_env s = (Ok tt, s') /\
  history s' = [text_entry (str "A") (now_entry example_env)].
Proof.
  intros add s e s'.
  assert (Hopen : window_open s = true) by (vm_compute; reflexivity).
  assert (Hcons : view_consistent s) by (vm_compute; reflexivity).
  assert (Hcursor : cursor s = Some (Z.of_nat 0)) by (vm_compute; reflexivity).
  assert (Hrow : rows s !! 0 = Some e) by (vm_compute; reflexivity).
  assert (Hh : history s = [text_entry (str "A") (now_entry example_env); e])
    by (vm_compute; reflexivity).
  assert (Hin : e ∈ history s).
  { rewrite Hh. apply list_elem_of_further, list_elem_of_here. }
  split; [exact Hopen|].
  split; [exact Hcons|]. split; [exact Hcursor|]. split; [exact Hrow|].
  split; [exact Hin|].
  split; [exact (proj1 (X12_delete_selected_row lower_basic example_env s 0 e
                          Hopen Hcons Hcursor Hrow Hin))|].
  vm_compute. reflexivity.
Defined.


(** X17: the clipboard holds the text A and no image, for three polls. *)
Lemma X17_monitor_tick_once_witness :
  let cb := {| xclip := fun _ => Raise OSError; paste := Ok (str "A") |} in
  let w := {| app := init lower_basic 100 false NoFile ∅ example_env;
              current_clipboard_image_hash := None; monitoring := true |} in
  (check_clipboard_image cb = None \/
   forall t, paste cb = Ok t -> recordable t = false) /\
  run_ticks hexdigest_plain thumbnail_same example_images_dir
    (map (fun e => (e, cb)) [example_env; example_env; example_env]) w
  = fst (monitor_tick hexdigest_plain thumbnail_same example_images_dir
           example_env cb w).
Proof.
  intros cb w.
  assert (Hone : check_clipboard_image cb = None \/
                 forall t, paste cb = Ok t -> recordable t = false)
    by (left; reflexivity).
  split; [exact Hone|].
  exact (X17_monitor_tick_once hexdigest_plain thumbnail_same
           example_images_dir cb example_env [example_env; example_env] w Hone).
Defined.


(** X19: the text A is recorded, the window is opened at 1000 s, and the
    row is committed at 1001 s; the next poll finds A on the clipboard. *)
Lemma X19_commit_text_then_tick_witness :
  let add := add_to_history hexdigest_plain thumbnail_same example_images_dir in
  let a0 := exec clear_window_flag
              (exec (show_history_window lower_basic 1000)
                 (exec (add example_env (Some (str "A")) None)
                    (init lower_basic 100 false NoFile ∅ example_env))) in
  let w := {| app := a0; current_clipboard_image_hash := None;
              monitoring := true |} in
  let e := text_entry (str "A") (now_entry example_env) in
  let cb := {| xclip := fun _ => Raise OSError; paste := Ok (str "A") |} in
  let a := exec (insert_selected_by_index example_env 1001 0) (app w) in
  window_open (app w) = true /\ pyperclip_ok example_env = true /\
  guard_active 1001 (app w) = false /\
  in_range 0 (get_filtered_history (app w)) = true /\
  from_newest (get_filtered_history (app w)) 0 = Some e /\
  e !! "type" <> Some (str "image") /\ e !! "text" = Some (str "A") /\
  str "A" <> [] /\ check_clipboard_image cb = None /\
  paste cb = Ok (str "A") /\
  current_clipboard a = str "A".
Proof.
  intros add a0 w e cb a.
  assert (Hopen : window_open (app w) = true) by (vm_compute; reflexivity).
  assert (Hcopy : pyperclip_ok example_env = true) by reflexivity.
  assert (Hguard : guard_active 1001 (app w) = false)
    by (vm_compute; reflexivity).
  assert (Hrange : in_range 0 (get_filtered_history (app w)) = true)
    by (vm_compute; reflexivity).
  assert (Hrow : from_newest (get_filtered_history (app w)) 0 = Some e)
    by (vm_compute; reflexivity).
  assert (Htype : e !! "type" <> Some (str "image")) by discriminate.
  assert (Htext : e !! "text" = Some (str "A")) by reflexivity.
  assert (Hne : str "A" <> []) by discriminate.
  assert (Hnoimage : check_clipboard_image cb = None) by reflexivity.
  assert (Hpaste : paste cb = Ok (str "A")) by reflexivity.
  split; [exact Hopen|]. split; [exact Hcopy|].
  split; [exact Hguard|]. split; [exact Hrange|]. split; [exact Hrow|].
  split; [exact Htype|]. split; [exact Htext|]. split; [exact Hne|].
  split; [exact Hnoimage|]. split; [exact Hpaste|].
  exact (proj1 (proj2 (proj2
           (X19_commit_text_then_tick hexdigest_plain thumbnail_same
              example_images_dir example_env example_env 1001 0 w e (str "A")
              cb Hopen Hcopy Hguard Hrange Hrow Htype Htext Hne Hnoimage Hpaste)))).
Defined.

(** X20: the watcher starts on a clipboard that holds the text A. *)
Lemma X20_monitor_start_witness :
  let cb := {| xclip := fun _ => Raise OSError; paste := Ok (str "A") |} in
  let w := {| app := init lower_basic 100 false NoFile ∅ example_env;
              current_clipboard_image_hash := None; monitoring := false |} in
  let w0 := monitor_start hexdigest_plain cb w in
  paste cb = Ok (str "A") /\
  run_ticks hexdigest_plain thumbnail_same example_images_dir
    (map (fun e => (e, cb)) [example_env; example_env]) w0 = w0.
Proof.
  intros cb w w0.
  assert (Hpaste : paste cb = Ok (str "A")) by reflexivity.
  split; [exact Hpaste|].
  exact (proj2 (proj2 (proj2
           (X20_monitor_start hexdigest_plain thumbnail_same
              example_images_dir cb [example_env; example_env] w (str "A")
              Hpaste)))).
Defined.

(** X10: the texts A and B are recorded, the window is opened and the
    history is cleared. *)
Lemma X10_clear_history_witness :
  let add := add_to_history hexdigest_plain thumbnail_same example_images_dir in
  let s := exec (show_history_window lower_basic 1000)
             (exec (add example_env (Some (str "B")) None)
                (exec (add example_env (Some (str "A")) None)
                   (init lower_basic 100 false NoFile ∅ example_env))) in
  let s' := exec (clear_history lower_basic example_env) s in
  (window_open s = true \/ view s = None) /\
  length (history s) = 2 /\
  clear_history lower_basic example_env s = (Ok tt, s') /\
  history s' = [].
Proof.
  intros add s s'.
  assert (Hwindow : window_open s = true \/ view s = None)
    by (left; vm_compute; reflexivity).
  split; [exact Hwindow|]. split; [vm_compute; reflexivity|].
  pose proof (X10_clear_history lower_basic example_env s Hwindow) as H.
  split; [exact (proj1 H)|exact (proj1 (proj2 H))].
Defined.

(** X5: an object is started on a file with one legacy record (a text
    without a [type] field); a text is recorded, the window is opened and
    the first row deleted. *)
Lemma X5_session_typed_witness :
  let legacy : gmap string (list N) := <["text" := str "A"]> ∅ in
  let s := init lower_basic 100 false (Json (Some [legacy]) None) ∅
             example_env in
  let l := [(example_env, Append (Some (str "B")) None);
            (example_env, ShowWindow 1000); (example_env, Delete)] in
  Forall (fun e : gmap string (list N) => is_Some (e !! "type")) (history s) /\
  Forall (fun e : gmap string (list N) => is_Some (e !! "type"))
    (history (run_session hexdigest_plain lower_basic thumbnail_same
                example_images_dir l s)).
Proof.
  intros legacy s l.
  assert (Htyped : Forall (fun e : gmap string (list N) =>
                             is_Some (e !! "type")) (history s)).
  { vm_compute. constructor; [|constructor]. eexists. reflexivity. }
  split; [exact Htyped|].
  exact (proj1 (X5_session_typed hexdigest_plain lower_basic thumbnail_same
                  example_images_dir l s Htyped)).
Defined.

(** X7: the window is open on the texts A and B; the user moves the
    cursor down and then searches for "a". *)
Lemma X7_session_view_witness :
  let add := add_to_history hexdigest_plain thumbnail_same example_images_dir in
  let s := exec (show_history_window lower_basic 1000)
             (exec (add example_env (Some (str "B")) None)
                (exec (add example_env (Some (str "A")) None)
                   (init lower_basic 100 false NoFile ∅ example_env))) in
  let l := [(example_env, Key 1); (example_env, Search (str "a"))] in
  let s' := run_session hexdigest_plain lower_basic thumbnail_same
              example_images_dir l s in
  cursor_ok s /\ view_consistent s /\
  cursor_ok s' /\ view_consistent s' /\
  rows s' = [text_entry (str "A") (now_entry example_env)].
Proof.
  intros add s l s'.
  assert (Hcursor : cursor_ok s).
  { intros _. exists 0%Z. split; [vm_compute; reflexivity|].
    vm_compute. split; [discriminate|reflexivity]. }
  assert (Hcons : view_consistent s) by (vm_compute; reflexivity).
  split; [exact Hcursor|]. split; [exact Hcons|].
  pose proof (X7_session_view hexdigest_plain lower_basic thumbnail_same
                example_images_dir l s Hcursor Hcons) as H.
  split; [exact (proj1 H)|]. split; [exact (proj1 (proj2 H))|].
  vm_compute. reflexivity.
Defined.

(** X24: the text A is committed from the window opened at 1000 s, which
    closes the window; a second commit request on the same object finds
    no window. *)
Lemma X24_commit_text_raises_witness :
  let add := add_to_history hexdigest_plain thumbnail_same example_images_dir in
  let s := exec (insert_selected_by_index example_env 1001 0)
             (exec clear_window_flag
                (exec (show_history_window lower_basic 1000)
                   (exec (add example_env (Some (str "A")) None)
                      (init lower_basic 100 false NoFile ∅ example_env)))) in
  let e := text_entry (str "A") (now_entry example_env) in
  guard_active 1002 s = false /\
  in_range 0 (get_filtered_history s) = true /\
  from_newest (get_filtered_history s) 0 = Some e /\
  e !! "type" <> Some (str "image") /\ e !! "text" = Some (str "A") /\
  str "A" <> [] /\
  pyperclip_ok example_env = true /\ window_open s = false /\
  insert_selected_by_index example_env 1002 0 s
  = (Raise AttributeError,
     set_current_clipboard (str "A") (emit (EvCopyText (str "A")) s)).
Proof.
  intros add s e.
  assert (Hguard : guard_active 1002 s = false) by (vm_compute; reflexivity).
  assert (Hrange : in_range 0 (get_filtered_history s) = true)
    by (vm_compute; reflexivity).
  assert (Hrow : from_newest (get_filtered_history s) 0 = Some e)
    by (vm_compute; reflexivity).
  assert (Htype : e !! "type" <> Some (str "image")) by discriminate.
  assert (Htext : e !! "text" = Some (str "A")) by reflexivity.
  assert (Hne : str "A" <> []) by discriminate.
  assert (Hcopy : pyperclip_ok example_env = true) by reflexivity.
  assert (Hclosed : window_open s = false) by (vm_compute; reflexivity).
  split; [exact Hguard|]. split; [exact Hrange|]. split; [exact Hrow|].
  split; [exact Htype|]. split; [exact Htext|]. split; [exact Hne|].
  split; [exact Hcopy|]. split; [exact Hclosed|].
  exact (proj2 (X24_commit_text_raises example_env 1002 0 s e (str "A")
                  Hguard Hrange Hrow Htype Htext Hne) Hcopy Hclosed).
Defined.
